(** * Meridian runtime: scene-manifest interpreter

    A shallow embedding of the JavaScript runtime (camera.js, light.js,
    assetManager.js, utility.js, scene.js, app.js, custom-features.js),
    the properties its specification states about it, and further
    properties read off the code.

    Numbers are JavaScript doubles in the source.  They are read here as
    exact real numbers ([R]) for the transform mathematics and as exact
    rationals ([Q]) for the loading fraction: rounding, NaN and the sign of
    zero are outside this reading. *)

From Stdlib Require Import Reals Lra Lia ZArith QArith Qround List String Ascii Bool.
From Stdlib Require Import Sorted Permutation DecimalString.
From Stdlib Require HexadecimalString.
Import ListNotations.
Close Scope Q_scope.

(* ================================================================== *)
(** * The host language's Math object *)
(* ================================================================== *)

Module JSMath.
Local Open Scope R_scope.

(** Modelled from the spec: the host's [Math.atan2(y, x)], used by the
    engine's quaternion-to-Euler conversion; the angle of the point
    (x, y), in (-PI, PI].  With no signed zero, a zero [y] left of the
    origin gives [PI]. *)
Definition atan2 (y x : R) : R :=
  if Rlt_dec 0 x then atan (y / x)
  else if Rlt_dec x 0 then
    (if Rle_dec 0 y then atan (y / x) + PI else atan (y / x) - PI)
  else if Rlt_dec 0 y then PI / 2
  else if Rlt_dec y 0 then - (PI / 2)
  else 0.

End JSMath.

(* ================================================================== *)
(** * The rendering engine's math classes *)
(* ================================================================== *)

(** The rendering engine is an external collaborator (spec, section 6)
    and none of its code is part of the repository.  The spec names what
    the repository asks of it: a row-major 4x4 matrix class, its
    transposition, its decomposition into scale / rotation quaternion /
    translation, a rotation about the up axis, matrix product, and
    quaternion <-> rotation matrix <-> Euler angle conversions.  The
    definitions below are those operations as the engine's math API
    computes them, entry by entry.  The engine's short cuts for a matrix
    flagged as the identity return what the general formulas return and
    are left out. *)
Module BABYLON.
Local Open Scope R_scope.

Record Vector3 := mkVector3 { vx : R; vy : R; vz : R }.

Record Quaternion := mkQuaternion { qx : R; qy : R; qz : R; qw : R }.

(** The sixteen entries [m[0] .. m[15]], stored row by row; a vector is a
    row, so a translation sits in [m[12], m[13], m[14]]. *)
Record Matrix := FromValues {
  m0 : R;  m1 : R;  m2 : R;  m3 : R;
  m4 : R;  m5 : R;  m6 : R;  m7 : R;
  m8 : R;  m9 : R;  m10 : R; m11 : R;
  m12 : R; m13 : R; m14 : R; m15 : R }.

(** [new BABYLON.Vector3()] and [new BABYLON.Quaternion()]. *)
Definition Vector3_new : Vector3 := mkVector3 0 0 0.
Definition Quaternion_new : Quaternion := mkQuaternion 0 0 0 1.

Definition Identity : Matrix :=
  FromValues 1 0 0 0  0 1 0 0  0 0 1 0  0 0 0 1.

(** Modelled from the spec: the engine's [Matrix.FromArray(array)], which
    copies [array[0] .. array[15]] in order into [m[0] .. m[15]].
    An entry read past the end of the array is [undefined] in the source
    (NaN once stored); it is read as 0 here, and every statement about a
    decoder is about arrays of sixteen numbers. *)
Definition FromArray (array : list R) : Matrix :=
  let a i := nth i array 0 in
  FromValues (a 0%nat) (a 1%nat) (a 2%nat) (a 3%nat)
             (a 4%nat) (a 5%nat) (a 6%nat) (a 7%nat)
             (a 8%nat) (a 9%nat) (a 10%nat) (a 11%nat)
             (a 12%nat) (a 13%nat) (a 14%nat) (a 15%nat).

(** Modelled from the spec: the engine's [matrix.transpose()]: entry
    [m[4 i + j]] of the result is entry [m[4 j + i]] of the matrix. *)
Definition transpose (m : Matrix) : Matrix :=
  FromValues (m0 m) (m4 m) (m8 m)  (m12 m)
             (m1 m) (m5 m) (m9 m)  (m13 m)
             (m2 m) (m6 m) (m10 m) (m14 m)
             (m3 m) (m7 m) (m11 m) (m15 m).

(** Modelled from the spec: the engine's [matrix.determinant()], by
    cofactors of the first row. *)
Definition determinant (m : Matrix) : R :=
  let d00 := m0 m in let d01 := m1 m in let d02 := m2 m in let d03 := m3 m in
  let d10 := m4 m in let d11 := m5 m in let d12 := m6 m in let d13 := m7 m in
  let d20 := m8 m in let d21 := m9 m in let d22 := m10 m in let d23 := m11 m in
  let d30 := m12 m in let d31 := m13 m in let d32 := m14 m in let d33 := m15 m in
  let det_22_33 := d22 * d33 - d32 * d23 in
  let det_21_33 := d21 * d33 - d31 * d23 in
  let det_21_32 := d21 * d32 - d31 * d22 in
  let det_20_33 := d20 * d33 - d30 * d23 in
  let det_20_32 := d20 * d32 - d22 * d30 in
  let det_20_31 := d20 * d31 - d30 * d21 in
  let cofact_00 := d11 * det_22_33 - d12 * det_21_33 + d13 * det_21_32 in
  let cofact_01 := - (d10 * det_22_33 - d12 * det_20_33 + d13 * det_20_32) in
  let cofact_02 := d10 * det_21_33 - d11 * det_20_33 + d13 * det_20_31 in
  let cofact_03 := - (d10 * det_21_32 - d11 * det_20_32 + d12 * det_20_31) in
  d00 * cofact_00 + d01 * cofact_01 + d02 * cofact_02 + d03 * cofact_03.

(** Modelled from the spec: the engine's
    [Quaternion.FromRotationMatrixToRef(matrix, result)]: the quaternion
    of the upper-left 3x3 block, by the branch of the largest diagonal
    term. *)
Definition FromRotationMatrix (matrix : Matrix) : Quaternion :=
  let r11 := m0 matrix in let r12 := m4 matrix in let r13 := m8 matrix in
  let r21 := m1 matrix in let r22 := m5 matrix in let r23 := m9 matrix in
  let r31 := m2 matrix in let r32 := m6 matrix in let r33 := m10 matrix in
  let trace := r11 + r22 + r33 in
  let largest_11 :=
    if Rlt_dec r22 r11 then (if Rlt_dec r33 r11 then true else false) else false in
  if Rlt_dec 0 trace then
    let s := 0.5 / sqrt (trace + 1) in
    mkQuaternion ((r32 - r23) * s) ((r13 - r31) * s) ((r21 - r12) * s) (0.25 / s)
  else if largest_11 then
    let s := 2 * sqrt (1 + r11 - r22 - r33) in
    mkQuaternion (0.25 * s) ((r12 + r21) / s) ((r13 + r31) / s) ((r32 - r23) / s)
  else if Rlt_dec r33 r22 then
    let s := 2 * sqrt (1 + r22 - r11 - r33) in
    mkQuaternion ((r12 + r21) / s) (0.25 * s) ((r23 + r32) / s) ((r13 - r31) / s)
  else
    let s := 2 * sqrt (1 + r33 - r11 - r22) in
    mkQuaternion ((r13 + r31) / s) ((r23 + r32) / s) (0.25 * s) ((r21 - r12) / s).

(** Modelled from the spec: the engine's
    [matrix.decompose(scale, rotation, translation)]; the three results,
    in the order of the call's arguments.  The translation is the fourth
    row, [m[12], m[13], m[14]]; the scale is the length of each of the
    first three rows, the second negated for a non-positive determinant;
    the rotation is the quaternion of the rows divided by their scale, or
    the identity quaternion when a scale is zero. *)
Definition decompose (m : Matrix) : Vector3 * Quaternion * Vector3 :=
  let translation := mkVector3 (m12 m) (m13 m) (m14 m) in
  let sx := sqrt (m0 m * m0 m + m1 m * m1 m + m2 m * m2 m) in
  let sy0 := sqrt (m4 m * m4 m + m5 m * m5 m + m6 m * m6 m) in
  let sz := sqrt (m8 m * m8 m + m9 m * m9 m + m10 m * m10 m) in
  let sy := if Rle_dec (determinant m) 0 then sy0 * -1 else sy0 in
  let scale := mkVector3 sx sy sz in
  if Req_dec_T sx 0 then (scale, mkQuaternion 0 0 0 1, translation)
  else if Req_dec_T sy 0 then (scale, mkQuaternion 0 0 0 1, translation)
  else if Req_dec_T sz 0 then (scale, mkQuaternion 0 0 0 1, translation)
  else
    let isx := 1 / sx in let isy := 1 / sy in let isz := 1 / sz in
    let rot := FromRotationMatrix
      (FromValues (m0 m * isx) (m1 m * isx) (m2 m * isx) 0
                  (m4 m * isy) (m5 m * isy) (m6 m * isy) 0
                  (m8 m * isz) (m9 m * isz) (m10 m * isz) 0
                  0 0 0 1) in
    (scale, rot, translation).

(** Modelled from the spec: the engine's
    [quaternion.toRotationMatrix(result)]. *)
Definition toRotationMatrix (quat : Quaternion) : Matrix :=
  let xx := qx quat * qx quat in
  let yy := qy quat * qy quat in
  let zz := qz quat * qz quat in
  let xy := qx quat * qy quat in
  let zw := qz quat * qw quat in
  let zx := qz quat * qx quat in
  let yw := qy quat * qw quat in
  let yz := qy quat * qz quat in
  let xw := qx quat * qw quat in
  FromValues (1 - 2 * (yy + zz)) (2 * (xy + zw)) (2 * (zx - yw)) 0
             (2 * (xy - zw)) (1 - 2 * (zz + xx)) (2 * (yz + xw)) 0
             (2 * (zx + yw)) (2 * (yz - xw)) (1 - 2 * (yy + xx)) 0
             0 0 0 1.

(** Modelled from the spec: the engine's [Matrix.RotationY(angle)], the
    rotation about the up axis. *)
Definition RotationY (angle : R) : Matrix :=
  let s := sin angle in
  let c := cos angle in
  FromValues c 0 (- s) 0  0 1 0 0  s 0 c 0  0 0 0 1.

(** Modelled from the spec: the engine's [a.multiplyToRef(b, result)];
    the product [a * b], written out entry by entry. *)
Definition multiply (a b : Matrix) : Matrix :=
  FromValues
    (m0 a * m0 b + m1 a * m4 b + m2 a * m8 b + m3 a * m12 b)
    (m0 a * m1 b + m1 a * m5 b + m2 a * m9 b + m3 a * m13 b)
    (m0 a * m2 b + m1 a * m6 b + m2 a * m10 b + m3 a * m14 b)
    (m0 a * m3 b + m1 a * m7 b + m2 a * m11 b + m3 a * m15 b)
    (m4 a * m0 b + m5 a * m4 b + m6 a * m8 b + m7 a * m12 b)
    (m4 a * m1 b + m5 a * m5 b + m6 a * m9 b + m7 a * m13 b)
    (m4 a * m2 b + m5 a * m6 b + m6 a * m10 b + m7 a * m14 b)
    (m4 a * m3 b + m5 a * m7 b + m6 a * m11 b + m7 a * m15 b)
    (m8 a * m0 b + m9 a * m4 b + m10 a * m8 b + m11 a * m12 b)
    (m8 a * m1 b + m9 a * m5 b + m10 a * m9 b + m11 a * m13 b)
    (m8 a * m2 b + m9 a * m6 b + m10 a * m10 b + m11 a * m14 b)
    (m8 a * m3 b + m9 a * m7 b + m10 a * m11 b + m11 a * m15 b)
    (m12 a * m0 b + m13 a * m4 b + m14 a * m8 b + m15 a * m12 b)
    (m12 a * m1 b + m13 a * m5 b + m14 a * m9 b + m15 a * m13 b)
    (m12 a * m2 b + m13 a * m6 b + m14 a * m10 b + m15 a * m14 b)
    (m12 a * m3 b + m13 a * m7 b + m14 a * m11 b + m15 a * m15 b).

(** Modelled from the spec: the engine's [quaternion.toEulerAngles()]. *)
Definition toEulerAngles (q : Quaternion) : Vector3 :=
  let zAxisY := qy q * qz q - qx q * qw q in
  let limit := 0.4999999 in
  if Rlt_dec zAxisY (- limit) then
    mkVector3 (PI / 2) (2 * JSMath.atan2 (qy q) (qw q)) 0
  else if Rlt_dec limit zAxisY then
    mkVector3 (- PI / 2) (2 * JSMath.atan2 (qy q) (qw q)) 0
  else
    let sqw := qw q * qw q in
    let sqz := qz q * qz q in
    let sqx := qx q * qx q in
    let sqy := qy q * qy q in
    mkVector3
      (asin (-2 * zAxisY))
      (JSMath.atan2 (2 * (qz q * qx q + qy q * qw q)) (sqz - sqx - sqy + sqw))
      (JSMath.atan2 (2 * (qx q * qy q + qz q * qw q)) (- sqz - sqx + sqy + sqw)).

(** Modelled from the spec: the engine's
    [Vector3.TransformCoordinates(vector, transformation)]. *)
Definition TransformCoordinates (v : Vector3) (t : Matrix) : Vector3 :=
  let rx := vx v * m0 t + vy v * m4 t + vz v * m8 t + m12 t in
  let ry := vx v * m1 t + vy v * m5 t + vz v * m9 t + m13 t in
  let rz := vx v * m2 t + vy v * m6 t + vz v * m10 t + m14 t in
  let rw := 1 / (vx v * m3 t + vy v * m7 t + vz v * m11 t + m15 t) in
  mkVector3 (rx * rw) (ry * rw) (rz * rw).

End BABYLON.

(* ================================================================== *)
(** * Values of the host language *)
(* ================================================================== *)

Module JS.

(** What a [catch] can receive: an [Error] (or one of its subclasses,
    [TypeError], [SyntaxError]) with its message, or a failed asset task,
    which the loading promise is rejected with as it is and which has no
    [message] property. *)
Inductive exn :=
| Error (message : string)
| TypeError (message : string)
| SyntaxError (message : string)
| FailedTask (task : string).

(** [error.message]; [None] is [undefined]. *)
Definition message (e : exn) : option string :=
  match e with
  | Error m => Some m
  | TypeError m => Some m
  | SyntaxError m => Some m
  | FailedTask _ => None
  end.

(** How a statement, or an asynchronous function, ends: it returns, it
    throws, or it stays parked on a promise that nothing settles. *)
Inductive completion (A : Type) :=
| Normal (a : A)
| Throw (e : exn)
| Suspended.
Arguments Normal {A} a.
Arguments Throw {A} e.
Arguments Suspended {A}.

(** Truthiness of the values a manifest field can hold. *)
Definition truthy_number (r : R) : bool :=
  if Req_dec_T r 0 then false else true.

Definition truthy_string (s : string) : bool :=
  negb (String.eqb s "").

(** [field || fallback] on an optional string, number or boolean field;
    [None] is [undefined]. *)
Definition or_string (field : option string) (fallback : string) : string :=
  match field with
  | Some s => if truthy_string s then s else fallback
  | None => fallback
  end.

Definition or_number (field : option R) (fallback : R) : R :=
  match field with
  | Some r => if truthy_number r then r else fallback
  | None => fallback
  end.

Definition or_false (field : option bool) : bool :=
  match field with Some b => b | None => false end.

(** A template literal's rendering of an optional string field. *)
Definition show (field : option string) : string :=
  match field with Some s => s | None => "undefined" end.

Definition show_number (n : Z) : string :=
  NilZero.string_of_int (Z.to_int n).

(** [s.lastIndexOf(c)], -1 when [c] does not occur. *)
Fixpoint lastIndexOf_from (c : ascii) (s : string) (i : Z) (found : Z) : Z :=
  match s with
  | EmptyString => found
  | String d rest =>
      lastIndexOf_from c rest (i + 1) (if Ascii.eqb d c then i else found)
  end.

Definition lastIndexOf (s : string) (c : ascii) : Z :=
  lastIndexOf_from c s 0 (-1).

(** [s.substring(start, end)] and [s.substring(start)], for indices that
    are not negative. *)
Definition substring (s : string) (start stop : Z) : string :=
  String.substring (Z.to_nat start) (Z.to_nat (stop - start)) s.

Definition substring_from (s : string) (start : Z) : string :=
  String.substring (Z.to_nat start) (String.length s - Z.to_nat start) s.

(** [s.includes(t)]. *)
Fixpoint includes (s t : string) : bool :=
  String.prefix t s ||
  match s with
  | EmptyString => false
  | String _ rest => includes rest t
  end.

End JS.

(* ================================================================== *)
(** * The scene graph and the world the runtime acts on *)
(* ================================================================== *)

Import BABYLON.

Record Color3 := mkColor3 { cr : R; cg : R; cb : R }.
Record Color4 := mkColor4 { c4r : R; c4g : R; c4b : R; c4a : R }.

(** A mesh of the scene, with the two properties the runtime assigns. *)
Record Mesh := mkMesh {
  mesh_name : string;
  receiveShadows : bool;
  hasActionManager : bool }.

(** A shadow generator: map size, the meshes it renders, and the settings
    the runtime assigns ([None]: left as the engine made it). *)
Record ShadowGenerator := mkShadowGenerator {
  mapSize : Z;
  renderList : list string;
  usePercentageCloserFiltering : option bool;
  bias : option R;
  useBlurExponentialShadowMap : option bool;
  blurScale : option R }.

Inductive LightKind := PointLight | SpotLight | DirectionalLight | HemisphericLight.

(** A light.  A field is [None] when the runtime neither passed it to the
    constructor nor assigned it afterwards. *)
Record Light := mkLight {
  kind : LightKind;
  light_id : string;
  light_position : option Vector3;
  light_direction : option Vector3;
  light_angle : option R;
  light_exponent : option R;
  diffuse : option Color3;
  specular : option Color3;
  intensity : option R;
  range : option R;
  shadowGenerator : option ShadowGenerator }.

(** The universal camera [setupCamera] builds. *)
Record Camera := mkCamera {
  camera_id : string;
  position : Vector3;
  rotation : Vector3;
  attached : bool;
  speed : R;
  inertia : R;
  angularSensibility : R;
  keysUp : list Z;
  keysDown : list Z;
  keysLeft : list Z;
  keysRight : list Z;
  keysUpward : list Z;
  keysDownward : list Z;
  checkCollisions : bool;
  applyGravity : bool;
  ellipsoid : Vector3 }.

(** The cameras a scene can hold: a universal camera, or the orbiting
    camera the scene falls back on. *)
Inductive SceneCamera :=
| Universal (c : Camera)
| ArcRotate (id : string) (alpha beta radius : R) (target : Vector3)
            (wheelPrecision : R).

(** A task queued on the engine's assets manager. *)
Inductive AssetTask :=
| MeshTask (name meshesNames rootUrl sceneFilename : string)
| TextureTask (name url : string)
| BinaryFileTask (name url : string)
| CubeTextureTask (name url : string).

Definition task_name (t : AssetTask) : string :=
  match t with
  | MeshTask n _ _ _ => n
  | TextureTask n _ => n
  | BinaryFileTask n _ => n
  | CubeTextureTask n _ => n
  end.

(** The five phases of the scene's initialization. *)
Inductive Phase :=
| EnvironmentSetup
| CameraSetup
| AssetLoading
| LightSetup
| InteractionSetup.

(** What the runtime does to the console, the loading screen and the
    page.  The timestamp [log] puts before a message comes from the clock
    and is left out.  [Enter] is a ghost event: it marks the call of a
    phase's method and has no counterpart on the page. *)
Inductive Event :=
| ConsoleLog (msg : string)
| ConsoleError (msg : string)
| Progress (percent : Z) (msg : string)
| AddEventListener (target type : string)
| SetTitle (title : string)
| RunRenderLoop
| ShowDebugLayer
| SetTimeout (delay : Z)
| Enter (phase : Phase).

(** The promise [Scene.loadAssets] returns. *)
Inductive PromiseState :=
| Pending
| Fulfilled
| Rejected (reason : JS.exn).

Record World := mkWorld {
  trace : list Event;
  clearColor : option Color4;
  ambientColor : option Color3;
  skybox : option string;
  meshes : list Mesh;
  lights : list Light;
  activeCamera : option SceneCamera;
  actionManagers : nat;
  tasks : list AssetTask;
  promise : PromiseState }.

Definition World0 : World :=
  mkWorld [] None None None [] [] None 0 [] Pending.

(* ================================================================== *)
(** * Statements: state and exceptions *)
(* ================================================================== *)

Definition M (A : Type) : Type := World -> JS.completion A * World.

Definition ret {A} (a : A) : M A := fun w => (JS.Normal a, w).

Definition bind {A B} (c : M A) (k : A -> M B) : M B :=
  fun w =>
    match c w with
    | (JS.Normal a, w') => k a w'
    | (JS.Throw e, w') => (JS.Throw e, w')
    | (JS.Suspended, w') => (JS.Suspended, w')
    end.

Definition throw {A} (e : JS.exn) : M A := fun w => (JS.Throw e, w).

Definition suspend {A} : M A := fun w => (JS.Suspended, w).

(** [try { body } catch (error) { handler(error) }]. *)
Definition try_catch {A} (body : M A) (handler : JS.exn -> M A) : M A :=
  fun w =>
    match body w with
    | (JS.Throw e, w') => handler e w'
    | r => r
    end.

Definition get : M World := fun w => (JS.Normal w, w).
Definition modify (f : World -> World) : M unit := fun w => (JS.Normal tt, f w).

Declare Scope js_scope.
Delimit Scope js_scope with js.
Notation "x <- c ;; k" := (bind c (fun x => k))
  (at level 100, c at next level, right associativity) : js_scope.
Notation "c ;;; k" := (bind c (fun _ => k))
  (at level 100, right associativity) : js_scope.
Local Open Scope js_scope.
Local Open Scope string_scope.

(** [list.forEach(f)]. *)
Fixpoint forEach {A} (f : A -> M unit) (l : list A) : M unit :=
  match l with
  | [] => ret tt
  | a :: rest => f a ;;; forEach f rest
  end.

Definition with_trace (t : list Event) (w : World) : World :=
  mkWorld t (clearColor w) (ambientColor w) (skybox w) (meshes w) (lights w)
          (activeCamera w) (actionManagers w) (tasks w) (promise w).

Definition with_background (c : Color4) (a : Color3) (w : World) : World :=
  mkWorld (trace w) (Some c) (Some a) (skybox w) (meshes w) (lights w)
          (activeCamera w) (actionManagers w) (tasks w) (promise w).

Definition with_skybox (texture : string) (w : World) : World :=
  mkWorld (trace w) (clearColor w) (ambientColor w) (Some texture) (meshes w)
          (lights w) (activeCamera w) (actionManagers w) (tasks w) (promise w).

Definition with_meshes (ms : list Mesh) (w : World) : World :=
  mkWorld (trace w) (clearColor w) (ambientColor w) (skybox w) ms (lights w)
          (activeCamera w) (actionManagers w) (tasks w) (promise w).

Definition with_lights (ls : list Light) (w : World) : World :=
  mkWorld (trace w) (clearColor w) (ambientColor w) (skybox w) (meshes w) ls
          (activeCamera w) (actionManagers w) (tasks w) (promise w).

Definition with_activeCamera (c : SceneCamera) (w : World) : World :=
  mkWorld (trace w) (clearColor w) (ambientColor w) (skybox w) (meshes w)
          (lights w) (Some c) (actionManagers w) (tasks w) (promise w).

Definition with_actionManagers (n : nat) (w : World) : World :=
  mkWorld (trace w) (clearColor w) (ambientColor w) (skybox w) (meshes w)
          (lights w) (activeCamera w) n (tasks w) (promise w).

Definition with_tasks (ts : list AssetTask) (w : World) : World :=
  mkWorld (trace w) (clearColor w) (ambientColor w) (skybox w) (meshes w)
          (lights w) (activeCamera w) (actionManagers w) ts (promise w).

Definition with_promise (p : PromiseState) (w : World) : World :=
  mkWorld (trace w) (clearColor w) (ambientColor w) (skybox w) (meshes w)
          (lights w) (activeCamera w) (actionManagers w) (tasks w) p.

Definition emit (e : Event) : M unit :=
  modify (fun w => with_trace (trace w ++ [e]) w).

Definition set_meshes (ms : list Mesh) : M unit := modify (with_meshes ms).

Definition add_light (l : Light) : M unit :=
  modify (fun w => with_lights (lights w ++ [l]) w).

(** utility.js, [log(message, isError = false)]. *)
Definition log (message : string) (isError : bool) : M unit :=
  if isError then emit (ConsoleError ("[ERROR] " ++ message))
  else emit (ConsoleLog message).

(* ================================================================== *)
(** * The project manifest *)
(* ================================================================== *)

(** An entry of [scene_cameras].  [None] is an absent field; an array,
    when present, is truthy whatever it holds. *)
Record CameraData := mkCameraData {
  cam_name : option string;
  cam_matrix : option (list R);
  cam_checkCollisions : option bool;
  cam_applyGravity : option bool }.

(** An entry of [scene_lights]. *)
Record LightData := mkLightData {
  ld_name : option string;
  ld_type : option string;
  ld_matrix : option (list R);
  ld_color : option (list R);
  ld_intensity : option R;
  ld_range : option R;
  ld_angle : option R;
  ld_exponent : option R;
  ld_castShadows : option bool }.

(** An asset descriptor [{type, name, url}]. *)
Record Asset := mkAsset {
  asset_type : string;
  asset_name : string;
  asset_url : string }.

Record EnvironmentData := mkEnvironmentData {
  backgroundType : option string;
  backgroundColor : option (list R);
  skyboxTexture : option string }.

Record SceneData := mkSceneData {
  environment : option EnvironmentData;
  scene_cameras : option (list CameraData);
  scene_lights : option (list LightData);
  glb_groups : option (list string) }.

Record ProjectData := mkProjectData {
  project_name : option string;
  debug : option bool;
  scenes : list SceneData }.

(* ================================================================== *)
(** * camera.js *)
(* ================================================================== *)

Module CameraJS.
Local Open Scope R_scope.

(** Modelled from the spec: the engine's
    [new BABYLON.UniversalCamera(name, position, scene)], with the
    engine's initial settings. *)
Definition UniversalCamera_new (name : string) (pos : Vector3) : Camera :=
  mkCamera name pos (mkVector3 0 0 0) false 2 0.9 2000
           [38%Z] [40%Z] [37%Z] [39%Z] [33%Z] [34%Z]
           false false (mkVector3 0.5 1 0.5).

Definition set_placement (camera : Camera) (pos rot : Vector3) : Camera :=
  mkCamera (camera_id camera) pos rot (attached camera) (speed camera)
           (inertia camera) (angularSensibility camera)
           (keysUp camera) (keysDown camera) (keysLeft camera) (keysRight camera)
           (keysUpward camera) (keysDownward camera)
           (checkCollisions camera) (applyGravity camera) (ellipsoid camera).

(** camera.js, [applyTransformation(camera, matrix)]. *)
Definition applyTransformation (camera : Camera) (matrix : list R) : Camera :=
  let babylonMatrix := transpose (FromArray matrix) in
  let '(scale, rotationQuat, position) := decompose babylonMatrix in
  let rotationMatrix := toRotationMatrix rotationQuat in
  let convertMatrix := RotationY PI in
  let finalRotMatrix := multiply convertMatrix rotationMatrix in
  let finalQuat := FromRotationMatrix finalRotMatrix in
  let euler := toEulerAngles finalQuat in
  set_placement camera
    (mkVector3 (- vx position) (vy position) (vz position))
    (mkVector3 (vx euler) (- vy euler) (vz euler)).

(** camera.js, [setupCameraEnhancements(camera, canvas)]: the listeners it
    registers.  What the listeners do when a key or the pointer moves
    happens after the set-up and is not part of it. *)
Definition setupCameraEnhancements : M unit :=
  (emit (AddEventListener "window" "keydown") ;;;
   emit (AddEventListener "window" "keyup") ;;;
   emit (AddEventListener "window" "keydown") ;;;
   emit (AddEventListener "canvas" "click") ;;;
   emit (AddEventListener "document" "pointerlockchange") ;;;
   emit (AddEventListener "document" "mozpointerlockchange") ;;;
   emit (AddEventListener "document" "webkitpointerlockchange"))%js.

(** camera.js, [setupCamera(scene, canvas, cameraData)]. *)
Definition setupCamera (cameraData : CameraData) : M Camera :=
  (log ("Creating camera: " ++ JS.or_string (cam_name cameraData) "Universal Camera") false ;;;
   let camera :=
     UniversalCamera_new (JS.or_string (cam_name cameraData) "MainCamera")
                         (mkVector3 0 0 0) in
   let camera :=
     match cam_matrix cameraData with
     | Some matrix => applyTransformation camera matrix
     | None => set_placement camera (mkVector3 0 2 (-10)) (mkVector3 0 0 0)
     end in
   let camera :=
     mkCamera (camera_id camera) (position camera) (rotation camera)
              true 2 0.7 2000
              (keysUp camera ++ [87%Z]) (keysDown camera ++ [83%Z])
              (keysLeft camera ++ [65%Z]) (keysRight camera ++ [68%Z])
              [69%Z] [81%Z]
              (JS.or_false (cam_checkCollisions cameraData))
              (JS.or_false (cam_applyGravity cameraData))
              (mkVector3 1 1 1) in
   setupCameraEnhancements ;;;
   ret camera)%js.

(** What the page sends to the listeners of [setupCameraEnhancements]. *)
Inductive InputEvent :=
| KeyDown (key : string)
| KeyUp (key : string)
| Click
| PointerLockChange (lockedOnCanvas : bool)
| MouseMove (movementX movementY : R).

(** The camera with the state the listeners share: the shift flag, and
    whether [updateCameraRotation] is registered for mouse moves. *)
Record Controls := mkControls {
  controlled : Camera;
  isShiftPressed : bool;
  mouseListener : bool }.

Definition set_speed (camera : Camera) (s : R) : Camera :=
  mkCamera (camera_id camera) (position camera) (rotation camera) (attached camera) s
           (inertia camera) (angularSensibility camera)
           (keysUp camera) (keysDown camera) (keysLeft camera) (keysRight camera)
           (keysUpward camera) (keysDownward camera)
           (checkCollisions camera) (applyGravity camera) (ellipsoid camera).

Definition set_applyGravity (camera : Camera) (g : bool) : Camera :=
  mkCamera (camera_id camera) (position camera) (rotation camera) (attached camera)
           (speed camera) (inertia camera) (angularSensibility camera)
           (keysUp camera) (keysDown camera) (keysLeft camera) (keysRight camera)
           (keysUpward camera) (keysDownward camera)
           (checkCollisions camera) g (ellipsoid camera).

(** The [keydown] listeners, in the order they were registered: the
    speed boost, then the gravity toggle. *)
Definition onKeyDown (key : string) (c : Controls) : M Controls :=
  (let c :=
     if String.eqb key "Shift"
     then mkControls (set_speed (controlled c) 20) true (mouseListener c)
     else c in
   if String.eqb key " " then
     let gravity := negb (applyGravity (controlled c)) in
     log ("Gravity " ++ (if gravity then "enabled" else "disabled")) false ;;;
     ret (mkControls (set_applyGravity (controlled c) gravity)
                     (isShiftPressed c) (mouseListener c))
   else ret c)%js.

(** The [keyup] listener. *)
Definition onKeyUp (key : string) (c : Controls) : Controls :=
  if String.eqb key "Shift"
  then mkControls (set_speed (controlled c) 2) false (mouseListener c)
  else c.

(** [updateCameraRotation(event)]. *)
Definition updateCameraRotation (movementX movementY : R) (camera : Camera) : Camera :=
  set_placement camera (position camera)
    (mkVector3 (vx (rotation camera) + movementY * 0.002)
               (vy (rotation camera) + movementX * 0.002)
               (vz (rotation camera))).

(** One event of the page, handled by the listeners registered for it.
    A click only asks the host for the pointer lock; the host answers
    with a lock change.  Registering or removing [updateCameraRotation]
    twice is the same as once. *)
Definition handleInput (event : InputEvent) (c : Controls) : M Controls :=
  match event with
  | KeyDown key => onKeyDown key c
  | KeyUp key => ret (onKeyUp key c)
  | Click => ret c
  | PointerLockChange lockedOnCanvas =>
      ret (mkControls (controlled c) (isShiftPressed c) lockedOnCanvas)
  | MouseMove movementX movementY =>
      if mouseListener c
      then ret (mkControls (updateCameraRotation movementX movementY (controlled c))
                           (isShiftPressed c) (mouseListener c))
      else ret c
  end.

(** The events of a session, one after the other. *)
Fixpoint handleInputs (events : list InputEvent) (c : Controls) : M Controls :=
  match events with
  | [] => ret c
  | event :: rest => (c <- handleInput event c ;; handleInputs rest c)%js
  end.

End CameraJS.

(* ================================================================== *)
(** * light.js *)
(* ================================================================== *)

Module LightJS.
Local Open Scope R_scope.

(** light.js, [getPositionFromMatrix(matrix)]. *)
Definition getPositionFromMatrix (matrix : list R) : Vector3 :=
  let babylonMatrix := transpose (FromArray matrix) in
  let '(scale, rotationQuat, position) := decompose babylonMatrix in
  position.

(** light.js, [getPositionAndDirectionFromMatrix(matrix)]. *)
Definition getPositionAndDirectionFromMatrix (matrix : list R)
  : Vector3 * Vector3 :=
  let babylonMatrix := transpose (FromArray matrix) in
  let '(scale, rotationQuat, position) := decompose babylonMatrix in
  let rotationMatrix := toRotationMatrix rotationQuat in
  let forward := mkVector3 0 0 (-1) in
  let direction := TransformCoordinates forward rotationMatrix in
  (position, direction).

(** [new BABYLON.Vector3(-v.x, v.y, v.z)]. *)
Definition flipX (v : Vector3) : Vector3 :=
  mkVector3 (- vx v) (vy v) (vz v).

(** [new BABYLON.Color3(color[0], color[1], color[2])]. *)
Definition Color3_of (color : list R) : Color3 :=
  mkColor3 (nth 0 color 0) (nth 1 color 0) (nth 2 color 0).

(** [if (lightData.range) light.range = lightData.range]. *)
Definition range_of (lightData : LightData) : option R :=
  match ld_range lightData with
  | Some r => if JS.truthy_number r then Some r else None
  | None => None
  end.

(** light.js, [createPointLight(scene, lightData)]. *)
Definition createPointLight (lightData : LightData) : M Light :=
  let position :=
    match ld_matrix lightData with
    | Some matrix => flipX (getPositionFromMatrix matrix)
    | None => mkVector3 0 0 0
    end in
  let light :=
    mkLight PointLight (JS.or_string (ld_name lightData) "pointLight")
            (Some position) None None None
            (option_map Color3_of (ld_color lightData))
            (option_map Color3_of (ld_color lightData))
            (ld_intensity lightData)
            (range_of lightData)
            None in
  (add_light light ;;; ret light)%js.

(** light.js, [createSpotLight(scene, lightData)]. *)
Definition createSpotLight (lightData : LightData) : M Light :=
  let placement :=
    match ld_matrix lightData with
    | Some matrix =>
        let '(position, direction) := getPositionAndDirectionFromMatrix matrix in
        (flipX position, flipX direction)
    | None => (mkVector3 0 0 0, mkVector3 0 0 (-1))
    end in
  let light :=
    mkLight SpotLight (JS.or_string (ld_name lightData) "spotLight")
            (Some (fst placement)) (Some (snd placement))
            (Some (JS.or_number (ld_angle lightData) (PI / 4)))
            (Some (JS.or_number (ld_exponent lightData) 2))
            (option_map Color3_of (ld_color lightData))
            (option_map Color3_of (ld_color lightData))
            (ld_intensity lightData)
            None
            None in
  (add_light light ;;; ret light)%js.

(** The loop over [scene.meshes] of [createDirectionalLight]: every mesh
    whose name does not include "skyBox" joins the render list and
    receives shadows. *)
Definition shadow_mesh (mesh : Mesh) : Mesh :=
  if JS.includes (mesh_name mesh) "skyBox" then mesh
  else mkMesh (mesh_name mesh) true (hasActionManager mesh).

Definition shadow_casters (ms : list Mesh) : list string :=
  map mesh_name
      (filter (fun mesh => negb (JS.includes (mesh_name mesh) "skyBox")) ms).

(** light.js, [createDirectionalLight(scene, lightData)]. *)
Definition createDirectionalLight (lightData : LightData) : M Light :=
  let placement :=
    match ld_matrix lightData with
    | Some matrix =>
        let '(position, direction) := getPositionAndDirectionFromMatrix matrix in
        (Some (flipX position), flipX direction)
    | None => (None, mkVector3 0 (-1) 0)
    end in
  (w <- get ;;
   generator <-
     (if JS.or_false (ld_castShadows lightData) then
        set_meshes (map shadow_mesh (meshes w)) ;;;
        ret (Some (mkShadowGenerator 1024 (shadow_casters (meshes w))
                                     (Some true) (Some 0.00001) None None))
      else ret None) ;;
   let light :=
     mkLight DirectionalLight (JS.or_string (ld_name lightData) "directionalLight")
             (fst placement) (Some (snd placement)) None None
             (option_map Color3_of (ld_color lightData))
             (option_map Color3_of (ld_color lightData))
             (ld_intensity lightData)
             None
             generator in
   add_light light ;;; ret light)%js.

(** The [default:] case of [setupLights]. *)
Definition createHemisphericLight (lightData : LightData) : M Light :=
  let light :=
    mkLight HemisphericLight (JS.or_string (ld_name lightData) "defaultLight")
            None (Some (mkVector3 0 1 0)) None None None None None None None in
  (add_light light ;;; ret light)%js.

(** light.js, [setupLights(scene, canvas, lightData)]. *)
Definition setupLights (lightData : LightData) : M Light :=
  (log ("Creating light: " ++ JS.or_string (ld_name lightData) "unnamed"
        ++ " (" ++ JS.show (ld_type lightData) ++ ")") false ;;;
   match ld_type lightData with
   | Some type =>
       if String.eqb type "POINT" then createPointLight lightData
       else if String.eqb type "SPOT" then createSpotLight lightData
       else if String.eqb type "SUN" then createDirectionalLight lightData
       else if String.eqb type "DIRECTIONAL" then createDirectionalLight lightData
       else createHemisphericLight lightData
   | None => createHemisphericLight lightData
   end)%js.

End LightJS.

(* ================================================================== *)
(** * The host: network, engine and asset loading *)
(* ================================================================== *)

(** What [JSON.parse] makes of the manifest's text: a syntax error, or a
    value, [None] being a value that is not truthy ([null], [false], 0,
    the empty string). *)
Inductive ParseOutcome :=
| ParseThrows (message : string)
| Parsed (value : option ProjectData).

Inductive BodyOutcome :=
| TextRejects (message : string)
| Text (parse : ParseOutcome).

(** What [fetch(url)] comes back with. *)
Inductive FetchOutcome :=
| FetchRejects (message : string)
| Response (ok : bool) (status : Z) (body : BodyOutcome).

(** How the engine finishes a queued task. *)
Inductive TaskOutcome :=
| Loaded (loadedMeshes loadedAnimationGroups : list string)
| Failed (message : string).

(** Everything the run does not decide itself. *)
Record Host := mkHost {
  fetch : FetchOutcome;
  engine_fault : option JS.exn;
  phase_fault : Phase -> option JS.exn;
  task_outcome : nat -> TaskOutcome;
  inspector : bool }.

(** A phase's method is called; an engine or host call made by the phase
    may throw. *)
Definition enter (host : Host) (phase : Phase) : M unit :=
  emit (Enter phase) ;;;
  match phase_fault host phase with
  | Some e => throw e
  | None => ret tt
  end.

(* ================================================================== *)
(** * assetManager.js *)
(* ================================================================== *)

Module AssetManagerJS.

(** The three callbacks [loadAssets] stores on the manager; [None] is
    [null]. *)
Record Callbacks := mkCallbacks {
  onLoadedCallback : option (M unit);
  onProgressCallback : option (Q -> M unit);
  onErrorCallback : option (AssetTask -> M unit) }.

Definition addTask (t : AssetTask) : M unit :=
  modify (fun w => with_tasks (tasks w ++ [t]) w).

(** [addModelTask(asset)]; the task's handlers are [meshTask_onSuccess]
    and [meshTask_onError] below. *)
Definition addModelTask (asset : Asset) : M unit :=
  log ("Loading model: " ++ asset_url asset) false ;;;
  addTask (MeshTask (asset_name asset) ""
             (JS.substring (asset_url asset) 0
                (JS.lastIndexOf (asset_url asset) "/" + 1))
             (JS.substring_from (asset_url asset)
                (JS.lastIndexOf (asset_url asset) "/" + 1))).

Definition addTextureTask (asset : Asset) : M unit :=
  log ("Loading texture: " ++ asset_url asset) false ;;;
  addTask (TextureTask (asset_name asset) (asset_url asset)).

Definition addAudioTask (asset : Asset) : M unit :=
  log ("Loading audio: " ++ asset_url asset) false ;;;
  addTask (BinaryFileTask (asset_name asset) (asset_url asset)).

Definition addHDRTask (asset : Asset) : M unit :=
  log ("Loading HDR: " ++ asset_url asset) false ;;;
  addTask (CubeTextureTask (asset_name asset) (asset_url asset)).

(** [addAssetTask(asset)]. *)
Definition addAssetTask (asset : Asset) : M unit :=
  if String.eqb (asset_type asset) "model" then addModelTask asset
  else if String.eqb (asset_type asset) "texture" then addTextureTask asset
  else if String.eqb (asset_type asset) "audio" then addAudioTask asset
  else if String.eqb (asset_type asset) "hdr" then addHDRTask asset
  else log ("Unsupported asset type: " ++ asset_type asset) true.

(** [onProgress(remainingCount, totalCount, lastFinishedTask)]. *)
Definition onProgress (cb : Callbacks) (remainingCount totalCount : Z) : M unit :=
  let progress := (inject_Z (totalCount - remainingCount) / inject_Z totalCount)%Q in
  match onProgressCallback cb with
  | Some callback => callback progress
  | None => ret tt
  end.

(** [onFinish(tasks)]. *)
Definition onFinish (cb : Callbacks) : M unit :=
  log "All assets loaded" false ;;;
  match onLoadedCallback cb with
  | Some callback => callback
  | None => ret tt
  end.

(** [onTaskError(task, message, exception)]. *)
Definition onTaskError (cb : Callbacks) (task : AssetTask) (message : option string)
  : M unit :=
  log ("Error loading asset: " ++ JS.show message) true ;;;
  match onErrorCallback cb with
  | Some callback => callback task
  | None => ret tt
  end.

(** [meshTask.onSuccess]: every loaded mesh joins the scene and receives
    shadows; the animation groups are logged once per mesh. *)
Definition meshTask_onSuccess (name : string)
           (loadedMeshes loadedAnimationGroups : list string) : M unit :=
  log ("Model loaded: " ++ name) false ;;;
  forEach (fun mesh =>
             modify (fun w => with_meshes (meshes w ++ [mkMesh mesh true false]) w) ;;;
             forEach (fun animGroup =>
                        log ("Animation group loaded: " ++ animGroup) false)
                     loadedAnimationGroups)
          loadedMeshes.

(** [meshTask.onError]. *)
Definition meshTask_onError (cb : Callbacks) (task : AssetTask) (message : string)
  : M unit :=
  log ("Failed to load model: " ++ task_name task ++ " - " ++ message) true ;;;
  match onErrorCallback cb with
  | Some callback => callback task
  | None => ret tt
  end.

(** The [onSuccess] handler each kind of task was given.  The texture,
    audio buffer or environment a handler stores on the scene is not
    tracked. *)
Definition task_onSuccess (task : AssetTask)
           (loadedMeshes loadedAnimationGroups : list string) : M unit :=
  match task with
  | MeshTask name _ _ _ => meshTask_onSuccess name loadedMeshes loadedAnimationGroups
  | TextureTask name _ => log ("Texture loaded: " ++ name) false
  | BinaryFileTask name _ => log ("Audio loaded: " ++ name) false
  | CubeTextureTask name _ => log ("HDR loaded: " ++ name) false
  end.

(** The [onError] handler of a task: only model tasks were given one. *)
Definition task_onError (cb : Callbacks) (task : AssetTask) (message : string)
  : M unit :=
  match task with
  | MeshTask _ _ _ _ => meshTask_onError cb task message
  | _ => ret tt
  end.

(** Modelled from the spec: the engine's asset task queue (section 4.3:
    completion is reported through a progress, a success and an error
    callback).  [load()] on an empty queue reports the finish at once;
    otherwise the tasks start and finish later, see [complete_task]. *)
Definition load (cb : Callbacks) : M unit :=
  w <- get ;;
  match tasks w with
  | [] => onFinish cb
  | _ :: _ => ret tt
  end.

(** Modelled from the spec: the engine's reaction to one finished task.
    The task's own handler runs, then for a failure the manager's
    [onTaskError] (called with the task alone), then the progress
    callback with the count of tasks still waiting, then the finish
    callback if none is. *)
Definition complete_task (cb : Callbacks) (task : AssetTask) (outcome : TaskOutcome)
           (remainingCount totalCount : Z) : M unit :=
  match outcome with
  | Loaded loadedMeshes loadedAnimationGroups =>
      task_onSuccess task loadedMeshes loadedAnimationGroups
  | Failed message =>
      task_onError cb task message ;;;
      onTaskError cb task None
  end ;;;
  onProgress cb remainingCount totalCount ;;;
  if (remainingCount =? 0)%Z then onFinish cb else ret tt.

(** [loadAssets(assetList, onLoaded, onProgress, onError)]. *)
Definition loadAssets (assetList : list Asset) (cb : Callbacks) : M unit :=
  modify (with_tasks []) ;;;
  forEach addAssetTask assetList ;;;
  load cb.

End AssetManagerJS.

(* ================================================================== *)
(** * utility.js *)
(* ================================================================== *)

Module UtilityJS.

(** utility.js, [loadJSON(url)]. *)
Definition loadJSON (url : string) (net : FetchOutcome) : M (option ProjectData) :=
  try_catch
    (match net with
     | FetchRejects message => throw (JS.TypeError message)
     | Response ok status body =>
         if negb ok then
           throw (JS.Error ("HTTP error! Status: " ++ JS.show_number status))
         else
           match body with
           | TextRejects message => throw (JS.TypeError message)
           | Text (ParseThrows message) => throw (JS.SyntaxError message)
           | Text (Parsed value) => ret value
           end
     end)
    (fun error =>
       log ("Failed to load JSON from " ++ url ++ ": " ++ JS.show (JS.message error))
           true ;;;
       ret None).

(** What [fetch(url)] comes back with when the body is wanted as text. *)
Inductive TextBody :=
| BodyRejects (message : string)
| Body (text : string).

Inductive TextFetch :=
| TextFetchRejects (message : string)
| TextResponse (ok : bool) (status : Z) (body : TextBody).

(** utility.js, [loadTextFile(url)]. *)
Definition loadTextFile (url : string) (net : TextFetch) : M (option string) :=
  try_catch
    (match net with
     | TextFetchRejects message => throw (JS.TypeError message)
     | TextResponse ok status body =>
         if negb ok then
           throw (JS.Error ("HTTP error! Status: " ++ JS.show_number status))
         else
           match body with
           | BodyRejects message => throw (JS.TypeError message)
           | Body text => ret (Some text)
           end
     end)
    (fun error =>
       log ("Failed to load text from " ++ url ++ ": " ++ JS.show (JS.message error))
           true ;;;
       ret None).

(** [x | 0]: the number truncated towards zero and wrapped into 32
    signed bits. *)
Definition toInt32 (x : Q) : Z :=
  let truncated := if Qlt_le_dec x 0 then Qceiling x else Qfloor x in
  ((truncated + 2 ^ 31) mod 2 ^ 32 - 2 ^ 31)%Z.

(** [v.toString(16)] on an integer: lower-case hexadecimal digits. *)
Definition toString16 (v : Z) : string :=
  HexadecimalString.NilZero.string_of_int (Z.to_hex_int v).

(** The callback of [generateUniqueId], at the [call]-th draw of
    [Math.random()]. *)
Definition uniqueDigit (random : nat -> Q) (call : nat) (c : ascii) : string :=
  let r := toInt32 (random call * 16)%Q in
  let v := if Ascii.eqb c "x" then r else Z.lor (Z.land r 3) 8 in
  toString16 v.

(** [template.replace(/[xy]/g, callback)]: every 'x' and 'y', from left
    to right, is replaced by what the callback returns for it. *)
Fixpoint replace_xy (random : nat -> Q) (template : string) (call : nat) : string :=
  match template with
  | EmptyString => EmptyString
  | String c rest =>
      if Ascii.eqb c "x" || Ascii.eqb c "y" then
        uniqueDigit random call c ++ replace_xy random rest (S call)
      else String c (replace_xy random rest call)
  end.

(** utility.js, [generateUniqueId()]; [random] gives the successive
    results of [Math.random()]. *)
Definition generateUniqueId (random : nat -> Q) : string :=
  replace_xy random "xxxxxxxx-xxxx-4xxx-yxxx-xxxxxxxxxxxx" 0.

(** utility.js, [createDefaultProject(name = "SimpleBEX Project")];
    [None] is a call without argument.  The fields the runtime never
    reads (the version, the scene's name, the camera's type) have no
    counterpart in the records. *)
Definition createDefaultProject (name : option string) : ProjectData :=
  mkProjectData
    (Some (match name with Some name => name | None => "SimpleBEX Project" end))
    (Some false)
    [mkSceneData
       (Some (mkEnvironmentData (Some "color") (Some [0.1; 0.1; 0.1]%R) None))
       (Some [mkCameraData (Some "MainCamera")
                           (Some [1; 0; 0; 0;  0; 1; 0; 0;  0; 0; 1; 0;  0; 2; -10; 1]%R)
                           None None])
       (Some [mkLightData (Some "MainLight") (Some "SUN")
                          (Some [1; 0; 0; 0;  0; 1; 0; 0;  0; 0; 1; 0;  0; 10; 0; 1]%R)
                          (Some [1; 1; 1]%R) (Some 1%R) None None None (Some true)])
       (Some [])].

End UtilityJS.

(* ================================================================== *)
(** * app.js: the loading screen *)
(* ================================================================== *)

(** app.js, [updateLoadingProgress(percent, message)]: the width of the
    progress bar and the text of the loading screen, on a page that has
    both elements. *)
Definition updateLoadingProgress (percent : Z) (message : string) : M unit :=
  emit (Progress percent message).

(* ================================================================== *)
(** * scene.js *)
(* ================================================================== *)

Module SceneJS.
Local Open Scope R_scope.

(** [this.app.projectData.manifest.scenes[0]], then a property read on
    it: a [TypeError] when the manifest has no scene. *)
Definition sceneData_of (projectData : ProjectData) (property : string) : M SceneData :=
  match scenes projectData with
  | sceneData :: _ => ret sceneData
  | [] => throw (JS.TypeError
                   ("Cannot read properties of undefined (reading '" ++ property ++ "')"))
  end.

Definition Color4_of (color : list R) : Color4 :=
  mkColor4 (nth 0 color 0) (nth 1 color 0) (nth 2 color 0) 1.

(** scene.js, [createEnvironment()]. *)
Definition createEnvironment (host : Host) (projectData : ProjectData) : M unit :=
  (enter host EnvironmentSetup ;;;
   sceneData <- sceneData_of projectData "environment" ;;
   let envData :=
     match environment sceneData with
     | Some envData => envData
     | None => mkEnvironmentData None None None
     end in
   let default_background :=
     modify (with_background (mkColor4 0.1 0.1 0.1 1) (mkColor3 0.3 0.3 0.3)) in
   match backgroundType envData with
   | Some type =>
       if String.eqb type "color" then
         let color :=
           match backgroundColor envData with
           | Some color => color
           | None => [0.1; 0.1; 0.1]
           end in
         modify (with_background (Color4_of color) (LightJS.Color3_of color))
       else if String.eqb type "texture" || String.eqb type "sky" then
         default_background ;;;
         match skyboxTexture envData with
         | Some texture =>
             if JS.truthy_string texture then
               modify (fun w => with_meshes (meshes w ++ [mkMesh "skyBox" false false]) w) ;;;
               modify (with_skybox texture)
             else ret tt
         | None => ret tt
         end
       else default_background
   | None => default_background
   end)%js.

(** scene.js, [setupCamera()]. *)
Definition setupCamera (host : Host) (projectData : ProjectData) : M unit :=
  (enter host CameraSetup ;;;
   sceneData <- sceneData_of projectData "scene_cameras" ;;
   let cameraData :=
     match scene_cameras sceneData with
     | Some cameras => nth_error cameras 0
     | None => None
     end in
   match cameraData with
   | Some cameraData =>
       camera <- CameraJS.setupCamera cameraData ;;
       modify (with_activeCamera (Universal camera))
   | None =>
       modify (with_activeCamera
                 (ArcRotate "defaultCamera" (PI / 3) (PI / 3) 10 (mkVector3 0 0 0) 50))
   end)%js.

(** The assets of the scene: one model per entry of [glb_groups], named
    by its index. *)
Fixpoint assets_of (glb_groups : list string) (index : nat) : list Asset :=
  match glb_groups with
  | [] => []
  | glbFile :: rest =>
      mkAsset "model"
              ("model_" ++ JS.show_number (Z.of_nat index))
              ("assets/" ++ glbFile)
      :: assets_of rest (S index)
  end.

(** The [resolve] and [reject] of the promise: the first call settles
    it. *)
Definition resolve : M unit :=
  modify (fun w => match promise w with
                   | Pending => with_promise Fulfilled w
                   | _ => w
                   end).

Definition reject (task : AssetTask) : M unit :=
  modify (fun w => match promise w with
                   | Pending => with_promise (Rejected (JS.FailedTask (task_name task))) w
                   | _ => w
                   end).

(** The progress callback [loadAssets] hands to the asset manager. *)
Definition loadingProgress (progress : Q) : M unit :=
  let loadingPercent := (50 + Qfloor (progress * 20))%Z in
  updateLoadingProgress loadingPercent "Loading assets...".

Definition callbacks : AssetManagerJS.Callbacks :=
  AssetManagerJS.mkCallbacks (Some resolve) (Some loadingProgress) (Some reject).

(** [await promise]: the function resumes as soon as the promise is
    settled; until then the engine finishes the queued tasks one after
    the other.  A task that finishes after the promise was settled does
    so after the awaiting function has moved on, and is not part of its
    run. *)
Fixpoint await (host : Host) (index : nat) (queue : list AssetTask) (totalCount : Z)
  : M unit :=
  (w <- get ;;
   match promise w with
   | Fulfilled => ret tt
   | Rejected reason => throw reason
   | Pending =>
       match queue with
       | [] => suspend
       | task :: rest =>
           AssetManagerJS.complete_task callbacks task (task_outcome host index)
                                        (Z.of_nat (List.length rest)) totalCount ;;;
           await host (S index) rest totalCount
       end
   end)%js.

(** scene.js, [loadAssets()]. *)
Definition loadAssets (host : Host) (projectData : ProjectData) : M unit :=
  (enter host AssetLoading ;;;
   sceneData <- sceneData_of projectData "glb_groups" ;;
   let assetsList :=
     match glb_groups sceneData with
     | Some files => assets_of files 0
     | None => []
     end in
   modify (with_promise Pending) ;;;
   AssetManagerJS.loadAssets assetsList callbacks ;;;
   w <- get ;;
   await host 0 (tasks w) (Z.of_nat (List.length (tasks w))))%js.

(** The default lights of [setupLights()]. *)
Definition defaultLights : M unit :=
  (w <- get ;;
   add_light (mkLight HemisphericLight "defaultLight" None (Some (mkVector3 0 1 0))
                      None None None None (Some 0.7) None None) ;;;
   add_light (mkLight DirectionalLight "directionalLight" None
                      (Some (mkVector3 (-1) (-2) (-1)))
                      None None None None (Some 0.5) None
                      (Some (mkShadowGenerator 1024 (LightJS.shadow_casters (meshes w))
                                               None None (Some true) (Some 2)))) ;;;
   set_meshes (map LightJS.shadow_mesh (meshes w)))%js.

(** scene.js, [setupLights()]. *)
Definition setupLights (host : Host) (projectData : ProjectData) : M unit :=
  (enter host LightSetup ;;;
   sceneData <- sceneData_of projectData "scene_lights" ;;
   match scene_lights sceneData with
   | Some (lightData :: rest) =>
       forEach (fun lightData => LightJS.setupLights lightData ;;; ret tt)
               (lightData :: rest)
   | _ => defaultLights
   end)%js.

(** scene.js, [setupActionManager()]. *)
Definition setupActionManager (host : Host) : M unit :=
  (enter host InteractionSetup ;;;
   modify (fun w => with_actionManagers (S (actionManagers w)) w) ;;;
   modify (fun w =>
             with_meshes
               (map (fun mesh =>
                       if JS.includes (mesh_name mesh) "skyBox" then mesh
                       else mkMesh (mesh_name mesh) (receiveShadows mesh) true)
                    (meshes w)) w))%js.

(** scene.js, [initialize()]. *)
Definition initialize (host : Host) (projectData : ProjectData) : M unit :=
  (log "Creating scene" false ;;;
   createEnvironment host projectData ;;;
   modify (with_tasks []) ;;;
   updateLoadingProgress 40 "Setting up camera..." ;;;
   setupCamera host projectData ;;;
   updateLoadingProgress 50 "Loading assets..." ;;;
   loadAssets host projectData ;;;
   updateLoadingProgress 70 "Setting up lights..." ;;;
   setupLights host projectData ;;;
   updateLoadingProgress 80 "Setting up interactions..." ;;;
   setupActionManager host)%js.

End SceneJS.

(* ================================================================== *)
(** * app.js *)
(* ================================================================== *)

Module AppJS.

(** app.js, [run()]. *)
Definition run (host : Host) (debugMode : bool) : M unit :=
  (if debugMode && inspector host then emit ShowDebugLayer else ret tt) ;;;
  emit RunRenderLoop.

(** app.js, [initialize()]. *)
Definition initialize (host : Host) (projectFile : string) : M unit :=
  try_catch
    (updateLoadingProgress 10 "Loading project configuration..." ;;;
     projectData <- UtilityJS.loadJSON projectFile (fetch host) ;;
     match projectData with
     | None => throw (JS.Error "Failed to load project configuration")
     | Some projectData =>
         updateLoadingProgress 20 "Creating engine..." ;;;
         let debugMode := JS.or_false (debug projectData) in
         emit (SetTitle (JS.or_string (project_name projectData) "SimpleBEX Project")) ;;;
         match engine_fault host with
         | Some e => throw e
         | None => ret tt
         end ;;;
         updateLoadingProgress 30 "Creating scene..." ;;;
         SceneJS.initialize host projectData ;;;
         updateLoadingProgress 90 "Starting render loop..." ;;;
         run host debugMode ;;;
         updateLoadingProgress 100 "Ready!" ;;;
         emit (SetTimeout 500)
     end)
    (fun error =>
       emit (ConsoleError ("Initialization error: " ++ JS.show (JS.message error))) ;;;
       updateLoadingProgress 0 ("Error: " ++ JS.show (JS.message error))).

End AppJS.

(* ================================================================== *)
(** * custom-features.js *)
(* ================================================================== *)

Module CustomFeaturesJS.
Local Open Scope R_scope.

(** A material of the scene, or the highlight material that
    [addObjectPicking] creates for itself. *)
Inductive Material :=
| HighlightMaterial
| SceneMaterial (id : nat).

(** A mesh as the picking handlers see it; [None] is a mesh without
    material. *)
Record PickMesh := mkPickMesh {
  pick_name : string;
  material : option Material }.

(** Meshes are objects compared by identity: a mesh is named by a number. *)
Definition MeshId := nat.

Record PickResult := mkPickResult {
  hit : bool;
  pickedMesh : option MeshId }.

(** [originalMaterials], a [Map] from mesh to material; it is never
    iterated, so the order of its entries does not show. *)
Definition MaterialMap := list (MeshId * Material).

Definition map_has (mesh : MeshId) (m : MaterialMap) : bool :=
  existsb (fun entry => Nat.eqb (fst entry) mesh) m.

Definition map_get (mesh : MeshId) (m : MaterialMap) : option Material :=
  option_map snd (find (fun entry => Nat.eqb (fst entry) mesh) m).

Definition map_delete (mesh : MeshId) (m : MaterialMap) : MaterialMap :=
  filter (fun entry => negb (Nat.eqb (fst entry) mesh)) m.

Definition map_set (mesh : MeshId) (mat : Material) (m : MaterialMap) : MaterialMap :=
  (mesh, mat) :: map_delete mesh m.

(** The state the handlers of [addObjectPicking] share: the meshes of
    the scene, the highlighted mesh, the saved materials, and the
    information panel (whether it is displayed, and the mesh whose
    details it holds). *)
Record Picking := mkPicking {
  sceneMeshes : MeshId -> PickMesh;
  highlightedMesh : option MeshId;
  originalMaterials : MaterialMap;
  panelDisplayed : bool;
  panelMesh : option MeshId }.

(** [mesh.material = mat]. *)
Definition set_material (mesh : MeshId) (mat : option Material)
           (meshes : MeshId -> PickMesh) : MeshId -> PickMesh :=
  fun other =>
    if Nat.eqb other mesh then mkPickMesh (pick_name (meshes mesh)) mat
    else meshes other.

(** The state right after [addObjectPicking(scene)]. *)
Definition addObjectPicking (meshes : MeshId -> PickMesh) : Picking :=
  mkPicking meshes None [] false None.

(** Putting the highlighted mesh back, as both branches of
    [onPointerMove] do. *)
Definition unhighlight (mesh : MeshId) (s : Picking) : Picking :=
  mkPicking (set_material mesh (map_get mesh (originalMaterials s)) (sceneMeshes s))
            None
            (map_delete mesh (originalMaterials s))
            false
            (panelMesh s).

(** custom-features.js, [scene.onPointerMove]. *)
Definition onPointerMove (pickResult : PickResult) (s : Picking) : Picking :=
  match (if hit pickResult then pickedMesh pickResult else None) with
  | Some mesh =>
      let same :=
        match highlightedMesh s with
        | Some highlighted => Nat.eqb mesh highlighted
        | None => false
        end in
      if same || JS.includes (pick_name (sceneMeshes s mesh)) "skyBox" then s
      else
        let s :=
          match highlightedMesh s with
          | Some highlighted =>
              if map_has highlighted (originalMaterials s)
              then unhighlight highlighted s
              else s
          | None => s
          end in
        match material (sceneMeshes s mesh) with
        | Some mat =>
            mkPicking (set_material mesh (Some HighlightMaterial) (sceneMeshes s))
                      (Some mesh)
                      (map_set mesh mat (originalMaterials s))
                      true
                      (Some mesh)
        | None => s
        end
  | None =>
      match highlightedMesh s with
      | Some highlighted => unhighlight highlighted s
      | None => s
      end
  end.

(** custom-features.js, [scene.onPointerUp]: the log line; the
    [objectSelected] event it dispatches next goes to listeners outside
    the repository. *)
Definition onPointerUp (pickResult : PickResult) (s : Picking) : M unit :=
  match (if hit pickResult then pickedMesh pickResult else None) with
  | Some mesh =>
      if JS.includes (pick_name (sceneMeshes s mesh)) "skyBox" then ret tt
      else log ("Selected object: " ++ pick_name (sceneMeshes s mesh)) false
  | None => ret tt
  end.

(** The pointer moves of a session, one after the other. *)
Definition pointerMoves (picks : list PickResult) (s : Picking) : Picking :=
  fold_left (fun s pick => onPointerMove pick s) picks s.

(** What [addFirstPersonController] leaves: the camera, its ellipsoid
    offset and the scene's gravity. *)
Record FirstPerson := mkFirstPerson {
  fp_camera : Camera;
  ellipsoidOffset : Vector3;
  sceneGravity : Vector3 }.

(** custom-features.js, [addFirstPersonController(scene, camera)], up to
    the listeners it registers; [None] is the early return. *)
Definition addFirstPersonController (camera : SceneCamera) : M (option FirstPerson) :=
  match camera with
  | ArcRotate _ _ _ _ _ _ =>
      (log "First person controller requires a Universal or Free camera" true ;;;
       ret None)%js
  | Universal camera =>
      ret (Some (mkFirstPerson
                   (mkCamera (camera_id camera)
                             (mkVector3 0 2 0) (mkVector3 0 0 0)
                             (attached camera) 0.5 0.3 1000
                             [87%Z; 38%Z] [83%Z; 40%Z] [65%Z; 37%Z] [68%Z; 39%Z]
                             (keysUpward camera) (keysDownward camera)
                             true true (mkVector3 1 0.9 1))
                   (mkVector3 0 0.9 0)
                   (mkVector3 0 (-9.81) 0)))
  end.

(** The jump of [addFirstPersonController]: the flag, the vertical
    component of the camera's direction as the handler changes it, and
    the time-outs set and not yet fired. *)
Record Jump := mkJump {
  isJumping : bool;
  cameraDirectionY : R;
  pendingTimeouts : nat }.

Inductive JumpEvent :=
| Keyboard (keydown : bool) (keyCode : Z)
| TimeoutFires.

(** The keyboard observer and the time-out callback. *)
Definition onJumpEvent (event : JumpEvent) (j : Jump) : Jump :=
  match event with
  | Keyboard keydown keyCode =>
      if keydown && (keyCode =? 32)%Z && negb (isJumping j)
      then mkJump true (cameraDirectionY j + 0.1) (S (pendingTimeouts j))
      else j
  | TimeoutFires =>
      match pendingTimeouts j with
      | S n => mkJump false (cameraDirectionY j) n
      | O => j
      end
  end.

Definition jumpEvents (events : list JumpEvent) (j : Jump) : Jump :=
  fold_left (fun j event => onJumpEvent event j) events j.

End CustomFeaturesJS.

(* ================================================================== *)
(** * The transform decoder as the specification words it *)
(* ================================================================== *)

Module DecoderSpec.



Local Open Scope R_scope.

(** Entry (row, col) of a row-major matrix. *)
Definition entry (m : Matrix) (row col : nat) : R :=
  nth (4 * row + col)%nat
      [m0 m; m1 m; m2 m; m3 m; m4 m; m5 m; m6 m; m7 m;
       m8 m; m9 m; m10 m; m11 m; m12 m; m13 m; m14 m; m15 m] 0.


(** A half turn about the up (Y) axis: X and Z change sign, Y stays. *)
Definition half_turn_about_up : Matrix :=
  FromValues (-1) 0 0 0  0 1 0 0  0 0 (-1) 0  0 0 0 1.


End DecoderSpec.

(* ================================================================== *)
(** * Inputs used below *)
(* ================================================================== *)

Module Samples.
Local Open Scope R_scope.

Definition identity16 : list R :=
  [1; 0; 0; 0;  0; 1; 0; 0;  0; 0; 1; 0;  0; 0; 0; 1].

(** The camera matrix of [createDefaultProject] (utility.js): the
    identity rotation with the translation (0, 2, -10) in entries 12-14. *)
Definition defaultProjectCamera : list R :=
  [1; 0; 0; 0;  0; 1; 0; 0;  0; 0; 1; 0;  0; 2; -10; 1].

(** A matrix whose entry 3 is not zero, with the X translation 5 in
    entry 12, and the same matrix with that entry negated. *)
Definition skewed : list R :=
  [1; 0; 0; 1;  0; 1; 0; 0;  0; 0; 1; 0;  5; 2; -10; 1].

Definition skewed_negated : list R :=
  [1; 0; 0; 1;  0; 1; 0; 0;  0; 0; 1; 0;  -5; 2; -10; 1].

Definition camera0 : Camera :=
  CameraJS.UniversalCamera_new "MainCamera" (mkVector3 0 0 0).

(** A light of Blender's AREA type, with a colour and an intensity. *)
Definition areaLight : LightData :=
  mkLightData (Some "Area") (Some "AREA") None (Some [1; 0; 0]) (Some 0.5)
              None None None None.

Definition pointLightAt (matrix : list R) : LightData :=
  mkLightData (Some "Lamp") (Some "POINT") (Some matrix) None None
              None None None None.

Definition bareCamera : CameraData := mkCameraData None None None None.

Definition modelAsset : Asset := mkAsset "model" "ship" "assets/ship.glb".
Definition textureAsset : Asset := mkAsset "texture" "wood" "assets/wood.png".
Definition bogusAsset : Asset := mkAsset "bogus" "thing" "assets/thing.xyz".

Definition noCallbacks : AssetManagerJS.Callbacks :=
  AssetManagerJS.mkCallbacks None None None.

(** A host on which nothing goes wrong: the manifest is the given
    project, the engine never throws, every task loads one mesh. *)
Definition calmHost (projectData : ProjectData) : Host :=
  mkHost (Response true 200 (Text (Parsed (Some projectData))))
         None (fun _ => None) (fun _ => Loaded ["mesh"] []) false.

(** A host whose manifest request is answered with 404. *)
Definition host404 : Host :=
  mkHost (Response false 404 (Text (ParseThrows "Unexpected token")))
         None (fun _ => None) (fun _ => Loaded [] []) false.

(** A host on which the second task fails to load. *)
Definition secondTaskFails (projectData : ProjectData) : Host :=
  mkHost (Response true 200 (Text (Parsed (Some projectData))))
         None (fun _ => None)
         (fun index => match index with
                       | 1%nat => Failed "404"
                       | _ => Loaded ["hull"] ["sail"]
                       end)
         false.

(** A project whose scene lists the given models and nothing else. *)
Definition projectWith (files : list string) : ProjectData :=
  mkProjectData (Some "demo") None
                [mkSceneData None None None (Some files)].

(** A light of Blender's SUN type that casts shadows. *)
Definition sunLight : LightData :=
  mkLightData (Some "Sun") (Some "SUN") None None (Some 1)
              None None None (Some true).

(** A scene under a sky texture, with one model and two lights. *)
Definition skyScene : SceneData :=
  mkSceneData (Some (mkEnvironmentData (Some "sky") None (Some "textures/sky")))
              None (Some [sunLight; areaLight]) (Some ["ship.glb"]).

Definition skyProject : ProjectData :=
  mkProjectData (Some "sky") None [skyScene].

(** A scene with one camera record, placed by the default project's
    matrix. *)
Definition cameraScene : SceneData :=
  mkSceneData None
              (Some [mkCameraData (Some "Eye") (Some defaultProjectCamera) None None])
              None None.

Definition cameraProject : ProjectData :=
  mkProjectData (Some "eye") None [cameraScene].

End Samples.

(* ================================================================== *)
(** * What a light takes from its record *)
(* ================================================================== *)

Module LightSpec.
Local Open Scope R_scope.

(** The colour, as diffuse and specular, and the intensity of the record
    are on the light, each when present. *)
Definition colour_and_intensity_applied (lightData : LightData) (light : Light) : Prop :=
  diffuse light = option_map LightJS.Color3_of (ld_color lightData) /\
  specular light = option_map LightJS.Color3_of (ld_color lightData) /\
  intensity light = ld_intensity lightData.

(** What each kind of light takes from the record. *)
Definition configured (lightData : LightData) (light : Light) : Prop :=
  (kind light <> HemisphericLight -> colour_and_intensity_applied lightData light) /\
  (kind light = PointLight -> range light = LightJS.range_of lightData) /\
  (kind light = SpotLight ->
   light_angle light = Some (JS.or_number (ld_angle lightData) (PI / 4)) /\
   light_exponent light = Some (JS.or_number (ld_exponent lightData) 2)) /\
  (kind light = HemisphericLight ->
   diffuse light = None /\ specular light = None /\ intensity light = None /\
   range light = None /\ light_angle light = None) /\
  (shadowGenerator light <> None <->
   kind light = DirectionalLight /\ ld_castShadows lightData = Some true).

End LightSpec.

(* ================================================================== *)
(** * What a run shows *)
(* ================================================================== *)

Module Observations.

(** The messages written with [console.error]. *)
Fixpoint errors (t : list Event) : list string :=
  match t with
  | [] => []
  | ConsoleError msg :: rest => msg :: errors rest
  | _ :: rest => errors rest
  end.

(** The progress updates and the phase marks of a trace, in order. *)
Fixpoint milestones (t : list Event) : list Event :=
  match t with
  | [] => []
  | Progress percent msg :: rest => Progress percent msg :: milestones rest
  | Enter phase :: rest => Enter phase :: milestones rest
  | _ :: rest => milestones rest
  end.

(** The percentages shown on the loading screen, in order. *)
Fixpoint percents (t : list Event) : list Z :=
  match t with
  | [] => []
  | Progress percent _ :: rest => percent :: percents rest
  | _ :: rest => percents rest
  end.



(** The asset types [addAssetTask] has a loader for. *)
Definition supported (asset : Asset) : bool :=
  String.eqb (asset_type asset) "model" || String.eqb (asset_type asset) "texture"
  || String.eqb (asset_type asset) "audio" || String.eqb (asset_type asset) "hdr".

Definition unsupported_message (asset : Asset) : string :=
  "[ERROR] Unsupported asset type: " ++ asset_type asset.

(** The manifest could not be fetched or parsed. *)
Definition fetch_failed (net : FetchOutcome) : bool :=
  match net with
  | FetchRejects _ => true
  | Response ok _ body =>
      negb ok ||
      match body with
      | TextRejects _ => true
      | Text (ParseThrows _) => true
      | Text (Parsed _) => false
      end
  end.

(** The manifest was fetched and parsed into a project. *)
Definition fetched (net : FetchOutcome) (projectData : ProjectData) : Prop :=
  exists status, net = Response true status (Text (Parsed (Some projectData))).

Definition is_loaded (outcome : TaskOutcome) : bool :=
  match outcome with Loaded _ _ => true | Failed _ => false end.

(** The percentage shown when [k] of [n] tasks have finished. *)
Definition loading_percent (k n : Z) : Z := (50 + (20 * k) / n)%Z.

(** The percentages shown while [n] tasks finish one after the other. *)
Definition asset_percents (n : nat) : list Z :=
  map (fun k => loading_percent (Z.of_nat k) (Z.of_nat n)) (seq 1 n).

(** The percentages of a whole run that loads [n] assets. *)
Definition run_percents (n : nat) : list Z :=
  ([10; 20; 30; 40; 50]%Z ++ asset_percents n ++ [70; 80; 90; 100]%Z)%list.

(** The number of models the first scene of a project lists. *)
Definition asset_count (projectData : ProjectData) : nat :=
  match scenes projectData with
  | sceneData :: _ =>
      match glb_groups sceneData with
      | Some files => List.length files
      | None => 0
      end
  | [] => 0
  end.

(** The progress update shown when [done] of [total] tasks have finished. *)
Definition shown (done total : Z) : Event :=
  Progress (loading_percent done total) "Loading assets...".

(** The milestones of a scene initialization in which nothing fails. *)
Definition scene_milestones (n : nat) : list Event :=
  ([Enter EnvironmentSetup;
    Progress 40 "Setting up camera..."; Enter CameraSetup;
    Progress 50 "Loading assets..."; Enter AssetLoading]
   ++ map (fun k => shown (Z.of_nat k) (Z.of_nat n)) (seq 1 n)
   ++ [Progress 70 "Setting up lights..."; Enter LightSetup;
       Progress 80 "Setting up interactions..."; Enter InteractionSetup])%list.

(** A step that shows nothing on the loading screen, enters no phase and
    leaves the promise as it is. *)
Definition quiet (c : M unit) : Prop :=
  forall w, exists w',
    c w = (JS.Normal tt, w') /\
    milestones (trace w') = milestones (trace w) /\
    promise w' = promise w.

End Observations.

(* ================================================================== *)
(** * Shapes and relations used by the further properties *)
(* ================================================================== *)

Module ExtraSpec.

(** A lower-case hexadecimal digit. *)
Definition is_hex (c : ascii) : bool :=
  existsb (Ascii.eqb c) (list_ascii_of_string "0123456789abcdef").

(** One of the four digits of the UUID variant. *)
Definition is_variant (c : ascii) : bool :=
  existsb (Ascii.eqb c) (list_ascii_of_string "89ab").

(** [s] has the shape of [pattern]: a digit for 'x', a variant digit for
    'y', the same character otherwise. *)
Fixpoint has_shape (pattern s : string) : bool :=
  match pattern, s with
  | EmptyString, EmptyString => true
  | String p pattern, String c s =>
      (if Ascii.eqb p "x" then is_hex c
       else if Ascii.eqb p "y" then is_variant c
       else Ascii.eqb p c)
      && has_shape pattern s
  | _, _ => false
  end.

(** A version-4 UUID in its canonical text form. *)
Definition is_uuid_v4 (s : string) : bool :=
  has_shape "xxxxxxxx-xxxx-4xxx-yxxx-xxxxxxxxxxxx" s.

(** [c] occurs in [s]. *)
Fixpoint occurs (c : ascii) (s : string) : bool :=
  match s with
  | EmptyString => false
  | String d rest => Ascii.eqb d c || occurs c rest
  end.

(** The task [addAssetTask] queues for an asset: its kind follows the
    asset's type, its name is the asset's, its URL the asset's (cut in
    two for a model). *)
Definition queued_for (asset : Asset) (task : AssetTask) : Prop :=
  match task with
  | MeshTask name meshesNames rootUrl sceneFilename =>
      asset_type asset = "model" /\ name = asset_name asset /\ meshesNames = "" /\
      rootUrl ++ sceneFilename = asset_url asset
  | TextureTask name url =>
      asset_type asset = "texture" /\ name = asset_name asset /\ url = asset_url asset
  | BinaryFileTask name url =>
      asset_type asset = "audio" /\ name = asset_name asset /\ url = asset_url asset
  | CubeTextureTask name url =>
      asset_type asset = "hdr" /\ name = asset_name asset /\ url = asset_url asset
  end.

(** An asset whose type has no loader. *)
Definition unsupported (asset : Asset) : bool := negb (Observations.supported asset).

(** The messages written with [console.log]. *)
Fixpoint logs (t : list Event) : list string :=
  match t with
  | [] => []
  | ConsoleLog msg :: rest => msg :: logs rest
  | _ :: rest => logs rest
  end.

(** The text a request for a text file ends with, if any. *)
Definition text_of (net : UtilityJS.TextFetch) : option string :=
  match net with
  | UtilityJS.TextResponse true _ (UtilityJS.Body text) => Some text
  | _ => None
  end.

(** The scene asks for a skybox: its background is a texture or a sky,
    and it names a skybox texture. *)
Definition wants_skybox (sceneData : SceneData) : bool :=
  match environment sceneData with
  | Some envData =>
      match backgroundType envData, skyboxTexture envData with
      | Some type, Some texture =>
          (String.eqb type "texture" || String.eqb type "sky")
          && negb (String.eqb texture "")
      | _, _ => false
      end
  | None => false
  end.

(** [sceneData.environment || {}]. *)
Definition envData_of (sceneData : SceneData) : EnvironmentData :=
  match environment sceneData with
  | Some envData => envData
  | None => mkEnvironmentData None None None
  end.

(** A task that loads a model. *)
Definition is_mesh_task (task : AssetTask) : bool :=
  match task with MeshTask _ _ _ _ => true | _ => false end.



(** A record that asks for a directional light with shadows. *)
Definition casts_shadows (lightData : LightData) : bool :=
  match ld_type lightData with
  | Some type =>
      (String.eqb type "SUN" || String.eqb type "DIRECTIONAL")
      && JS.or_false (ld_castShadows lightData)
  | None => false
  end.

(** The light a record's type tag selects. *)
Definition kind_of (lightData : LightData) : LightKind :=
  match ld_type lightData with
  | Some type =>
      if String.eqb type "POINT" then PointLight
      else if String.eqb type "SPOT" then SpotLight
      else if String.eqb type "SUN" || String.eqb type "DIRECTIONAL" then DirectionalLight
      else HemisphericLight
  | None => HemisphericLight
  end.

(** What [setupLights] makes of a record in a scene holding the meshes
    [ms]: the kind of light its type tag selects, with a shadow
    generator exactly for a directional light that casts shadows, which
    renders the meshes that are not a skybox. *)
Definition lit_by (ms : list Mesh) (lightData : LightData) (light : Light) : Prop :=
  kind light = kind_of lightData /\
  (casts_shadows lightData = true ->
   option_map renderList (shadowGenerator light) = Some (LightJS.shadow_casters ms)) /\
  (casts_shadows lightData = false -> shadowGenerator light = None).


(** A statement only adds to what the console, the loading screen and
    the page have received, and everything it adds is [allowed]. *)
Definition emits_only (allowed : Event -> bool) {A : Type} (c : M A) : Prop :=
  forall w, exists added,
    trace (snd (c w)) = (trace w ++ added)%list /\ forallb allowed added = true.

(** What a phase of the scene's initialization may send, apart from
    progress: console lines, event listeners and phase marks. *)
Definition phase_event (e : Event) : bool :=
  match e with
  | ConsoleLog _ | ConsoleError _ | AddEventListener _ _ | Enter _ => true
  | _ => false
  end.



(** What the scene's initialization may send: console lines, event
    listeners, phase marks, and progress between 40 and 80. *)
Definition scene_event (e : Event) : bool :=
  match e with
  | ConsoleLog _ | ConsoleError _ | AddEventListener _ _ | Enter _ => true
  | Progress percent _ => (40 <=? percent)%Z && (percent <=? 80)%Z
  | SetTitle _ | RunRenderLoop | ShowDebugLayer | SetTimeout _ => false
  end.


(** What a page event says about the Shift key: pressed, released, or
    nothing. *)
Definition shift_of (event : CameraJS.InputEvent) : option bool :=
  match event with
  | CameraJS.KeyDown key => if String.eqb key "Shift" then Some true else None
  | CameraJS.KeyUp key => if String.eqb key "Shift" then Some false else None
  | _ => None
  end.

(** The last thing the events say about the Shift key. *)
Definition last_shift (events : list CameraJS.InputEvent) : option bool :=
  fold_left (fun seen event =>
               match shift_of event with
               | Some pressed => Some pressed
               | None => seen
               end)
            events None.

(** The number of times the space key went down. *)
Definition space_presses (events : list CameraJS.InputEvent) : nat :=
  List.length (filter (fun event =>
                         match event with
                         | CameraJS.KeyDown key => String.eqb key " "
                         | _ => false
                         end)
                      events).

(** The mouse movement, horizontal and vertical, received while the
    pointer is locked on the canvas; [locked] tells whether it is at the
    start. *)
Fixpoint locked_movement (events : list CameraJS.InputEvent) (locked : bool) : R * R :=
  match events with
  | [] => (0, 0)%R
  | CameraJS.PointerLockChange lockedOnCanvas :: rest => locked_movement rest lockedOnCanvas
  | CameraJS.MouseMove movementX movementY :: rest =>
      let '(x, y) := locked_movement rest locked in
      if locked then (movementX + x, movementY + y)%R else (x, y)
  | _ :: rest => locked_movement rest locked
  end.

(** The number of time-outs that fired. *)
Definition timeouts_fired (events : list CustomFeaturesJS.JumpEvent) : nat :=
  List.length (filter (fun event =>
                         match event with
                         | CustomFeaturesJS.TimeoutFires => true
                         | _ => false
                         end)
                      events).

(** The picking state is consistent with the scene [meshes0] it started
    from.  No mesh ever changes its name.  While a mesh is highlighted,
    it carries the highlight material, its own material is the one and
    only entry saved, the panel is displayed and holds that mesh, the
    mesh is not a skybox, and every other mesh is as it was.  While none
    is, nothing is saved, the panel is hidden and every mesh is as it
    was. *)
Definition highlight_consistent (meshes0 : CustomFeaturesJS.MeshId -> CustomFeaturesJS.PickMesh)
           (s : CustomFeaturesJS.Picking) : Prop :=
  (forall id, CustomFeaturesJS.pick_name (CustomFeaturesJS.sceneMeshes s id)
              = CustomFeaturesJS.pick_name (meshes0 id)) /\
  match CustomFeaturesJS.highlightedMesh s with
  | Some highlighted =>
      CustomFeaturesJS.material (CustomFeaturesJS.sceneMeshes s highlighted)
      = Some CustomFeaturesJS.HighlightMaterial /\
      (exists original,
          CustomFeaturesJS.material (meshes0 highlighted) = Some original /\
          CustomFeaturesJS.originalMaterials s = [(highlighted, original)]) /\
      CustomFeaturesJS.panelDisplayed s = true /\
      CustomFeaturesJS.panelMesh s = Some highlighted /\
      JS.includes (CustomFeaturesJS.pick_name (meshes0 highlighted)) "skyBox" = false /\
      (forall id, id <> highlighted -> CustomFeaturesJS.sceneMeshes s id = meshes0 id)
  | None =>
      CustomFeaturesJS.originalMaterials s = [] /\
      CustomFeaturesJS.panelDisplayed s = false /\
      (forall id, CustomFeaturesJS.sceneMeshes s id = meshes0 id)
  end.

(** A pointer position over no mesh. *)
Definition is_miss (pickResult : CustomFeaturesJS.PickResult) : bool :=
  match (if CustomFeaturesJS.hit pickResult
         then CustomFeaturesJS.pickedMesh pickResult else None) with
  | Some _ => false
  | None => true
  end.

(** The column-major array of a transform that scales by (sx, sy, sz)
    along the axes and translates by (tx, ty, tz), without rotation. *)
Definition scaling_translation16 (sx sy sz tx ty tz : R) : list R :=
  [sx; 0; 0; 0;  0; sy; 0; 0;  0; 0; sz; 0;  tx; ty; tz; 1]%R.

End ExtraSpec.

(* ================================================================== *)
(** * Real-number helpers *)
(* ================================================================== *)

Section RealTests.
Local Open Scope R_scope.
Context {A : Type}.

Lemma if_Rlt_true (a b : R) (x y : A) :
  a < b -> (if Rlt_dec a b then x else y) = x.
Proof. intros H. destruct (Rlt_dec a b); [reflexivity | contradiction]. Qed.

Lemma if_Rlt_false (a b : R) (x y : A) :
  ~ a < b -> (if Rlt_dec a b then x else y) = y.
Proof. intros H. destruct (Rlt_dec a b); [contradiction | reflexivity]. Qed.

Lemma if_Rle_true (a b : R) (x y : A) :
  a <= b -> (if Rle_dec a b then x else y) = x.
Proof. intros H. destruct (Rle_dec a b); [reflexivity | contradiction]. Qed.

Lemma if_Rle_false (a b : R) (x y : A) :
  ~ a <= b -> (if Rle_dec a b then x else y) = y.
Proof. intros H. destruct (Rle_dec a b); [contradiction | reflexivity]. Qed.

Lemma if_Req_false (a b : R) (x y : A) :
  a <> b -> (if Req_dec_T a b then x else y) = y.
Proof. intros H. destruct (Req_dec_T a b); [contradiction | reflexivity]. Qed.

End RealTests.

Section EngineFacts.
Local Open Scope R_scope.

Lemma Matrix_ext a0 a1 a2 a3 a4 a5 a6 a7 a8 a9 a10 a11 a12 a13 a14 a15
      b0 b1 b2 b3 b4 b5 b6 b7 b8 b9 b10 b11 b12 b13 b14 b15 :
  a0 = b0 -> a1 = b1 -> a2 = b2 -> a3 = b3 ->
  a4 = b4 -> a5 = b5 -> a6 = b6 -> a7 = b7 ->
  a8 = b8 -> a9 = b9 -> a10 = b10 -> a11 = b11 ->
  a12 = b12 -> a13 = b13 -> a14 = b14 -> a15 = b15 ->
  FromValues a0 a1 a2 a3 a4 a5 a6 a7 a8 a9 a10 a11 a12 a13 a14 a15 =
  FromValues b0 b1 b2 b3 b4 b5 b6 b7 b8 b9 b10 b11 b12 b13 b14 b15.
Proof. intros; subst; reflexivity. Qed.

Lemma sqrt_4 : sqrt 4 = 2.
Proof. replace 4 with (2 * 2) by lra. apply sqrt_square. lra. Qed.

Lemma atan2_0_pos (x : R) : 0 < x -> JSMath.atan2 0 x = 0.
Proof.
  intros H. unfold JSMath.atan2. rewrite if_Rlt_true by assumption.
  replace (0 / x) with 0 by (unfold Rdiv; ring). apply atan_0.
Qed.

Lemma atan2_0_neg (x : R) : x < 0 -> JSMath.atan2 0 x = PI.
Proof.
  intros H. unfold JSMath.atan2.
  rewrite if_Rlt_false by lra. rewrite if_Rlt_true by assumption.
  rewrite if_Rle_true by lra.
  replace (0 / x) with 0 by (unfold Rdiv; ring). rewrite atan_0. ring.
Qed.

Lemma FromRotationMatrix_Identity :
  FromRotationMatrix Identity = mkQuaternion 0 0 0 1.
Proof.
  unfold FromRotationMatrix, Identity; cbn [m0 m1 m2 m4 m5 m6 m8 m9 m10].
  rewrite if_Rlt_true by lra.
  replace (1 + 1 + 1 + 1) with 4 by lra. rewrite sqrt_4.
  f_equal; lra.
Qed.

Lemma decompose_Identity :
  decompose Identity = (mkVector3 1 1 1, mkQuaternion 0 0 0 1, mkVector3 0 0 0).
Proof.
  unfold decompose.
  assert (D : determinant Identity = 1) by (unfold determinant, Identity; cbn; lra).
  rewrite D. rewrite if_Rle_false by lra.
  unfold Identity; cbn [m0 m1 m2 m3 m4 m5 m6 m7 m8 m9 m10 m11 m12 m13 m14 m15].
  replace (1 * 1 + 0 * 0 + 0 * 0) with 1 by lra.
  replace (0 * 0 + 1 * 1 + 0 * 0) with 1 by lra.
  replace (0 * 0 + 0 * 0 + 1 * 1) with 1 by lra.
  rewrite sqrt_1.
  rewrite !if_Req_false by lra.
  replace (1 * (1 / 1)) with 1 by lra.
  replace (0 * (1 / 1)) with 0 by lra.
  fold Identity. rewrite FromRotationMatrix_Identity. reflexivity.
Qed.

Lemma toRotationMatrix_identity :
  toRotationMatrix (mkQuaternion 0 0 0 1) = Identity.
Proof.
  unfold toRotationMatrix, Identity; cbn [qx qy qz qw]. apply Matrix_ext; lra.
Qed.

(** In exact arithmetic the engine's [RotationY(Math.PI)] is the half
    turn: the sine of PI is 0. *)
Lemma RotationY_PI : RotationY PI = DecoderSpec.half_turn_about_up.
Proof.
  unfold RotationY, DecoderSpec.half_turn_about_up.
  rewrite sin_PI, cos_PI. apply Matrix_ext; lra.
Qed.



Lemma half_turn_quaternion :
  FromRotationMatrix (multiply (RotationY PI) Identity) = mkQuaternion 0 1 0 0.
Proof.
  rewrite RotationY_PI.
  unfold multiply, DecoderSpec.half_turn_about_up, Identity, FromRotationMatrix;
    cbn [m0 m1 m2 m3 m4 m5 m6 m7 m8 m9 m10 m11 m12 m13 m14 m15].
  rewrite (if_Rlt_false 0) by lra.
  rewrite (if_Rlt_false (0 * 0 + 1 * 1 + 0 * 0 + 0 * 0)) by lra.
  rewrite if_Rlt_true by lra.
  match goal with |- context [sqrt ?e] => replace e with 4 by lra end.
  rewrite sqrt_4. f_equal; lra.
Qed.

Lemma half_turn_euler :
  toEulerAngles (mkQuaternion 0 1 0 0) = mkVector3 0 PI 0.
Proof.
  unfold toEulerAngles; cbn [qx qy qz qw].
  rewrite if_Rlt_false by lra. rewrite if_Rlt_false by lra.
  replace (-2 * (1 * 0 - 0 * 0)) with 0 by lra. rewrite asin_0.
  replace (2 * (0 * 0 + 1 * 0)) with 0 by lra.
  replace (2 * (0 * 1 + 0 * 0)) with 0 by lra.
  rewrite atan2_0_neg by lra. rewrite atan2_0_pos by lra. reflexivity.
Qed.

(** Whatever the matrix, the translation [decompose] returns is its
    fourth row. *)
Lemma decompose_translation (m : Matrix) :
  snd (decompose m) = mkVector3 (m12 m) (m13 m) (m14 m).
Proof.
  unfold decompose.
  repeat match goal with
         | |- context [if Req_dec_T ?a ?b then _ else _] => destruct (Req_dec_T a b)
         end; reflexivity.
Qed.

End EngineFacts.

(* ================================================================== *)
(** * The transform decoders *)
(* ================================================================== *)

Section Decoders.
Local Open Scope R_scope.
Import CameraJS LightJS Samples.

(** The light-side decoder returns entries 3, 7 and 11 of the array: the
    transposition moved them into the fourth row, where [decompose]
    reads the translation. *)
Lemma getPositionFromMatrix_entries (matrix : list R) :
  getPositionFromMatrix matrix =
  mkVector3 (nth 3 matrix 0) (nth 7 matrix 0) (nth 11 matrix 0).
Proof.
  unfold getPositionFromMatrix.
  pose proof (decompose_translation (transpose (FromArray matrix))) as T.
  destruct (decompose (transpose (FromArray matrix))) as [[scale rotationQuat] p].
  exact T.
Qed.

Lemma getPositionAndDirection_position (matrix : list R) :
  fst (getPositionAndDirectionFromMatrix matrix) = getPositionFromMatrix matrix.
Proof.
  unfold getPositionAndDirectionFromMatrix, getPositionFromMatrix.
  destruct (decompose (transpose (FromArray matrix))) as [[scale rotationQuat] p].
  reflexivity.
Qed.

Lemma applyTransformation_position (camera : Camera) (matrix : list R) :
  position (applyTransformation camera matrix) = flipX (getPositionFromMatrix matrix).
Proof.
  unfold applyTransformation, getPositionFromMatrix.
  destruct (decompose (transpose (FromArray matrix))) as [[scale rotationQuat] p].
  reflexivity.
Qed.

Lemma createPointLight_position (lightData : LightData) (matrix : list R) (w : World) :
  ld_matrix lightData = Some matrix ->
  exists light w',
    createPointLight lightData w = (JS.Normal light, w') /\
    light_position light = Some (flipX (getPositionFromMatrix matrix)).
Proof.
  intros H. unfold createPointLight. rewrite H.
  eexists. eexists. split; reflexivity.
Qed.

(** The identity array decodes to the origin and to a half turn of yaw. *)
Lemma identity_placement (camera : Camera) :
  position (applyTransformation camera identity16) = mkVector3 0 0 0 /\
  rotation (applyTransformation camera identity16) = mkVector3 0 (- PI) 0.
Proof.
  unfold applyTransformation.
  change (transpose (FromArray identity16)) with Identity.
  rewrite decompose_Identity.
  rewrite toRotationMatrix_identity, half_turn_quaternion, half_turn_euler.
  cbn [set_placement position rotation vx vy vz].
  split; [f_equal; lra | reflexivity].
Qed.

(** C1, as stated, fails: the identity array does not leave the camera
    with zero Euler angles. *)
Lemma C1_identity_rotation_is_not_zero :
  ~ (position (applyTransformation camera0 identity16) = mkVector3 0 0 0 /\
     rotation (applyTransformation camera0 identity16) = mkVector3 0 0 0).
Proof.
  intros [_ H].
  destruct (identity_placement camera0) as [_ R]. rewrite R in H.
  injection H as H. pose proof PI_RGT_0. lra.
Qed.

(** C1 (amended): for the identity 16-element array, [applyTransformation]
    puts the camera at the zero vector, and its rotation is the half turn
    about the up axis that the decoder always adds: Euler angles
    (0, -PI, 0). *)
Theorem C1_identity_position_zero_rotation_half_turn (camera : Camera) :
  position (applyTransformation camera identity16) = mkVector3 0 0 0 /\
  rotation (applyTransformation camera identity16) = mkVector3 0 (- PI) 0.
Proof. exact (identity_placement camera). Qed.



(** The camera matrix of the default project, whose translation is
    (0, 2, -10), leaves the camera at the origin. *)
Lemma defaultProjectCamera_at_origin :
  position (applyTransformation camera0 defaultProjectCamera) = mkVector3 0 0 0.
Proof.
  rewrite applyTransformation_position, getPositionFromMatrix_entries.
  unfold flipX; cbn. f_equal; lra.
Qed.

(** C3 (the code at the failing input): negating entry 12, the X of the
    translation column, changes nothing in the decoded position, for the
    camera and for a point light: its X is minus entry 3 before and
    after. *)
Theorem C3_translation_column_ignored :
  position (applyTransformation camera0 skewed) = mkVector3 (-1) 0 0 /\
  position (applyTransformation camera0 skewed_negated) = mkVector3 (-1) 0 0 /\
  (exists light w',
      createPointLight (pointLightAt skewed) World0 = (JS.Normal light, w') /\
      light_position light = Some (mkVector3 (-1) 0 0)) /\
  (exists light w',
      createPointLight (pointLightAt skewed_negated) World0 = (JS.Normal light, w') /\
      light_position light = Some (mkVector3 (-1) 0 0)).
Proof.
  repeat split.
  - rewrite applyTransformation_position, getPositionFromMatrix_entries. reflexivity.
  - rewrite applyTransformation_position, getPositionFromMatrix_entries. reflexivity.
  - destruct (createPointLight_position (pointLightAt skewed) skewed World0 eq_refl)
      as (light & w' & E & P).
    exists light, w'. split; [exact E |].
    rewrite P, getPositionFromMatrix_entries. reflexivity.
  - destruct (createPointLight_position (pointLightAt skewed_negated) skewed_negated
                                        World0 eq_refl)
      as (light & w' & E & P).
    exists light, w'. split; [exact E |].
    rewrite P, getPositionFromMatrix_entries. reflexivity.
Qed.

(** C9: for every 16-element array, the two light-side decoders return
    the same position, the camera's position is that position with its X
    negated, and a point light given the array ends at the camera's
    position. *)
Theorem C9_camera_and_light_positions_agree
        (camera : Camera) (array : list R) (lightData : LightData) (w : World) :
  List.length array = 16%nat ->
  ld_matrix lightData = Some array ->
  fst (getPositionAndDirectionFromMatrix array) = getPositionFromMatrix array /\
  position (applyTransformation camera array) = flipX (getPositionFromMatrix array) /\
  exists light w',
    createPointLight lightData w = (JS.Normal light, w') /\
    light_position light = Some (position (applyTransformation camera array)).
Proof.
  intros _ H. split; [apply getPositionAndDirection_position |].
  split; [apply applyTransformation_position |].
  destruct (createPointLight_position lightData array w H) as (light & w' & E & P).
  exists light, w'. split; [exact E |].
  rewrite P, applyTransformation_position. reflexivity.
Qed.

Lemma C9_witness :
  fst (getPositionAndDirectionFromMatrix identity16) = getPositionFromMatrix identity16 /\
  position (applyTransformation camera0 identity16) =
    flipX (getPositionFromMatrix identity16) /\
  exists light w',
    createPointLight (pointLightAt identity16) World0 = (JS.Normal light, w') /\
    light_position light = Some (position (applyTransformation camera0 identity16)).
Proof.
  apply (C9_camera_and_light_positions_agree camera0 identity16
           (pointLightAt identity16) World0); reflexivity.
Defined.

End Decoders.

(* ================================================================== *)
(** * The camera and light factories *)
(* ================================================================== *)

Section Factories.
Local Open Scope R_scope.
Import CameraJS LightJS LightSpec Samples.

(** C10: [setupCamera] returns normally for every camera record.  With no
    matrix field the camera stands at (0, 2, -10) with rotation
    (0, 0, 0); with a matrix field its position and rotation are the ones
    [applyTransformation] decodes from that matrix.  Which of the two
    happens is decided by the presence of the field alone. *)
Theorem C10_setupCamera_placement (cameraData : CameraData) (w : World) :
  exists camera w',
    setupCamera cameraData w = (JS.Normal camera, w') /\
    match cam_matrix cameraData with
    | None =>
        position camera = mkVector3 0 2 (-10) /\
        rotation camera = mkVector3 0 0 0
    | Some matrix =>
        let decoded :=
          applyTransformation
            (UniversalCamera_new (JS.or_string (cam_name cameraData) "MainCamera")
                                 (mkVector3 0 0 0))
            matrix in
        position camera = position decoded /\
        rotation camera = rotation decoded
    end.
Proof.
  unfold setupCamera.
  destruct (cam_matrix cameraData) as [matrix |];
    (eexists; eexists; split; [reflexivity | split; reflexivity]).
Qed.

(** C7, as stated, fails: a record whose type is none of the four tags
    gets a hemispheric light that has neither its colour nor its
    intensity. *)
Lemma C7_default_light_ignores_colour_and_intensity :
  exists light w',
    setupLights areaLight World0 = (JS.Normal light, w') /\
    kind light = HemisphericLight /\
    ~ colour_and_intensity_applied areaLight light.
Proof.
  eexists. eexists. split; [reflexivity |]. split; [reflexivity |].
  intros (H & _). discriminate H.
Qed.

Ltac configured_light :=
  eexists; eexists; split; [reflexivity |]; split; [reflexivity |];
  unfold configured, colour_and_intensity_applied; cbn;
  repeat match goal with
         | |- _ /\ _ => split
         | |- _ <-> _ => split
         | |- _ -> _ => intros ?
         end;
  try reflexivity; try discriminate; try congruence;
  try match goal with
      | H : _ /\ _ |- _ => destruct H; congruence
      | H : ?x <> ?x |- _ => exfalso; apply H; reflexivity
      end.

Ltac dispatch_case light w' E K C :=
  exists light, w'; split; [exact E |];
  unfold configured in C; rewrite K in *;
  intuition (try congruence; try discriminate).

Lemma createPointLight_configured (lightData : LightData) (w : World) :
  exists light w',
    createPointLight lightData w = (JS.Normal light, w') /\
    kind light = PointLight /\ configured lightData light.
Proof. unfold createPointLight. configured_light. Qed.

Lemma createSpotLight_configured (lightData : LightData) (w : World) :
  exists light w',
    createSpotLight lightData w = (JS.Normal light, w') /\
    kind light = SpotLight /\ configured lightData light.
Proof. unfold createSpotLight. configured_light. Qed.

Lemma createDirectionalLight_configured (lightData : LightData) (w : World) :
  exists light w',
    createDirectionalLight lightData w = (JS.Normal light, w') /\
    kind light = DirectionalLight /\ configured lightData light.
Proof.
  unfold createDirectionalLight, configured.
  destruct (ld_castShadows lightData) as [[|] |]; configured_light.
Qed.

Lemma createHemisphericLight_configured (lightData : LightData) (w : World) :
  exists light w',
    createHemisphericLight lightData w = (JS.Normal light, w') /\
    kind light = HemisphericLight /\ configured lightData light.
Proof. unfold createHemisphericLight. configured_light. Qed.

Lemma setupLights_unfold (lightData : LightData) (w : World) :
  setupLights lightData w =
  match ld_type lightData with
  | Some type =>
      if String.eqb type "POINT" then createPointLight lightData
      else if String.eqb type "SPOT" then createSpotLight lightData
      else if String.eqb type "SUN" then createDirectionalLight lightData
      else if String.eqb type "DIRECTIONAL" then createDirectionalLight lightData
      else createHemisphericLight lightData
  | None => createHemisphericLight lightData
  end
    (with_trace
       (trace w ++
        [ConsoleLog ("Creating light: " ++ JS.or_string (ld_name lightData) "unnamed"
                     ++ " (" ++ JS.show (ld_type lightData) ++ ")")]) w).
Proof. reflexivity. Qed.

(** C7 (amended): [setupLights] returns normally for every light record.
    The type tag selects the light: "POINT" a point light, "SPOT" a spot
    light, "SUN" and "DIRECTIONAL" a directional light, anything else a
    hemispheric light.  Point, spot and directional lights take the
    record's colour (as diffuse and specular) and intensity when present;
    a point light takes the range when it is present and not zero; a spot
    light takes the angle and the exponent, PI/4 and 2 when absent or
    zero.  The hemispheric light takes none of colour, intensity, range
    and angle.  A light has a shadow generator exactly when it is
    directional and the record's castShadows is true. *)
Theorem C7_setupLights_dispatch (lightData : LightData) (w : World) :
  exists light w',
    setupLights lightData w = (JS.Normal light, w') /\
    (ld_type lightData = Some "POINT" -> kind light = PointLight) /\
    (ld_type lightData = Some "SPOT" -> kind light = SpotLight) /\
    (ld_type lightData = Some "SUN" \/ ld_type lightData = Some "DIRECTIONAL" ->
     kind light = DirectionalLight) /\
    (ld_type lightData <> Some "POINT" -> ld_type lightData <> Some "SPOT" ->
     ld_type lightData <> Some "SUN" -> ld_type lightData <> Some "DIRECTIONAL" ->
     kind light = HemisphericLight) /\
    (kind light <> HemisphericLight -> colour_and_intensity_applied lightData light) /\
    (kind light = PointLight -> range light = range_of lightData) /\
    (kind light = SpotLight ->
     light_angle light = Some (JS.or_number (ld_angle lightData) (PI / 4)) /\
     light_exponent light = Some (JS.or_number (ld_exponent lightData) 2)) /\
    (kind light = HemisphericLight ->
     diffuse light = None /\ specular light = None /\ intensity light = None /\
     range light = None /\ light_angle light = None) /\
    (shadowGenerator light <> None <->
     kind light = DirectionalLight /\ ld_castShadows lightData = Some true).
Proof.
  rewrite setupLights_unfold.
  set (w1 := with_trace _ w). clearbody w1.
  assert (Hemi : exists light w',
             createHemisphericLight lightData w1 = (JS.Normal light, w') /\
             kind light = HemisphericLight /\ configured lightData light)
    by apply createHemisphericLight_configured.
  destruct (ld_type lightData) as [type |] eqn:T.
  - destruct (String.eqb_spec type "POINT") as [-> | NP].
    { destruct (createPointLight_configured lightData w1) as (light & w' & E & K & C).
      dispatch_case light w' E K C. }
    destruct (String.eqb_spec type "SPOT") as [-> | NS].
    { destruct (createSpotLight_configured lightData w1) as (light & w' & E & K & C).
      dispatch_case light w' E K C. }
    destruct (String.eqb_spec type "SUN") as [-> | NU].
    { destruct (createDirectionalLight_configured lightData w1) as (light & w' & E & K & C).
      dispatch_case light w' E K C. }
    destruct (String.eqb_spec type "DIRECTIONAL") as [-> | ND].
    { destruct (createDirectionalLight_configured lightData w1) as (light & w' & E & K & C).
      dispatch_case light w' E K C. }
    destruct Hemi as (light & w' & E & K & C).
    dispatch_case light w' E K C.
  - destruct Hemi as (light & w' & E & K & C).
    dispatch_case light w' E K C.
Qed.

End Factories.

(* ================================================================== *)
(** * Asset dispatch *)
(* ================================================================== *)

Section AssetDispatch.
Import AssetManagerJS Observations Samples.
Local Open Scope list_scope.

Lemma errors_app (t u : list Event) : errors (t ++ u) = errors t ++ errors u.
Proof.
  induction t as [| e t IH]; [reflexivity |].
  destruct e; cbn; rewrite ?IH; reflexivity.
Qed.

(** One asset: a task is queued exactly when the type has a loader, and
    an error is logged exactly when it has none. *)
Lemma addAssetTask_run (asset : Asset) (w : World) :
  exists w',
    addAssetTask asset w = (JS.Normal tt, w') /\
    List.length (tasks w') =
      (List.length (tasks w) + if supported asset then 1 else 0)%nat /\
    errors (trace w') =
      errors (trace w) ++ (if supported asset then [] else [unsupported_message asset]).
Proof.
  unfold addAssetTask, supported, unsupported_message.
  destruct (String.eqb (asset_type asset) "model");
    [| destruct (String.eqb (asset_type asset) "texture");
       [| destruct (String.eqb (asset_type asset) "audio");
          [| destruct (String.eqb (asset_type asset) "hdr")]]];
    (eexists; split; [reflexivity |]); cbn;
    (split; [rewrite ?length_app; cbn; lia
            | rewrite ?errors_app; cbn; rewrite ?app_nil_r; reflexivity]).
Qed.

Lemma forEach_addAssetTask (assetList : list Asset) (w : World) :
  exists w',
    forEach addAssetTask assetList w = (JS.Normal tt, w') /\
    List.length (tasks w') =
      (List.length (tasks w) + List.length (filter supported assetList))%nat /\
    errors (trace w') =
      errors (trace w) ++
      map unsupported_message (filter (fun a => negb (supported a)) assetList).
Proof.
  revert w. induction assetList as [| asset rest IH]; intros w.
  - exists w. cbn. rewrite Nat.add_0_r, app_nil_r. repeat split.
  - destruct (addAssetTask_run asset w) as (w1 & E1 & T1 & R1).
    destruct (IH w1) as (w2 & E2 & T2 & R2).
    exists w2. cbn [forEach]. unfold bind at 1. rewrite E1.
    split; [exact E2 |]. rewrite T2, T1, R2, R1. cbn [filter].
    destruct (supported asset); cbn; rewrite <- ?app_assoc; split; try reflexivity; lia.
Qed.

Lemma Permutation_filter_length {A} (f : A -> bool) (l l' : list A) :
  Permutation l l' -> List.length (filter f l) = List.length (filter f l').
Proof.
  induction 1 as [| a l l' _ IH | a b l | l l' l'' _ IH1 _ IH2]; cbn.
  - reflexivity.
  - destruct (f a); cbn; congruence.
  - destruct (f a), (f b); reflexivity.
  - congruence.
Qed.

Lemma Permutation_filter {A} (f : A -> bool) (l l' : list A) :
  Permutation l l' -> Permutation (filter f l) (filter f l').
Proof.
  induction 1 as [| a l l' _ IH | a b l | l l' l'' _ IH1 _ IH2]; cbn.
  - constructor.
  - destruct (f a); [constructor |]; assumption.
  - destruct (f a), (f b); try apply Permutation_refl. constructor.
  - eapply Permutation_trans; eassumption.
Qed.

(** C5: for a list holding exactly one asset of type 'model', one of type
    'texture' and one of type 'bogus', in any order, [loadAssets] returns
    normally, leaves exactly two tasks on the engine's assets manager and
    writes exactly one error to the console, the one about the unknown
    type. *)
Theorem C5_two_tasks_one_warning
        (model texture bogus : Asset) (assetList : list Asset)
        (cb : Callbacks) (w : World) :
  asset_type model = "model" ->
  asset_type texture = "texture" ->
  asset_type bogus = "bogus" ->
  Permutation assetList [model; texture; bogus] ->
  exists w',
    loadAssets assetList cb w = (JS.Normal tt, w') /\
    List.length (tasks w') = 2%nat /\
    errors (trace w') = errors (trace w) ++ ["[ERROR] Unsupported asset type: bogus"].
Proof.
  intros Hm Ht Hb P.
  assert (S2 : List.length (filter supported assetList) = 2%nat).
  { rewrite (Permutation_filter_length supported _ _ P).
    cbn. unfold supported. rewrite Hm, Ht, Hb. reflexivity. }
  assert (U : filter (fun a => negb (supported a)) assetList = [bogus]).
  { apply Permutation_length_1_inv. apply Permutation_sym.
    eapply Permutation_trans; [apply Permutation_filter; exact P |].
    cbn. unfold supported. rewrite Hm, Ht, Hb. cbn. apply Permutation_refl. }
  unfold loadAssets.
  destruct (forEach_addAssetTask assetList (with_tasks [] w)) as (w1 & E & T & R).
  exists w1. unfold bind at 1. cbn [modify].
  unfold bind at 1. rewrite E.
  rewrite U in R. cbn in R, T. rewrite S2 in T.
  unfold unsupported_message in R. rewrite Hb in R.
  split; [| split; assumption].
  unfold load, bind, get.
  destruct (tasks w1) as [| task rest]; [discriminate T | reflexivity].
Qed.

Lemma C5_witness :
  exists w',
    loadAssets [bogusAsset; modelAsset; textureAsset] noCallbacks World0
      = (JS.Normal tt, w') /\
    List.length (tasks w') = 2%nat /\
    errors (trace w') = errors (trace World0) ++ ["[ERROR] Unsupported asset type: bogus"].
Proof.
  apply (C5_two_tasks_one_warning modelAsset textureAsset bogusAsset
           [bogusAsset; modelAsset; textureAsset] noCallbacks World0);
    try reflexivity.
  apply Permutation_sym. apply perm_trans with [modelAsset; bogusAsset; textureAsset].
  - apply perm_skip. apply perm_swap.
  - apply perm_swap.
Defined.

End AssetDispatch.

(* ================================================================== *)
(** * Manifest load failure *)
(* ================================================================== *)

Section ManifestFailure.
Import UtilityJS Observations Samples.
Local Open Scope list_scope.

(** A failed fetch: [loadJSON] logs one error and returns [null]. *)
Lemma loadJSON_failed (url : string) (net : FetchOutcome) (w : World) :
  fetch_failed net = true ->
  exists msg,
    loadJSON url net w = (JS.Normal None, with_trace (trace w ++ [ConsoleError msg]) w).
Proof.
  intros F. unfold loadJSON.
  destruct net as [message | [|] status [message | [message | value]]];
    try discriminate F; eexists; reflexivity.
Qed.

(** C6: whenever the manifest fetch fails (the response is not ok, or
    fetching, reading or parsing throws), [loadJSON] returns [null]
    without throwing, and the application's [initialize] returns normally
    with its last act being the error message on the loading screen. *)
Theorem C6_manifest_failure_is_reported (host : Host) (projectFile : string) (w : World) :
  fetch_failed (fetch host) = true ->
  (exists w1 msg,
      loadJSON projectFile (fetch host) w = (JS.Normal None, w1) /\
      trace w1 = trace w ++ [ConsoleError msg]) /\
  (exists w2 t,
      AppJS.initialize host projectFile w = (JS.Normal tt, w2) /\
      trace w2 = t ++ [Progress 0 "Error: Failed to load project configuration"]).
Proof.
  intros F. split.
  - destruct (loadJSON_failed projectFile (fetch host) w F) as (msg & E).
    eexists. exists msg. split; [exact E | reflexivity].
  - unfold AppJS.initialize, try_catch, updateLoadingProgress.
    unfold bind at 1. cbn [emit modify].
    set (w0 := with_trace _ w).
    destruct (loadJSON_failed projectFile (fetch host) w0 F) as (msg & E).
    unfold bind at 1. rewrite E. cbn.
    eexists. eexists. split; reflexivity.
Qed.

Lemma C6_witness :
  (exists w1 msg,
      loadJSON "assets/project.json" (fetch host404) World0 = (JS.Normal None, w1) /\
      trace w1 = trace World0 ++ [ConsoleError msg]) /\
  (exists w2 t,
      AppJS.initialize host404 "assets/project.json" World0 = (JS.Normal tt, w2) /\
      trace w2 = t ++ [Progress 0 "Error: Failed to load project configuration"]).
Proof.
  apply (C6_manifest_failure_is_reported host404 "assets/project.json" World0).
  reflexivity.
Defined.

End ManifestFailure.

(* ================================================================== *)
(** * Orchestration: phases and progress *)
(* ================================================================== *)

Section Orchestration.
Import AssetManagerJS SceneJS Observations Samples.
Local Open Scope list_scope.
Local Open Scope js_scope.

Ltac run_js :=
  cbv delta [SceneJS.resolve SceneJS.reject set_meshes add_light
             updateLoadingProgress log emit modify get ret throw suspend];
  cbn [bind with_trace with_background with_skybox with_meshes with_lights
       with_activeCamera with_actionManagers with_tasks with_promise
       trace clearColor ambientColor skybox meshes lights activeCamera
       actionManagers tasks promise fst snd].

Lemma milestones_app (t u : list Event) :
  milestones (t ++ u) = milestones t ++ milestones u.
Proof.
  induction t as [| e t IH]; [reflexivity |].
  destruct e; cbn; rewrite ?IH; reflexivity.
Qed.

Lemma percents_milestones (t : list Event) : percents (milestones t) = percents t.
Proof.
  induction t as [| e t IH]; [reflexivity |].
  destruct e; cbn; rewrite ?IH; reflexivity.
Qed.


Lemma percents_app (t u : list Event) : percents (t ++ u) = percents t ++ percents u.
Proof.
  induction t as [| e t IH]; [reflexivity |].
  destruct e; cbn; rewrite ?IH; reflexivity.
Qed.


Lemma quiet_ret : quiet (ret tt).
Proof. intros w. exists w. repeat split. Qed.

Lemma quiet_bind (c k : M unit) : quiet c -> quiet k -> quiet (c ;;; k).
Proof.
  intros Hc Hk w. destruct (Hc w) as (w1 & E1 & M1 & P1).
  destruct (Hk w1) as (w2 & E2 & M2 & P2).
  exists w2. unfold bind. rewrite E1. split; [exact E2 |]. split; congruence.
Qed.

Lemma quiet_log (message : string) (isError : bool) : quiet (log message isError).
Proof.
  intros w. unfold log. destruct isError; (eexists; split; [reflexivity |]);
    cbn; rewrite milestones_app; cbn; rewrite app_nil_r; split; reflexivity.
Qed.

Lemma quiet_forEach {A} (f : A -> M unit) (l : list A) :
  (forall a, quiet (f a)) -> quiet (forEach f l).
Proof.
  intros H. induction l as [| a l IH]; cbn [forEach].
  - apply quiet_ret.
  - apply quiet_bind; [apply H | exact IH].
Qed.

Lemma quiet_meshes (f : World -> list Mesh) :
  quiet (modify (fun w => with_meshes (f w) w)).
Proof. intros w. eexists. repeat split. Qed.

Lemma quiet_task_onSuccess (task : AssetTask) (ms gs : list string) :
  quiet (task_onSuccess task ms gs).
Proof.
  destruct task; cbn [task_onSuccess]; try apply quiet_log.
  unfold meshTask_onSuccess. apply quiet_bind; [apply quiet_log |].
  apply quiet_forEach. intros mesh. apply quiet_bind.
  - apply (quiet_meshes (fun w => meshes w ++ [mkMesh mesh true false])).
  - apply quiet_forEach. intros g. apply quiet_log.
Qed.

Lemma Qfloor_progress (done total : Z) :
  (0 < total)%Z ->
  Qfloor ((inject_Z done / inject_Z total) * 20)%Q = ((20 * done) / total)%Z.
Proof.
  intros H. destruct total as [| p | p]; try lia.
  unfold Qdiv, Qinv, inject_Z, Qmult, Qfloor; cbn [Qnum Qden].
  rewrite Pos.mul_1_l, Pos.mul_1_r, Z.mul_1_r. f_equal. lia.
Qed.


Lemma onProgress_run (remaining total : Z) (w : World) :
  (0 < total)%Z ->
  exists w',
    onProgress callbacks remaining total w = (JS.Normal tt, w') /\
    milestones (trace w') = milestones (trace w) ++ [shown (total - remaining) total] /\
    promise w' = promise w.
Proof.
  intros H. unfold onProgress, callbacks, loadingProgress, updateLoadingProgress, shown,
    loading_percent; cbn [onProgressCallback].
  rewrite Qfloor_progress by assumption.
  eexists. split; [reflexivity |]. run_js. rewrite milestones_app. split; reflexivity.
Qed.

Lemma onFinish_run (w : World) :
  exists w',
    onFinish callbacks w = (JS.Normal tt, w') /\
    milestones (trace w') = milestones (trace w) /\
    promise w' = match promise w with Pending => Fulfilled | settled => settled end.
Proof.
  unfold onFinish, callbacks; cbn [onLoadedCallback].
  run_js.
  eexists. split; [reflexivity |].
  destruct (promise w) eqn:P; run_js; rewrite milestones_app, app_nil_r, ?P;
    split; reflexivity.
Qed.

Lemma failure_handlers_run (task : AssetTask) (message : string) (w : World) :
  promise w = Pending ->
  exists w',
    (task_onError callbacks task message ;;; onTaskError callbacks task None) w
      = (JS.Normal tt, w') /\
    milestones (trace w') = milestones (trace w) /\
    promise w' = Rejected (JS.FailedTask (task_name task)).
Proof.
  intros P.
  destruct task; cbn [task_onError]; unfold meshTask_onError, onTaskError, callbacks;
    cbn [onErrorCallback]; run_js; rewrite P;
    (eexists; split; [reflexivity |]); run_js; rewrite !milestones_app, ?app_nil_r;
    split; reflexivity.
Qed.


Lemma complete_task_run (task : AssetTask) (outcome : TaskOutcome)
      (remaining total : Z) (w : World) :
  promise w = Pending -> (0 < total)%Z ->
  exists w',
    complete_task callbacks task outcome remaining total w = (JS.Normal tt, w') /\
    milestones (trace w') = milestones (trace w) ++ [shown (total - remaining) total] /\
    promise w' =
      match outcome with
      | Failed _ => Rejected (JS.FailedTask (task_name task))
      | Loaded _ _ => if (remaining =? 0)%Z then Fulfilled else Pending
      end.
Proof.
  intros P T. unfold complete_task.
  assert (H1 : exists w1,
             match outcome with
             | Loaded ms gs => task_onSuccess task ms gs
             | Failed message =>
                 task_onError callbacks task message ;;; onTaskError callbacks task None
             end w = (JS.Normal tt, w1) /\
             milestones (trace w1) = milestones (trace w) /\
             promise w1 = match outcome with
                          | Failed _ => Rejected (JS.FailedTask (task_name task))
                          | Loaded _ _ => Pending
                          end).
  { destruct outcome as [ms gs | message].
    - destruct (quiet_task_onSuccess task ms gs w) as (w1 & E & M1 & P1).
      exists w1. repeat split; congruence.
    - apply failure_handlers_run; assumption. }
  destruct H1 as (w1 & E1 & M1 & P1).
  destruct (onProgress_run remaining total w1 T) as (w2 & E2 & M2 & P2).
  unfold bind at 1. rewrite E1. unfold bind at 1. rewrite E2.
  destruct (remaining =? 0)%Z.
  - destruct (onFinish_run w2) as (w3 & E3 & M3 & P3).
    exists w3. split; [exact E3 |]. split; [congruence |].
    rewrite P3, P2, P1. destruct outcome; reflexivity.
  - exists w2. split; [reflexivity |]. split; [congruence |].
    rewrite P2, P1. destruct outcome; reflexivity.
Qed.

Lemma await_settled (host : Host) (index : nat) (queue : list AssetTask)
      (total : Z) (w : World) :
  promise w <> Pending ->
  await host index queue total w =
  (match promise w with
   | Rejected reason => JS.Throw reason
   | _ => JS.Normal tt
   end, w).
Proof.
  intros P. destruct queue; cbn [await]; run_js;
    destruct (promise w); try reflexivity; contradiction.
Qed.

(** Every task loads: the promise is fulfilled by the last one, after one
    progress update per task. *)
Lemma await_all_loaded (host : Host) (total : Z) :
  (forall i, is_loaded (task_outcome host i) = true) ->
  forall (queue : list AssetTask) (index : nat) (w : World),
    promise w = Pending -> queue <> [] ->
    total = Z.of_nat (index + List.length queue) ->
    exists w',
      await host index queue total w = (JS.Normal tt, w') /\
      milestones (trace w') =
        milestones (trace w) ++
        map (fun k => shown (Z.of_nat k) total) (seq (S index) (List.length queue)).
Proof.
  intros L. induction queue as [| task rest IH]; intros index w P NE T; [contradiction |].
  cbn [await]. run_js. rewrite P.
  specialize (L index). destruct (task_outcome host index) as [ms gs | message] eqn:O;
    [| discriminate L].
  destruct (complete_task_run task (Loaded ms gs) (Z.of_nat (List.length rest)) total w P)
    as (w1 & E1 & M1 & P1); [cbn [List.length] in T; lia |].
  unfold bind at 1. rewrite E1.
  replace (total - Z.of_nat (List.length rest))%Z with (Z.of_nat (S index)) in M1
    by (cbn [List.length] in T; lia).
  destruct rest as [| task' rest'].
  - cbn [List.length Z.of_nat Z.eqb] in P1.
    rewrite await_settled by (rewrite P1; discriminate). rewrite P1.
    exists w1. split; [reflexivity |]. rewrite M1. reflexivity.
  - replace (Z.of_nat (List.length (task' :: rest')) =? 0)%Z with false in P1
      by (symmetry; apply Z.eqb_neq; cbn [List.length]; lia).
    destruct (IH (S index) w1 P1) as (w2 & E2 & M2);
      [discriminate | cbn [List.length] in *; lia |].
    exists w2. split; [exact E2 |].
    rewrite M2, M1, <- app_assoc. reflexivity.
Qed.


Lemma enter_ok (host : Host) (phase : Phase) (w : World) :
  phase_fault host phase = None ->
  enter host phase w = (JS.Normal tt, with_trace (trace w ++ [Enter phase]) w).
Proof. intros H. unfold enter. run_js. rewrite H. reflexivity. Qed.



Lemma createEnvironment_ok (host : Host) (projectData : ProjectData)
      (sceneData : SceneData) (others : list SceneData) (w : World) :
  phase_fault host EnvironmentSetup = None ->
  scenes projectData = sceneData :: others ->
  exists w',
    createEnvironment host projectData w = (JS.Normal tt, w') /\
    milestones (trace w') = milestones (trace w) ++ [Enter EnvironmentSetup].
Proof.
  intros F S. unfold createEnvironment, sceneData_of.
  unfold bind at 1. rewrite (enter_ok _ _ _ F). rewrite S. run_js.
  destruct (environment sceneData) as [envData |]; cbn [backgroundType];
    [destruct (backgroundType envData) as [type |];
     [destruct (String.eqb type "color");
      [| destruct (String.eqb type "texture" || String.eqb type "sky");
         [destruct (skyboxTexture envData) as [texture |];
          [destruct (JS.truthy_string texture) |] |]] |] |];
    run_js; (eexists; split; [reflexivity |]); run_js;
    rewrite !milestones_app; cbn [milestones]; rewrite ?app_nil_r; reflexivity.
Qed.


Lemma setupCamera_ok (host : Host) (projectData : ProjectData)
      (sceneData : SceneData) (others : list SceneData) (w : World) :
  phase_fault host CameraSetup = None ->
  scenes projectData = sceneData :: others ->
  exists w',
    setupCamera host projectData w = (JS.Normal tt, w') /\
    milestones (trace w') = milestones (trace w) ++ [Enter CameraSetup].
Proof.
  intros F S. unfold setupCamera, sceneData_of.
  unfold bind at 1. rewrite (enter_ok _ _ _ F). rewrite S. run_js.
  destruct (match scene_cameras sceneData with
            | Some cameras => nth_error cameras 0
            | None => None
            end) as [cameraData |].
  - unfold CameraJS.setupCamera, CameraJS.setupCameraEnhancements. run_js.
    eexists. split; [reflexivity |]. run_js.
    rewrite !milestones_app. cbn [milestones]. rewrite !app_nil_r. reflexivity.
  - run_js. eexists. split; [reflexivity |]. run_js.
    rewrite !milestones_app. reflexivity.
Qed.

Lemma setupActionManager_ok (host : Host) (w : World) :
  phase_fault host InteractionSetup = None ->
  exists w',
    setupActionManager host w = (JS.Normal tt, w') /\
    milestones (trace w') = milestones (trace w) ++ [Enter InteractionSetup].
Proof.
  intros F. unfold setupActionManager.
  unfold bind at 1. rewrite (enter_ok _ _ _ F). run_js.
  eexists. split; [reflexivity |]. run_js. rewrite !milestones_app. reflexivity.
Qed.


Lemma quiet_setupLights (lightData : LightData) :
  quiet (LightJS.setupLights lightData ;;; ret tt).
Proof.
  intros w. unfold bind. rewrite setupLights_unfold.
  set (w1 := with_trace _ w).
  assert (Q : milestones (trace w1) = milestones (trace w) /\ promise w1 = promise w).
  { subst w1. run_js. rewrite milestones_app. cbn [milestones]. rewrite app_nil_r.
    split; reflexivity. }
  clearbody w1. destruct Q as [Q1 Q2].
  assert (Point : exists light w', LightJS.createPointLight lightData w1 = (JS.Normal light, w')
                                   /\ trace w' = trace w1 /\ promise w' = promise w1)
    by (eexists; eexists; repeat split).
  assert (Spot : exists light w', LightJS.createSpotLight lightData w1 = (JS.Normal light, w')
                                  /\ trace w' = trace w1 /\ promise w' = promise w1)
    by (eexists; eexists; repeat split).
  assert (Dir : exists light w',
             LightJS.createDirectionalLight lightData w1 = (JS.Normal light, w')
             /\ trace w' = trace w1 /\ promise w' = promise w1).
  { unfold LightJS.createDirectionalLight.
    destruct (JS.or_false (ld_castShadows lightData)); eexists; eexists; repeat split. }
  assert (Hemi : exists light w',
             LightJS.createHemisphericLight lightData w1 = (JS.Normal light, w')
             /\ trace w' = trace w1 /\ promise w' = promise w1)
    by (eexists; eexists; repeat split).
  assert (G : exists light w',
             match ld_type lightData with
             | Some type =>
                 if String.eqb type "POINT" then LightJS.createPointLight lightData
                 else if String.eqb type "SPOT" then LightJS.createSpotLight lightData
                 else if String.eqb type "SUN" then LightJS.createDirectionalLight lightData
                 else if String.eqb type "DIRECTIONAL"
                      then LightJS.createDirectionalLight lightData
                      else LightJS.createHemisphericLight lightData
             | None => LightJS.createHemisphericLight lightData
             end w1 = (JS.Normal light, w')
             /\ trace w' = trace w1 /\ promise w' = promise w1).
  { destruct (ld_type lightData) as [type |]; [| exact Hemi].
    destruct (String.eqb type "POINT"); [exact Point |].
    destruct (String.eqb type "SPOT"); [exact Spot |].
    destruct (String.eqb type "SUN"); [exact Dir |].
    destruct (String.eqb type "DIRECTIONAL"); [exact Dir | exact Hemi]. }
  destruct G as (light & w' & E & T & P).
  exists w'. rewrite E. split; [reflexivity |]. split; congruence.
Qed.

Lemma quiet_defaultLights : quiet defaultLights.
Proof. intros w. unfold defaultLights. run_js. eexists. repeat split. Qed.

Lemma setupLights_ok (host : Host) (projectData : ProjectData)
      (sceneData : SceneData) (others : list SceneData) (w : World) :
  phase_fault host LightSetup = None ->
  scenes projectData = sceneData :: others ->
  exists w',
    setupLights host projectData w = (JS.Normal tt, w') /\
    milestones (trace w') = milestones (trace w) ++ [Enter LightSetup].
Proof.
  intros F S. unfold setupLights, sceneData_of.
  unfold bind at 1. rewrite (enter_ok _ _ _ F). rewrite S. run_js.
  set (w1 := with_trace _ w).
  assert (Q : quiet (match scene_lights sceneData with
                     | Some (lightData :: rest) =>
                         forEach (fun lightData => LightJS.setupLights lightData ;;; ret tt)
                                 (lightData :: rest)
                     | _ => defaultLights
                     end)).
  { destruct (scene_lights sceneData) as [[| lightData rest] |];
      try apply quiet_defaultLights.
    apply quiet_forEach. intros ld. apply quiet_setupLights. }
  destruct (Q w1) as (w' & E & M1 & _).
  exists w'. split; [exact E |]. rewrite M1. subst w1. run_js.
  rewrite milestones_app. reflexivity.
Qed.

Lemma assets_of_supported (files : list string) (index : nat) :
  filter supported (assets_of files index) = assets_of files index.
Proof.
  revert index. induction files as [| file rest IH]; intros index; [reflexivity |].
  cbn [assets_of filter]. unfold supported at 1. cbn [asset_type String.eqb Ascii.eqb
    Bool.eqb orb]. rewrite IH. reflexivity.
Qed.

Lemma assets_of_length (files : list string) (index : nat) :
  List.length (assets_of files index) = List.length files.
Proof.
  revert index. induction files as [| file rest IH]; intros index; [reflexivity |].
  cbn [assets_of List.length]. rewrite IH. reflexivity.
Qed.

Lemma quiet_addAssetTask (asset : Asset) : quiet (addAssetTask asset).
Proof.
  intros w. unfold addAssetTask, addModelTask, addTextureTask, addAudioTask, addHDRTask,
    addTask.
  destruct (String.eqb (asset_type asset) "model");
    [| destruct (String.eqb (asset_type asset) "texture");
       [| destruct (String.eqb (asset_type asset) "audio");
          [| destruct (String.eqb (asset_type asset) "hdr")]]];
    run_js; (eexists; split; [reflexivity |]); run_js;
    rewrite milestones_app; cbn [milestones]; rewrite app_nil_r; split; reflexivity.
Qed.

(** [loadAssets] up to the point where it waits: the phase is entered,
    one task per model is queued, and the promise is pending unless there
    was nothing to load. *)
Lemma loadAssets_queue (host : Host) (projectData : ProjectData)
      (sceneData : SceneData) (others : list SceneData) (w : World) :
  phase_fault host AssetLoading = None ->
  scenes projectData = sceneData :: others ->
  exists w1,
    loadAssets host projectData w
    = await host 0 (tasks w1) (Z.of_nat (List.length (tasks w1))) w1 /\
    milestones (trace w1) = milestones (trace w) ++ [Enter AssetLoading] /\
    List.length (tasks w1) = asset_count projectData /\
    promise w1 = match tasks w1 with [] => Fulfilled | _ :: _ => Pending end.
Proof.
  intros F S. unfold loadAssets, sceneData_of.
  unfold bind at 1. rewrite (enter_ok _ _ _ F). rewrite S. run_js.
  unfold AssetManagerJS.loadAssets.
  set (assetsList := match glb_groups sceneData with
                     | Some files => assets_of files 0
                     | None => []
                     end).
  cbv delta [bind]. run_js.
  set (w0 := with_tasks [] _).
  destruct (forEach_addAssetTask assetsList w0) as (w1 & E1 & T1 & _).
  destruct (quiet_forEach addAssetTask assetsList quiet_addAssetTask w0)
    as (w1' & E1' & M1 & P1).
  rewrite E1 in E1'. injection E1' as <-.
  rewrite E1.
  assert (N : List.length (tasks w1) = asset_count projectData).
  { rewrite T1. subst w0 assetsList. unfold asset_count. rewrite S. run_js.
    destruct (glb_groups sceneData) as [files |]; [| reflexivity].
    rewrite assets_of_supported, assets_of_length. reflexivity. }
  assert (M0 : milestones (trace w1) = milestones (trace w) ++ [Enter AssetLoading]).
  { rewrite M1. subst w0. run_js. rewrite milestones_app. reflexivity. }
  assert (P0 : promise w1 = Pending) by (rewrite P1; reflexivity).
  unfold load. cbv delta [bind]. run_js.
  destruct (tasks w1) as [| task rest] eqn:Q.
  - destruct (onFinish_run w1) as (w2 & E2 & M2 & P2).
    rewrite E2.
    assert (T2 : tasks w2 = []).
    { revert E2. unfold onFinish, callbacks. cbn [onLoadedCallback].
      cbv delta [bind]. run_js.
      destruct (promise w1); intros [= <-]; run_js; exact Q. }
    exists w2. rewrite T2. split; [reflexivity |].
    split; [congruence |]. split; [rewrite <- N; reflexivity |].
    rewrite P2, P0. reflexivity.
  - exists w1. rewrite Q. repeat split; assumption.
Qed.


Lemma loadAssets_ok (host : Host) (projectData : ProjectData)
      (sceneData : SceneData) (others : list SceneData) (w : World) :
  phase_fault host AssetLoading = None ->
  scenes projectData = sceneData :: others ->
  (forall i, is_loaded (task_outcome host i) = true) ->
  exists w',
    loadAssets host projectData w = (JS.Normal tt, w') /\
    milestones (trace w') =
      milestones (trace w) ++
      Enter AssetLoading ::
      map (fun k => shown (Z.of_nat k) (Z.of_nat (asset_count projectData)))
          (seq 1 (asset_count projectData)).
Proof.
  intros F S L.
  destruct (loadAssets_queue host projectData sceneData others w F S)
    as (w1 & E & M1 & N & P). rewrite E.
  destruct (tasks w1) as [| task rest] eqn:Q.
  - rewrite await_settled by (rewrite P; discriminate). rewrite P.
    exists w1. split; [reflexivity |]. rewrite M1, <- N. reflexivity.
  - destruct (await_all_loaded host (Z.of_nat (List.length (task :: rest))) L
                               (task :: rest) 0 w1 P)
      as (w2 & E2 & M2); [discriminate | reflexivity |].
    exists w2. split; [exact E2 |].
    rewrite M2, M1, <- N, <- app_assoc. reflexivity.
Qed.


Lemma progress_run (percent : Z) (message : string) (w : World) :
  updateLoadingProgress percent message w
  = (JS.Normal tt, with_trace (trace w ++ [Progress percent message]) w).
Proof. reflexivity. Qed.

Lemma scene_initialize_ok (host : Host) (projectData : ProjectData)
      (sceneData : SceneData) (others : list SceneData) (w : World) :
  (forall phase, phase_fault host phase = None) ->
  scenes projectData = sceneData :: others ->
  (forall i, is_loaded (task_outcome host i) = true) ->
  exists w',
    SceneJS.initialize host projectData w = (JS.Normal tt, w') /\
    milestones (trace w') =
      milestones (trace w) ++ scene_milestones (asset_count projectData).
Proof.
  intros F S L. unfold SceneJS.initialize.
  cbv delta [bind]. run_js.
  set (w0 := with_trace _ w).
  destruct (createEnvironment_ok host projectData sceneData others w0 (F _) S)
    as (w1 & E1 & M1). rewrite E1.
  set (w2 := with_trace _ (with_tasks [] w1)).
  destruct (setupCamera_ok host projectData sceneData others w2 (F _) S)
    as (w3 & E3 & M3). rewrite E3.
  set (w4 := with_trace _ w3).
  destruct (loadAssets_ok host projectData sceneData others w4 (F _) S L)
    as (w5 & E5 & M5). rewrite E5.
  set (w6 := with_trace _ w5).
  destruct (setupLights_ok host projectData sceneData others w6 (F _) S)
    as (w7 & E7 & M7). rewrite E7.
  set (w8 := with_trace _ w7).
  destruct (setupActionManager_ok host w8 (F _)) as (w9 & E9 & M9). rewrite E9.
  exists w9. split; [reflexivity |].
  rewrite M9. subst w8. run_js. rewrite milestones_app, M7.
  subst w6. run_js. rewrite milestones_app, M5.
  subst w4. run_js. rewrite milestones_app, M3.
  subst w2. run_js. rewrite milestones_app, M1.
  subst w0. run_js. rewrite milestones_app.
  unfold scene_milestones. cbn [milestones app]. rewrite app_nil_r.
  rewrite <- !app_assoc. cbn [app]. reflexivity.
Qed.








Lemma app_initialize_ok (host : Host) (projectFile : string) (projectData : ProjectData)
      (sceneData : SceneData) (others : list SceneData) (w : World) :
  fetched (fetch host) projectData ->
  engine_fault host = None ->
  (forall phase, phase_fault host phase = None) ->
  scenes projectData = sceneData :: others ->
  (forall i, is_loaded (task_outcome host i) = true) ->
  exists w',
    AppJS.initialize host projectFile w = (JS.Normal tt, w') /\
    milestones (trace w') =
      milestones (trace w)
      ++ [Progress 10 "Loading project configuration...";
          Progress 20 "Creating engine..."; Progress 30 "Creating scene..."]
      ++ scene_milestones (asset_count projectData)
      ++ [Progress 90 "Starting render loop..."; Progress 100 "Ready!"].
Proof.
  intros [status N] G F S L.
  unfold AppJS.initialize, try_catch. cbv delta [bind]. run_js.
  rewrite N.
  change (UtilityJS.loadJSON projectFile
            (Response true status (Text (Parsed (Some projectData)))) ?w)
    with (JS.Normal (Some projectData), w).
  run_js. rewrite G. run_js.
  set (w1 := with_trace _ (with_trace _ (with_trace _ (with_trace _ w)))).
  destruct (scene_initialize_ok host projectData sceneData others w1 F S L)
    as (w2 & E2 & M2). rewrite E2.
  unfold AppJS.run. cbv delta [bind]. run_js.
  assert (M1 : milestones (trace w1)
               = milestones (trace w)
                 ++ [Progress 10 "Loading project configuration...";
                     Progress 20 "Creating engine..."; Progress 30 "Creating scene..."]).
  { subst w1. run_js. rewrite !milestones_app. cbn [milestones].
    rewrite app_nil_r, <- !app_assoc. reflexivity. }
  destruct (JS.or_false (debug projectData) && inspector host);
    (eexists; split; [reflexivity |]); run_js;
    rewrite !milestones_app, M2, M1; cbn [milestones];
    rewrite ?app_nil_r, <- !app_assoc; reflexivity.
Qed.


Lemma percents_shown (n : nat) (ks : list nat) :
  percents (map (fun k => shown (Z.of_nat k) (Z.of_nat n)) ks)
  = map (fun k => loading_percent (Z.of_nat k) (Z.of_nat n)) ks.
Proof. induction ks as [| k ks IH]; cbn; [| rewrite IH]; reflexivity. Qed.

Lemma percents_of_run (n : nat) :
  percents ([Progress 10 "Loading project configuration...";
             Progress 20 "Creating engine..."; Progress 30 "Creating scene..."]
            ++ scene_milestones n
            ++ [Progress 90 "Starting render loop..."; Progress 100 "Ready!"])
  = run_percents n.
Proof.
  unfold scene_milestones, run_percents, asset_percents.
  rewrite !percents_app, percents_shown. cbn [percents app].
  rewrite <- !app_assoc. reflexivity.
Qed.

Lemma loading_percent_mono (n i j : Z) :
  (0 <= n)%Z -> (i <= j)%Z -> (loading_percent i n <= loading_percent j n)%Z.
Proof.
  intros N H. unfold loading_percent.
  destruct (Z.eq_dec n 0) as [-> | NZ].
  - rewrite !Z.div_0_r. lia.
  - apply Z.add_le_mono_l. apply Z.div_le_mono; lia.
Qed.

Lemma loading_percent_bounds (n k : Z) :
  (0 < k <= n)%Z -> (50 <= loading_percent k n <= 70)%Z.
Proof.
  intros H. unfold loading_percent.
  assert (0 <= 20 * k / n)%Z by (apply Z.div_pos; lia).
  assert (20 * k / n <= 20)%Z.
  { apply Z.div_le_upper_bound; lia. }
  lia.
Qed.

Lemma loading_percent_last (n : Z) : (0 < n)%Z -> loading_percent n n = 70%Z.
Proof.
  intros H. unfold loading_percent. rewrite Z.div_mul by lia. reflexivity.
Qed.

Lemma sorted_map_seq (f : nat -> Z) (start len : nat) :
  (forall i j, (i <= j)%nat -> (f i <= f j)%Z) ->
  StronglySorted Z.le (map f (seq start len)).
Proof.
  intros Mono. revert start. induction len as [| len IH]; intros start; cbn.
  - constructor.
  - constructor; [apply IH |].
    apply Forall_forall. intros x I. apply in_map_iff in I.
    destruct I as (k & <- & I). apply in_seq in I. apply Mono. lia.
Qed.

Lemma sorted_app {A} (R : A -> A -> Prop) (l l' : list A) :
  StronglySorted R l -> StronglySorted R l' ->
  (forall x y, In x l -> In y l' -> R x y) ->
  StronglySorted R (l ++ l').
Proof.
  intros Sl Sl' Cross. induction Sl as [| a l Sl IH Fa]; cbn; [exact Sl' |].
  constructor.
  - apply IH. intros x y Ix Iy. apply Cross; [right |]; assumption.
  - apply Forall_app. split; [exact Fa |].
    apply Forall_forall. intros y Iy. apply Cross; [left; reflexivity | exact Iy].
Qed.

Lemma sorted_app_cross {A} (R : A -> A -> Prop) (l l' : list A) :
  StronglySorted R (l ++ l') -> forall x y, In x l -> In y l' -> R x y.
Proof.
  induction l as [| a l IH]; cbn; intros Sd x y Ix Iy; [contradiction |].
  apply StronglySorted_inv in Sd. destruct Sd as [Sd Fa].
  destruct Ix as [<- | Ix].
  - rewrite Forall_forall in Fa. apply Fa. apply in_or_app. right. exact Iy.
  - apply (IH Sd); assumption.
Qed.

Lemma asset_percents_range (n : nat) (x : Z) :
  In x (asset_percents n) -> (50 <= x <= 70)%Z.
Proof.
  unfold asset_percents. intros I. apply in_map_iff in I.
  destruct I as (k & <- & I). apply in_seq in I.
  apply loading_percent_bounds. lia.
Qed.

Lemma run_percents_sorted (n : nat) : StronglySorted Z.le (run_percents n).
Proof.
  unfold run_percents.
  apply sorted_app; [repeat constructor; lia | |].
  - apply sorted_app; [| repeat constructor; lia |].
    + apply sorted_map_seq. intros i j H. apply loading_percent_mono; lia.
    + intros x y Ix Iy. apply asset_percents_range in Ix.
      cbn in Iy. lia.
  - intros x y Ix Iy. apply in_app_or in Iy. destruct Iy as [Iy | Iy].
    + apply asset_percents_range in Iy. cbn in Ix. lia.
    + cbn in Ix, Iy. lia.
Qed.

Lemma run_percents_last (n : nat) : last (run_percents n) 0%Z = 100%Z.
Proof.
  unfold run_percents.
  change [70; 80; 90; 100]%Z with ([70; 80; 90] ++ [100])%Z.
  rewrite !app_assoc. apply last_last.
Qed.

Lemma run_percents_strict (n : nat) :
  StronglySorted Z.lt (run_percents n) <-> n = 0%nat.
Proof.
  split.
  - intros Sd. destruct n as [| m]; [reflexivity | exfalso].
    unfold run_percents in Sd. rewrite app_assoc in Sd.
    assert (C : (70 < 70)%Z); [| lia].
    apply (sorted_app_cross _ _ _ Sd); [| left; reflexivity].
    apply in_or_app. right. unfold asset_percents. apply in_map_iff.
    exists (S m). split; [apply loading_percent_last; lia | apply in_seq; lia].
  - intros ->. cbn. repeat constructor; lia.
Qed.


(** C4, as stated, fails: with one model to load, 70 is shown twice in a
    row. *)
Lemma C4_one_asset_shows_70_twice :
  exists w',
    AppJS.initialize (calmHost (projectWith ["ship.glb"])) "assets/project.json" World0
    = (JS.Normal tt, w') /\
    percents (trace w') = [10; 20; 30; 40; 50; 70; 70; 80; 90; 100]%Z /\
    ~ StronglySorted Z.lt (percents (trace w')).
Proof.
  destruct (app_initialize_ok (calmHost (projectWith ["ship.glb"]))
                              "assets/project.json" (projectWith ["ship.glb"])
                              (mkSceneData None None None (Some ["ship.glb"])) []
                              World0)
    as (w' & E & M); try reflexivity; [eexists; reflexivity |].
  exists w'. split; [exact E |].
  assert (P : percents (trace w') = [10; 20; 30; 40; 50; 70; 70; 80; 90; 100]%Z).
  { rewrite <- percents_milestones, M, percents_app, percents_of_run. reflexivity. }
  split; [exact P |]. rewrite P. intros Sd.
  do 5 (apply StronglySorted_inv in Sd; destruct Sd as [Sd _]).
  apply StronglySorted_inv in Sd. destruct Sd as [_ F].
  apply Forall_inv in F. lia.
Qed.

(** C4 (amended): a full run (the manifest is fetched, the engine does
    not throw, the project has a scene, every asset loads) shows
    percentages that never decrease and end at 100; they increase
    strictly exactly when the scene has no asset to load. *)
Theorem C4_progress_never_decreases_and_ends_at_100
        (host : Host) (projectFile : string) (projectData : ProjectData)
        (sceneData : SceneData) (others : list SceneData) (w : World) :
  fetched (fetch host) projectData ->
  engine_fault host = None ->
  (forall phase, phase_fault host phase = None) ->
  scenes projectData = sceneData :: others ->
  (forall i, is_loaded (task_outcome host i) = true) ->
  exists w' emitted,
    AppJS.initialize host projectFile w = (JS.Normal tt, w') /\
    percents (trace w') = percents (trace w) ++ emitted /\
    StronglySorted Z.le emitted /\
    last emitted 0%Z = 100%Z /\
    (StronglySorted Z.lt emitted <-> asset_count projectData = 0%nat).
Proof.
  intros N G F S L.
  destruct (app_initialize_ok host projectFile projectData sceneData others w N G F S L)
    as (w' & E & M).
  exists w', (run_percents (asset_count projectData)).
  split; [exact E |]. split.
  - rewrite <- percents_milestones, M, percents_app, percents_milestones,
      percents_of_run. reflexivity.
  - split; [apply run_percents_sorted |].
    split; [apply run_percents_last | apply run_percents_strict].
Qed.

Lemma C4_witness :
  exists w' emitted,
    AppJS.initialize (calmHost (projectWith ["ship.glb"; "dock.glb"; "sea.glb"]))
                     "assets/project.json" World0
    = (JS.Normal tt, w') /\
    percents (trace w') = percents (trace World0) ++ emitted /\
    StronglySorted Z.le emitted /\
    last emitted 0%Z = 100%Z /\
    (StronglySorted Z.lt emitted <->
     asset_count (projectWith ["ship.glb"; "dock.glb"; "sea.glb"]) = 0%nat).
Proof.
  apply (C4_progress_never_decreases_and_ends_at_100
           (calmHost (projectWith ["ship.glb"; "dock.glb"; "sea.glb"]))
           "assets/project.json"
           (projectWith ["ship.glb"; "dock.glb"; "sea.glb"])
           (mkSceneData None None None (Some ["ship.glb"; "dock.glb"; "sea.glb"])) []
           World0).
  - exists 200%Z. reflexivity.
  - reflexivity.
  - intros phase. reflexivity.
  - reflexivity.
  - intros i. reflexivity.
Defined.


End Orchestration.

(* ================================================================== *)
(** * Worked runs *)
(* ================================================================== *)

Section WorkedRuns.
Import Observations Samples.
Local Open Scope list_scope.

(** A model's URL is split at its last slash. *)
Example addModelTask_splits_the_url :
  tasks (snd (AssetManagerJS.addModelTask modelAsset World0))
  = [MeshTask "ship" "" "assets/" "ship.glb"].
Proof. reflexivity. Qed.

(** With nothing to load, the percentages increase strictly. *)
Example run_without_assets :
  percents (trace (snd (AppJS.initialize (calmHost (projectWith []))
                                         "assets/project.json" World0)))
  = [10; 20; 30; 40; 50; 70; 80; 90; 100]%Z.
Proof. vm_compute. reflexivity. Qed.

(** Three models, the second failing: the run stops in the asset phase
    and ends on the error screen; the failed task has no message. *)
Example run_with_a_failing_task :
  milestones (trace (snd (AppJS.initialize
                            (secondTaskFails (projectWith ["a.glb"; "b.glb"; "c.glb"]))
                            "assets/project.json" World0)))
  = [Progress 10 "Loading project configuration...";
     Progress 20 "Creating engine..."; Progress 30 "Creating scene...";
     Enter EnvironmentSetup; Progress 40 "Setting up camera...";
     Enter CameraSetup; Progress 50 "Loading assets...";
     Enter AssetLoading; Progress 56 "Loading assets...";
     Progress 63 "Loading assets..."; Progress 0 "Error: undefined"].
Proof. vm_compute. reflexivity. Qed.

(** A manifest answered with 404. *)
Example run_with_a_missing_manifest :
  trace (snd (AppJS.initialize host404 "assets/project.json" World0))
  = [Progress 10 "Loading project configuration...";
     ConsoleError
       "[ERROR] Failed to load JSON from assets/project.json: HTTP error! Status: 404";
     ConsoleError "Initialization error: Failed to load project configuration";
     Progress 0 "Error: Failed to load project configuration"].
Proof. vm_compute. reflexivity. Qed.

End WorkedRuns.

(* ================================================================== *)
(** * Further properties: utility.js and assetManager.js *)
(* ================================================================== *)

Section Utilities.
Import UtilityJS ExtraSpec Observations Samples.

Lemma toInt32_draw (q : Q) :
  (0 <= q)%Q -> (q < 1)%Q -> (0 <= toInt32 (q * 16) < 16)%Z.
Proof.
  intros L U. unfold toInt32.
  assert (P : (0 <= q * 16)%Q).
  { apply Qmult_le_0_compat; [exact L | discriminate]. }
  assert (B : (q * 16 < 16)%Q).
  { destruct q as [n d]. unfold Qlt, Qmult in *. cbn in *. lia. }
  destruct (Qlt_le_dec (q * 16) 0) as [N | _].
  - exfalso. apply (Qlt_not_le _ _ N P).
  - assert (F0 : (0 <= Qfloor (q * 16))%Z).
    { change 0%Z with (Qfloor 0). apply Qfloor_resp_le. exact P. }
    assert (F1 : (Qfloor (q * 16) < 16)%Z).
    { rewrite Zlt_Qlt. eapply Qle_lt_trans; [apply Qfloor_le | exact B]. }
    rewrite Z.mod_small by lia. lia.
Qed.

Lemma toString16_hex (v : Z) :
  (0 <= v < 16)%Z ->
  exists c, toString16 v = String c "" /\ is_hex c = true.
Proof.
  intros H.
  assert (C : (v = 0 \/ v = 1 \/ v = 2 \/ v = 3 \/ v = 4 \/ v = 5 \/ v = 6 \/ v = 7 \/
              v = 8 \/ v = 9 \/ v = 10 \/ v = 11 \/ v = 12 \/ v = 13 \/ v = 14 \/
              v = 15)%Z) by lia.
  repeat (destruct C as [-> | C]; [eexists; split; reflexivity |]).
  subst v. eexists; split; reflexivity.
Qed.

Lemma toString16_variant (r : Z) :
  (0 <= r < 16)%Z ->
  exists c, toString16 (Z.lor (Z.land r 3) 8) = String c "" /\ is_variant c = true.
Proof.
  intros H.
  assert (C : (r = 0 \/ r = 1 \/ r = 2 \/ r = 3 \/ r = 4 \/ r = 5 \/ r = 6 \/ r = 7 \/
              r = 8 \/ r = 9 \/ r = 10 \/ r = 11 \/ r = 12 \/ r = 13 \/ r = 14 \/
              r = 15)%Z) by lia.
  repeat (destruct C as [-> | C]; [eexists; split; reflexivity |]).
  subst r. eexists; split; reflexivity.
Qed.

Lemma uniqueDigit_x (random : nat -> Q) (call : nat) :
  (0 <= random call)%Q -> (random call < 1)%Q ->
  exists c, uniqueDigit random call "x" = String c "" /\ is_hex c = true.
Proof.
  intros L U. unfold uniqueDigit. cbn [Ascii.eqb Bool.eqb].
  apply toString16_hex. apply toInt32_draw; assumption.
Qed.

Lemma uniqueDigit_y (random : nat -> Q) (call : nat) :
  (0 <= random call)%Q -> (random call < 1)%Q ->
  exists c, uniqueDigit random call "y" = String c "" /\ is_variant c = true.
Proof.
  intros L U. unfold uniqueDigit. cbn [Ascii.eqb Bool.eqb].
  apply toString16_variant. apply toInt32_draw; assumption.
Qed.

(** X1: whatever [Math.random()] returns (numbers from 0 inclusive to 1
    exclusive), [generateUniqueId] returns a version-4 UUID in canonical
    form: 36 characters, hyphens after 8, 12, 16 and 20 digits, the
    version digit 4, a variant digit among 8, 9, a, b, lower-case
    hexadecimal digits elsewhere. *)
Theorem generateUniqueId_is_uuid_v4 (random : nat -> Q) :
  (forall call, (0 <= random call)%Q /\ (random call < 1)%Q) ->
  is_uuid_v4 (generateUniqueId random) = true /\
  String.length (generateUniqueId random) = 36%nat.
Proof.
  intros D. unfold generateUniqueId, is_uuid_v4.
  cbn [replace_xy Ascii.eqb Bool.eqb orb].
  repeat match goal with
         | |- context [uniqueDigit random ?i "x"] =>
             let c := fresh "c" in
             let E := fresh "E" in
             let H := fresh "H" in
             destruct (uniqueDigit_x random i (proj1 (D i)) (proj2 (D i)))
               as (c & E & H);
             rewrite E; clear E
         | |- context [uniqueDigit random ?i "y"] =>
             let c := fresh "c" in
             let E := fresh "E" in
             let H := fresh "H" in
             destruct (uniqueDigit_y random i (proj1 (D i)) (proj2 (D i)))
               as (c & E & H);
             rewrite E; clear E
         end.
  cbn [append has_shape Ascii.eqb Bool.eqb String.length].
  repeat match goal with
         | H : is_hex _ = true |- _ => rewrite H; clear H
         | H : is_variant _ = true |- _ => rewrite H; clear H
         end.
  split; reflexivity.
Qed.

Lemma generateUniqueId_is_uuid_v4_witness :
  is_uuid_v4 (generateUniqueId (fun _ => (1 # 2)%Q)) = true /\
  String.length (generateUniqueId (fun _ => (1 # 2)%Q)) = 36%nat.
Proof.
  apply (generateUniqueId_is_uuid_v4 (fun _ => (1 # 2)%Q)).
  intros call. split; [discriminate | reflexivity].
Defined.

(** X6: [loadTextFile] never throws.  It returns the text exactly when
    the response is ok and its body can be read, leaving the console
    alone - an empty file gives the empty string, not null; in every
    other case it returns null after writing one error line that names
    the URL, with the HTTP status when the response was not ok. *)
Theorem loadTextFile_returns_text_or_null
        (url : string) (net : TextFetch) (w : World) :
  exists w',
    loadTextFile url net w = (JS.Normal (text_of net), w') /\
    match text_of net with
    | Some _ => w' = w
    | None =>
        exists reason,
          w' = with_trace
                 (trace w ++ [ConsoleError ("[ERROR] Failed to load text from " ++ url
                                            ++ ": " ++ reason)]) w /\
          forall status body,
            net = TextResponse false status body ->
            reason = "HTTP error! Status: " ++ JS.show_number status
    end.
Proof.
  destruct net as [message | [|] status [message | text]];
    (eexists; split; [reflexivity |]); cbn [text_of];
    try reflexivity; (eexists; split; [reflexivity |]);
    intros status' body' [=]; subst; reflexivity.
Qed.

End Utilities.

Section UrlSplit.
Import AssetManagerJS ExtraSpec Observations Samples.
Local Open Scope list_scope.

Lemma lastIndexOf_from_split (c : ascii) (s : string) :
  forall (i found : Z),
    (occurs c s = false /\ JS.lastIndexOf_from c s i found = found) \/
    (exists pre post,
        s = (pre ++ String c post)%string /\ occurs c post = false /\
        JS.lastIndexOf_from c s i found = (i + Z.of_nat (String.length pre))%Z).
Proof.
  induction s as [| d rest IH]; intros i found; cbn [JS.lastIndexOf_from occurs].
  - left. split; reflexivity.
  - destruct (Ascii.eqb d c) eqn:X.
    + apply Ascii.eqb_eq in X. subst d.
      destruct (IH (i + 1)%Z i) as [[O E] | (pre & post & S & O & E)].
      * right. exists ""%string, rest. rewrite E. cbn.
        repeat split; [exact O | lia].
      * right. exists (String c pre), post. rewrite E, S. cbn [String.length append].
        repeat split; [exact O | lia].
    + destruct (IH (i + 1)%Z found) as [[O E] | (pre & post & S & O & E)].
      * left. cbn. split; [exact O | exact E].
      * right. exists (String d pre), post. rewrite E, S. cbn [String.length append].
        repeat split; [exact O | lia].
Qed.

Lemma substring_prefix (a b : string) :
  String.substring 0 (String.length a) (a ++ b) = a.
Proof.
  induction a as [| c a IH]; cbn.
  - destruct b; reflexivity.
  - rewrite IH. reflexivity.
Qed.

Lemma substring_suffix (a b : string) :
  String.substring (String.length a) (String.length (a ++ b) - String.length a) (a ++ b)
  = b.
Proof.
  induction a as [| c a IH]; cbn.
  - rewrite Nat.sub_0_r. induction b as [| d b IHb]; cbn; [reflexivity |].
    rewrite IHb. reflexivity.
  - exact IH.
Qed.

Lemma substring_all (s : string) : String.substring 0 (String.length s - 0) s = s.
Proof.
  rewrite Nat.sub_0_r. induction s as [| c s IH]; cbn; [reflexivity |].
  rewrite IH. reflexivity.
Qed.

Lemma length_append (a b : string) :
  String.length (a ++ b) = (String.length a + String.length b)%nat.
Proof. induction a as [| c a IH]; cbn; [| rewrite IH]; reflexivity. Qed.

(** The split of a URL at its last slash. *)
Lemma url_split (url : string) :
  let i := JS.lastIndexOf url "/" in
  let root := JS.substring url 0 (i + 1) in
  let file := JS.substring_from url (i + 1) in
  (root ++ file)%string = url /\
  occurs "/" file = false /\
  (root = ""%string \/ exists pre, root = (pre ++ "/")%string).
Proof.
  unfold JS.lastIndexOf, JS.substring, JS.substring_from.
  destruct (lastIndexOf_from_split "/" url 0 (-1))
    as [[O E] | (pre & post & S & O & E)]; rewrite E; cbn zeta.
  - change (Z.to_nat (-1 + 1)) with 0%nat. change (Z.to_nat (-1 + 1 - 0)) with 0%nat.
    rewrite substring_all.
    assert (Z0 : String.substring 0 0 url = ""%string) by (destruct url; reflexivity).
    change (Z.to_nat 0) with 0%nat. rewrite Z0. cbn. repeat split; [exact O | left; reflexivity].
  - replace (Z.to_nat (0 + Z.of_nat (String.length pre) + 1 - 0))
      with (String.length (pre ++ "/")) by (rewrite length_append; cbn; lia).
    replace (Z.to_nat (0 + Z.of_nat (String.length pre) + 1))
      with (String.length (pre ++ "/")) by (rewrite length_append; cbn; lia).
    assert (S' : url = ((pre ++ "/") ++ post)%string).
    { rewrite S. clear. induction pre as [| c pre IH]; cbn; [| rewrite IH]; reflexivity. }
    rewrite S'. rewrite substring_prefix, substring_suffix.
    repeat split; [exact O | right; exists pre; reflexivity].
Qed.

(** X2: [addModelTask] queues one mesh task whose root URL and file name
    are the asset's URL cut after its last slash: put together they give
    the URL back, the file name has no slash, and the root is empty (a
    URL without slash) or ends with a slash. *)
Theorem addModelTask_splits_url_at_last_slash (asset : Asset) (w : World) :
  exists rootUrl sceneFilename w',
    addModelTask asset w = (JS.Normal tt, w') /\
    tasks w' = tasks w ++ [MeshTask (asset_name asset) "" rootUrl sceneFilename] /\
    (rootUrl ++ sceneFilename)%string = asset_url asset /\
    occurs "/" sceneFilename = false /\
    (rootUrl = ""%string \/ exists pre, rootUrl = (pre ++ "/")%string).
Proof.
  destruct (url_split (asset_url asset)) as (C & O & R).
  eexists. eexists. eexists. split; [reflexivity |].
  split; [reflexivity |]. split; [exact C |]. split; [exact O | exact R].
Qed.

End UrlSplit.

(* ================================================================== *)
(** * Further properties: the asset queue *)
(* ================================================================== *)

Section AssetQueue.
Import AssetManagerJS ExtraSpec Observations Samples.
Local Open Scope list_scope.

Lemma addAssetTask_queues (asset : Asset) (w : World) :
  exists w' queued,
    addAssetTask asset w = (JS.Normal tt, w') /\
    tasks w' = tasks w ++ queued /\
    Forall2 queued_for (filter supported [asset]) queued /\
    errors (trace w') =
      errors (trace w) ++ map unsupported_message (filter unsupported [asset]).
Proof.
  unfold addAssetTask, unsupported, supported. cbn [filter].
  destruct (String.eqb_spec (asset_type asset) "model") as [T1 | T1].
  { destruct (url_split (asset_url asset)) as (C & _).
    eexists. eexists. split; [reflexivity |]. cbn. split; [reflexivity |]. split.
    - constructor; [| constructor]. cbn. repeat split; assumption.
    - rewrite errors_app. cbn. rewrite !app_nil_r. reflexivity. }
  destruct (String.eqb_spec (asset_type asset) "texture") as [T2 | T2].
  { eexists. eexists. split; [reflexivity |]. cbn. split; [reflexivity |]. split.
    - constructor; [| constructor]. cbn. repeat split; assumption.
    - rewrite errors_app. cbn. rewrite !app_nil_r. reflexivity. }
  destruct (String.eqb_spec (asset_type asset) "audio") as [T3 | T3].
  { eexists. eexists. split; [reflexivity |]. cbn. split; [reflexivity |]. split.
    - constructor; [| constructor]. cbn. repeat split; assumption.
    - rewrite errors_app. cbn. rewrite !app_nil_r. reflexivity. }
  destruct (String.eqb_spec (asset_type asset) "hdr") as [T4 | T4].
  { eexists. eexists. split; [reflexivity |]. cbn. split; [reflexivity |]. split.
    - constructor; [| constructor]. cbn. repeat split; assumption.
    - rewrite errors_app. cbn. rewrite !app_nil_r. reflexivity. }
  exists (with_trace (trace w ++ [ConsoleError ("[ERROR] Unsupported asset type: "
                                              ++ asset_type asset)]) w), [].
  split; [reflexivity |]. cbn. rewrite app_nil_r. split; [reflexivity |].
  split; [constructor |]. rewrite errors_app. reflexivity.
Qed.

Lemma forEach_addAssetTask_queues (assetList : list Asset) (w : World) :
  exists w' queued,
    forEach addAssetTask assetList w = (JS.Normal tt, w') /\
    tasks w' = tasks w ++ queued /\
    Forall2 queued_for (filter supported assetList) queued /\
    errors (trace w') =
      errors (trace w) ++ map unsupported_message (filter unsupported assetList).
Proof.
  revert w. induction assetList as [| asset rest IH]; intros w.
  - exists w, []. cbn. rewrite !app_nil_r. repeat split. constructor.
  - destruct (addAssetTask_queues asset w) as (w1 & q1 & E1 & T1 & F1 & R1).
    destruct (IH w1) as (w2 & q2 & E2 & T2 & F2 & R2).
    exists w2, (q1 ++ q2). cbn [forEach]. unfold bind at 1. rewrite E1.
    split; [exact E2 |]. split; [rewrite T2, T1, app_assoc; reflexivity |].
    split.
    + change (asset :: rest) with ([asset] ++ rest). rewrite filter_app.
      apply Forall2_app; assumption.
    + rewrite R2, R1. change (asset :: rest) with ([asset] ++ rest).
      rewrite filter_app, map_app, app_assoc. reflexivity.
Qed.

(** X3: when the list holds at least one asset with a loader,
    [loadAssets] returns normally and the engine's queue then holds, in
    the order of the list, exactly one task per asset with a loader, of
    the kind, name and URL of that asset, whatever the queue held before;
    the console gets one error line per asset without loader, in order. *)
Theorem loadAssets_queues_supported_assets_in_order
        (assetList : list Asset) (cb : Callbacks) (w : World) :
  filter supported assetList <> [] ->
  exists w',
    loadAssets assetList cb w = (JS.Normal tt, w') /\
    Forall2 queued_for (filter supported assetList) (tasks w') /\
    errors (trace w') =
      errors (trace w) ++ map unsupported_message (filter unsupported assetList).
Proof.
  intros NE. unfold loadAssets.
  destruct (forEach_addAssetTask_queues assetList (with_tasks [] w))
    as (w1 & queued & E & T & F & R).
  cbn [tasks with_tasks app] in T. cbn [trace with_tasks] in R.
  exists w1. unfold bind at 1. cbn [modify]. unfold bind at 1. rewrite E.
  rewrite T. split; [| split; assumption].
  unfold load, bind, get. rewrite T.
  destruct queued as [| task rest]; [| reflexivity].
  inversion F as [Nil |]. congruence.
Qed.

Lemma loadAssets_queues_supported_assets_in_order_witness :
  exists w',
    loadAssets [bogusAsset; modelAsset; textureAsset] noCallbacks World0
    = (JS.Normal tt, w') /\
    Forall2 queued_for (filter supported [bogusAsset; modelAsset; textureAsset])
            (tasks w') /\
    errors (trace w') =
      errors (trace World0)
      ++ map unsupported_message
             (filter unsupported [bogusAsset; modelAsset; textureAsset]).
Proof.
  apply (loadAssets_queues_supported_assets_in_order
           [bogusAsset; modelAsset; textureAsset] noCallbacks World0).
  discriminate.
Defined.

Lemma filter_unsupported_all (assetList : list Asset) :
  filter supported assetList = [] -> filter unsupported assetList = assetList.
Proof.
  induction assetList as [| a l IH]; [reflexivity |].
  cbn [filter]. unfold unsupported at 1. destruct (supported a); [discriminate |].
  intros NS. cbn [negb]. rewrite (IH NS). reflexivity.
Qed.

(** X4: when no asset of the list has a loader (the empty list
    included), [loadAssets] leaves the queue empty, logs one error per
    asset, and the finish handler runs before [loadAssets] returns: the
    call is the finish handler's run on that state. *)
Theorem loadAssets_without_supported_asset_finishes_at_once
        (assetList : list Asset) (cb : Callbacks) (w : World) :
  filter supported assetList = [] ->
  exists w1,
    loadAssets assetList cb w = onFinish cb w1 /\
    tasks w1 = [] /\
    errors (trace w1) = errors (trace w) ++ map unsupported_message assetList.
Proof.
  intros NS. unfold loadAssets.
  destruct (forEach_addAssetTask_queues assetList (with_tasks [] w))
    as (w1 & queued & E & T & F & R).
  cbn [tasks with_tasks app] in T. cbn [trace with_tasks] in R.
  rewrite NS in F. destruct queued as [| task rest]; [| inversion F].
  exists w1. unfold bind at 1. cbn [modify]. unfold bind at 1. rewrite E.
  split; [| split; [exact T |]].
  - unfold load, bind, get. rewrite T. reflexivity.
  - rewrite R, (filter_unsupported_all assetList NS). reflexivity.
Qed.

Lemma loadAssets_without_supported_asset_finishes_at_once_witness :
  exists w1,
    loadAssets [bogusAsset] noCallbacks World0 = onFinish noCallbacks w1 /\
    tasks w1 = [] /\
    errors (trace w1) = errors (trace World0) ++ map unsupported_message [bogusAsset].
Proof.
  apply (loadAssets_without_supported_asset_finishes_at_once
           [bogusAsset] noCallbacks World0).
  reflexivity.
Defined.

Lemma logs_app (t u : list Event) : logs (t ++ u) = logs t ++ logs u.
Proof.
  induction t as [| e t IH]; [reflexivity |].
  destruct e; cbn; rewrite ?IH; reflexivity.
Qed.




(** X8: each time a task finishes (the engine reports [remainingCount]
    of [totalCount] tasks still waiting), the scene's progress callback
    shows exactly one update, "Loading assets...", whose percentage is 50
    plus the integer part of twenty times the finished share: it lies
    between 50 and 70 and is 70 exactly when no task remains. *)
Theorem asset_progress_between_50_and_70 (remainingCount totalCount : Z) (w : World) :
  (0 < totalCount)%Z -> (0 <= remainingCount <= totalCount)%Z ->
  exists percent,
    onProgress SceneJS.callbacks remainingCount totalCount w
    = (JS.Normal tt, with_trace (trace w ++ [Progress percent "Loading assets..."]) w) /\
    percent = (50 + (20 * (totalCount - remainingCount)) / totalCount)%Z /\
    (50 <= percent <= 70)%Z /\
    (percent = 70%Z <-> remainingCount = 0%Z).
Proof.
  intros T B.
  exists (50 + (20 * (totalCount - remainingCount)) / totalCount)%Z.
  split.
  - unfold onProgress, SceneJS.callbacks. cbn [onProgressCallback].
    unfold SceneJS.loadingProgress. rewrite (Qfloor_progress _ _ T). reflexivity.
  - split; [reflexivity |].
    assert (L : (0 <= (20 * (totalCount - remainingCount)) / totalCount)%Z)
      by (apply Z.div_pos; lia).
    assert (U : ((20 * (totalCount - remainingCount)) / totalCount <= 20)%Z).
    { apply Z.div_le_upper_bound; lia. }
    split; [lia |]. split.
    + intros H. assert (D : ((20 * (totalCount - remainingCount)) / totalCount = 20)%Z)
        by lia.
      destruct (Z.eq_dec remainingCount 0) as [Z0 | NZ]; [exact Z0 | exfalso].
      assert (((20 * (totalCount - remainingCount)) / totalCount < 20)%Z).
      { apply Z.div_lt_upper_bound; lia. }
      lia.
    + intros ->. rewrite Z.sub_0_r, Z.div_mul by lia. reflexivity.
Qed.

Lemma asset_progress_between_50_and_70_witness :
  exists percent,
    onProgress SceneJS.callbacks 1 3 World0
    = (JS.Normal tt,
       with_trace (trace World0 ++ [Progress percent "Loading assets..."]) World0) /\
    percent = (50 + (20 * (3 - 1)) / 3)%Z /\
    (50 <= percent <= 70)%Z /\
    (percent = 70%Z <-> 1%Z = 0%Z).
Proof.
  apply (asset_progress_between_50_and_70 1 3 World0); lia.
Defined.

End AssetQueue.

(* ================================================================== *)
(** * Further properties: the state of the scene *)
(* ================================================================== *)

Ltac js_run :=
  cbv delta [SceneJS.resolve SceneJS.reject set_meshes add_light
             updateLoadingProgress log emit modify get ret throw suspend];
  cbn [bind with_trace with_background with_skybox with_meshes with_lights
       with_activeCamera with_actionManagers with_tasks with_promise
       trace clearColor ambientColor skybox meshes lights activeCamera
       actionManagers tasks promise fst snd].

Section SceneState.
Import AssetManagerJS SceneJS ExtraSpec Observations Samples.
Local Open Scope list_scope.
Local Open Scope R_scope.

Lemma createEnvironment_state (host : Host) (projectData : ProjectData)
      (sceneData : SceneData) (others : list SceneData) (w : World) :
  phase_fault host EnvironmentSetup = None ->
  scenes projectData = sceneData :: others ->
  exists w',
    createEnvironment host projectData w = (JS.Normal tt, w') /\
    meshes w' =
      meshes w ++ (if wants_skybox sceneData then [mkMesh "skyBox" false false] else []) /\
    lights w' = lights w /\ activeCamera w' = activeCamera w /\
    (backgroundType (envData_of sceneData) = Some "color" ->
     (forall r g b,
         backgroundColor (envData_of sceneData) = Some [r; g; b] ->
         clearColor w' = Some (mkColor4 r g b 1) /\
         ambientColor w' = Some (mkColor3 r g b)) /\
     (backgroundColor (envData_of sceneData) = None ->
      clearColor w' = Some (mkColor4 0.1 0.1 0.1 1) /\
      ambientColor w' = Some (mkColor3 0.1 0.1 0.1))) /\
    (backgroundType (envData_of sceneData) <> Some "color" ->
     clearColor w' = Some (mkColor4 0.1 0.1 0.1 1) /\
     ambientColor w' = Some (mkColor3 0.3 0.3 0.3)).
Proof.
  intros F S. unfold createEnvironment, sceneData_of.
  unfold bind at 1. rewrite (enter_ok _ _ _ F). rewrite S.
  unfold wants_skybox, envData_of.
  destruct sceneData as [[[bt bc st] |] cams lts glb];
    js_run; cbv beta zeta;
    cbn [environment backgroundType backgroundColor skyboxTexture].
  2: { js_run. eexists. split; [reflexivity |]. js_run. rewrite app_nil_r.
       repeat split; try reflexivity; try discriminate. }
  destruct bt as [type |].
  2: { js_run. eexists. split; [reflexivity |]. js_run. rewrite app_nil_r.
       repeat split; try reflexivity; try discriminate. }
  destruct (String.eqb_spec type "color") as [-> | NC].
  { cbn [String.eqb Ascii.eqb Bool.eqb orb andb]. js_run.
    eexists. split; [reflexivity |]. js_run.
    destruct st; rewrite app_nil_r;
      (split; [reflexivity |]; split; [reflexivity |]; split; [reflexivity |];
       split; [| intros H; exfalso; apply H; reflexivity]);
      (intros _; split; [intros r g b -> | intros ->]; split; reflexivity). }
  assert (NC' : Some type <> Some "color") by congruence.
  destruct (String.eqb type "texture" || String.eqb type "sky").
  - destruct st as [texture |].
    + unfold JS.truthy_string. destruct (String.eqb texture "");
        cbn [negb andb]; js_run; (eexists; split; [reflexivity |]); js_run;
        rewrite ?app_nil_r; repeat split; try reflexivity; intros; congruence.
    + js_run. eexists. split; [reflexivity |]. js_run. rewrite app_nil_r.
      repeat split; try reflexivity; intros; congruence.
  - js_run. eexists. split; [reflexivity |]. js_run.
    destruct st; rewrite app_nil_r; repeat split; try reflexivity; intros; congruence.
Qed.


Lemma setupCamera_state (host : Host) (projectData : ProjectData)
      (sceneData : SceneData) (others : list SceneData) (w : World) :
  phase_fault host CameraSetup = None ->
  scenes projectData = sceneData :: others ->
  exists w' camera,
    setupCamera host projectData w = (JS.Normal tt, w') /\
    meshes w' = meshes w /\ lights w' = lights w /\
    activeCamera w' = Some camera /\
    match scene_cameras sceneData with
    | Some (cameraData :: _) =>
        exists c, camera = Universal c /\
                  forall w0, fst (CameraJS.setupCamera cameraData w0) = JS.Normal c
    | _ => camera = ArcRotate "defaultCamera" (PI / 3) (PI / 3) 10 (mkVector3 0 0 0) 50
    end.
Proof.
  intros F S. unfold setupCamera, sceneData_of.
  unfold bind at 1. rewrite (enter_ok _ _ _ F). rewrite S. js_run. cbv beta zeta.
  destruct (scene_cameras sceneData) as [[| cameraData rest] |]; cbn [nth_error].
  - js_run. eexists. eexists. split; [reflexivity |]. js_run. repeat split.
  - unfold CameraJS.setupCamera, CameraJS.setupCameraEnhancements. js_run.
    eexists. eexists. split; [reflexivity |]. js_run.
    split; [reflexivity |]. split; [reflexivity |]. split; [reflexivity |].
    eexists. split; [reflexivity |]. intros w0. reflexivity.
  - js_run. eexists. eexists. split; [reflexivity |]. js_run. repeat split.
Qed.


(** The lights: one record. *)
Lemma light_setupLights_state (lightData : LightData) (w : World) :
  exists light w',
    LightJS.setupLights lightData w = (JS.Normal light, w') /\
    lights w' = lights w ++ [light] /\
    activeCamera w' = activeCamera w /\
    kind light = kind_of lightData /\
    meshes w' = (if casts_shadows lightData then map LightJS.shadow_mesh (meshes w)
                 else meshes w) /\
    (casts_shadows lightData = true ->
     option_map renderList (shadowGenerator light)
     = Some (LightJS.shadow_casters (meshes w))) /\
    (casts_shadows lightData = false -> shadowGenerator light = None).
Proof.
  rewrite setupLights_unfold. unfold kind_of, casts_shadows.
  set (w1 := with_trace _ w).
  assert (Hemi : exists light w',
             LightJS.createHemisphericLight lightData w1 = (JS.Normal light, w') /\
             lights w' = lights w ++ [light] /\
             activeCamera w' = activeCamera w /\
             kind light = HemisphericLight /\
             meshes w' = meshes w /\ shadowGenerator light = None).
  { unfold LightJS.createHemisphericLight. js_run.
    eexists. eexists. split; [reflexivity |]. js_run. repeat split. }
  assert (Dir : exists light w',
             LightJS.createDirectionalLight lightData w1 = (JS.Normal light, w') /\
             lights w' = lights w ++ [light] /\
             activeCamera w' = activeCamera w /\
             kind light = DirectionalLight /\
             meshes w' = (if JS.or_false (ld_castShadows lightData)
                          then map LightJS.shadow_mesh (meshes w) else meshes w) /\
             (JS.or_false (ld_castShadows lightData) = true ->
              option_map renderList (shadowGenerator light)
              = Some (LightJS.shadow_casters (meshes w))) /\
             (JS.or_false (ld_castShadows lightData) = false ->
              shadowGenerator light = None)).
  { unfold LightJS.createDirectionalLight. js_run.
    destruct (JS.or_false (ld_castShadows lightData)); js_run;
      (eexists; eexists; split; [reflexivity |]); js_run;
      repeat split; try reflexivity; discriminate. }
  destruct (ld_type lightData) as [type |].
  - destruct (String.eqb_spec type "POINT") as [-> | NP].
    { unfold LightJS.createPointLight. js_run.
      eexists. eexists. split; [reflexivity |]. js_run.
      repeat split; try reflexivity; discriminate. }
    destruct (String.eqb_spec type "SPOT") as [-> | NS].
    { unfold LightJS.createSpotLight. js_run.
      eexists. eexists. split; [reflexivity |]. js_run.
      repeat split; try reflexivity; discriminate. }
    destruct (String.eqb_spec type "SUN") as [-> | NU].
    { destruct Dir as (light & w' & E & L & C & K & M & G1 & G2).
      exists light, w'. cbn [orb andb]. repeat split; assumption. }
    destruct (String.eqb_spec type "DIRECTIONAL") as [-> | ND].
    { destruct Dir as (light & w' & E & L & C & K & M & G1 & G2).
      exists light, w'. cbn [orb andb]. repeat split; assumption. }
    destruct Hemi as (light & w' & E & L & C & K & M & G).
    exists light, w'. cbn [orb andb].
    repeat split; try assumption; [discriminate | intros _; exact G].
  - destruct Hemi as (light & w' & E & L & C & K & M & G).
    exists light, w'.
    repeat split; try assumption; [discriminate | intros _; exact G].
Qed.


Lemma shadow_mesh_idempotent (ms : list Mesh) :
  map LightJS.shadow_mesh (map LightJS.shadow_mesh ms) = map LightJS.shadow_mesh ms.
Proof.
  rewrite map_map. apply map_ext. intros mesh. unfold LightJS.shadow_mesh.
  destruct (JS.includes (mesh_name mesh) "skyBox") eqn:I; [rewrite I; reflexivity |].
  cbn [mesh_name]. rewrite I. reflexivity.
Qed.

Lemma shadow_mesh_name (mesh : Mesh) :
  mesh_name (LightJS.shadow_mesh mesh) = mesh_name mesh.
Proof.
  unfold LightJS.shadow_mesh.
  destruct (JS.includes (mesh_name mesh) "skyBox"); reflexivity.
Qed.

Lemma shadow_casters_shadow_mesh (ms : list Mesh) :
  LightJS.shadow_casters (map LightJS.shadow_mesh ms) = LightJS.shadow_casters ms.
Proof.
  unfold LightJS.shadow_casters.
  induction ms as [| mesh rest IH]; [reflexivity |].
  cbn [map filter]. rewrite shadow_mesh_name.
  destruct (JS.includes (mesh_name mesh) "skyBox"); cbn [negb map].
  - exact IH.
  - rewrite shadow_mesh_name. f_equal. exact IH.
Qed.

Lemma forEach_setupLights_state (records : list LightData) (w : World) :
  exists w' added,
    forEach (fun lightData => bind (LightJS.setupLights lightData) (fun _ => ret tt))
            records w = (JS.Normal tt, w') /\
    lights w' = lights w ++ added /\
    activeCamera w' = activeCamera w /\
    Forall2 (lit_by (meshes w)) records added /\
    meshes w' = (if existsb casts_shadows records
                 then map LightJS.shadow_mesh (meshes w) else meshes w).
Proof.
  revert w. induction records as [| lightData rest IH]; intros w.
  - exists w, []. cbn. rewrite app_nil_r. repeat split. constructor.
  - destruct (light_setupLights_state lightData w)
      as (light & w1 & E1 & L1 & C1 & K1 & M1 & G1 & G2).
    destruct (IH w1) as (w2 & added & E2 & L2 & C2 & F2 & M2).
    exists w2, (light :: added). cbn [forEach]. unfold bind at 1. unfold bind at 1.
    rewrite E1. cbn [ret]. split; [exact E2 |].
    split; [rewrite L2, L1, <- app_assoc; reflexivity |].
    split; [congruence |].
    assert (SC : LightJS.shadow_casters (meshes w1) = LightJS.shadow_casters (meshes w)).
    { rewrite M1. destruct (casts_shadows lightData); [| reflexivity].
      apply shadow_casters_shadow_mesh. }
    split.
    + constructor; [repeat split; assumption |].
      eapply Forall2_impl; [| exact F2].
      intros ld l (Hk & Hc & Hn). unfold lit_by. rewrite <- SC. repeat split; assumption.
    + rewrite M2, M1. cbn [existsb].
      destruct (casts_shadows lightData), (existsb casts_shadows rest); cbn [orb];
        try reflexivity.
      apply shadow_mesh_idempotent.
Qed.

Lemma setupLights_state (host : Host) (projectData : ProjectData)
      (sceneData : SceneData) (others : list SceneData) (w : World) :
  phase_fault host LightSetup = None ->
  scenes projectData = sceneData :: others ->
  exists w' added,
    setupLights host projectData w = (JS.Normal tt, w') /\
    lights w' = lights w ++ added /\
    activeCamera w' = activeCamera w /\
    match scene_lights sceneData with
    | Some (lightData :: rest) =>
        Forall2 (lit_by (meshes w)) (lightData :: rest) added /\
        meshes w' = (if existsb casts_shadows (lightData :: rest)
                     then map LightJS.shadow_mesh (meshes w) else meshes w)
    | _ =>
        added =
          [mkLight HemisphericLight "defaultLight" None (Some (mkVector3 0 1 0))
                   None None None None (Some 0.7) None None;
           mkLight DirectionalLight "directionalLight" None
                   (Some (mkVector3 (-1) (-2) (-1)))
                   None None None None (Some 0.5) None
                   (Some (mkShadowGenerator 1024 (LightJS.shadow_casters (meshes w))
                                            None None (Some true) (Some 2)))] /\
        meshes w' = map LightJS.shadow_mesh (meshes w)
    end.
Proof.
  intros F S. unfold setupLights, sceneData_of.
  unfold bind at 1. rewrite (enter_ok _ _ _ F). rewrite S. js_run. cbv beta zeta.
  set (w0 := with_trace _ w).
  assert (D : exists w',
             defaultLights w0 = (JS.Normal tt, w') /\
             lights w' = lights w ++
               [mkLight HemisphericLight "defaultLight" None (Some (mkVector3 0 1 0))
                        None None None None (Some 0.7) None None;
                mkLight DirectionalLight "directionalLight" None
                        (Some (mkVector3 (-1) (-2) (-1)))
                        None None None None (Some 0.5) None
                        (Some (mkShadowGenerator 1024 (LightJS.shadow_casters (meshes w))
                                                 None None (Some true) (Some 2)))] /\
             activeCamera w' = activeCamera w /\
             meshes w' = map LightJS.shadow_mesh (meshes w)).
  { unfold defaultLights. js_run. eexists. split; [reflexivity |]. js_run.
    rewrite <- app_assoc. repeat split. }
  destruct (scene_lights sceneData) as [[| lightData rest] |].
  - destruct D as (w' & E & L & C & M). exists w'. eexists. repeat split; eassumption.
  - destruct (forEach_setupLights_state (lightData :: rest) w0)
      as (w' & added & E & L & C & F2 & M).
    exists w', added. repeat split; assumption.
  - destruct D as (w' & E & L & C & M). exists w'. eexists. repeat split; eassumption.
Qed.


Lemma onFinish_state (w : World) :
  exists w',
    onFinish callbacks w = (JS.Normal tt, w') /\
    meshes w' = meshes w /\ lights w' = lights w /\ activeCamera w' = activeCamera w.
Proof.
  unfold onFinish, callbacks; cbn [onLoadedCallback]. js_run.
  eexists. split; [reflexivity |].
  destruct (promise w); js_run; repeat split.
Qed.



Lemma forEach_addAssetTask_models (files : list string) (index : nat) (w : World) :
  exists w' queue,
    forEach addAssetTask (assets_of files index) w = (JS.Normal tt, w') /\
    tasks w' = tasks w ++ queue /\
    Forall (fun task => is_mesh_task task = true) queue /\
    map task_name queue = map asset_name (assets_of files index) /\
    meshes w' = meshes w /\ lights w' = lights w /\ activeCamera w' = activeCamera w.
Proof.
  revert index w. induction files as [| file rest IH]; intros index w.
  - exists w, []. cbn. rewrite app_nil_r. repeat split. constructor.
  - cbn [assets_of forEach]. unfold bind at 1.
    unfold addAssetTask at 1. cbn [asset_type String.eqb Ascii.eqb Bool.eqb].
    unfold addModelTask, addTask. js_run.
    match goal with |- context [forEach _ _ ?w0] => destruct (IH (S index) w0)
        as (w' & queue & E & T & F & N & M & L & C) end.
    cbn [tasks meshes lights activeCamera with_tasks with_trace] in T, M, L, C.
    eexists. eexists. split; [exact E |].
    split; [rewrite T, <- app_assoc; reflexivity |].
    cbn [app].
    split; [constructor; [reflexivity | exact F] |].
    split; [cbn [map task_name asset_name]; rewrite N; reflexivity |].
    repeat split; assumption.
Qed.


(** [loadAssets] up to the point where it waits, with what it leaves
    alone. *)
Lemma loadAssets_queue_state (host : Host) (projectData : ProjectData)
      (sceneData : SceneData) (others : list SceneData) (w : World) :
  phase_fault host AssetLoading = None ->
  scenes projectData = sceneData :: others ->
  exists w1,
    loadAssets host projectData w
    = await host 0 (tasks w1) (Z.of_nat (List.length (tasks w1))) w1 /\
    milestones (trace w1) = milestones (trace w) ++ [Enter AssetLoading] /\
    List.length (tasks w1) = asset_count projectData /\
    promise w1 = match tasks w1 with [] => Fulfilled | _ :: _ => Pending end /\
    Forall (fun task => is_mesh_task task = true) (tasks w1) /\
    map task_name (tasks w1)
    = map asset_name (assets_of (match glb_groups sceneData with
                                 | Some files => files
                                 | None => []
                                 end) 0) /\
    meshes w1 = meshes w /\ lights w1 = lights w /\ activeCamera w1 = activeCamera w.
Proof.
  intros F S. unfold loadAssets, sceneData_of.
  unfold bind at 1. rewrite (enter_ok _ _ _ F). rewrite S. js_run.
  unfold AssetManagerJS.loadAssets.
  replace (match glb_groups sceneData with
           | Some files => assets_of files 0
           | None => []
           end)
    with (assets_of (match glb_groups sceneData with
                     | Some files => files
                     | None => []
                     end) 0)
    by (destruct (glb_groups sceneData); reflexivity).
  set (files := match glb_groups sceneData with Some files => files | None => [] end).
  assert (AC : asset_count projectData = List.length files).
  { unfold asset_count. rewrite S. subst files.
    destruct (glb_groups sceneData); reflexivity. }
  cbv delta [bind]. js_run.
  set (w0 := with_tasks [] _).
  destruct (forEach_addAssetTask_models files 0 w0)
    as (w1 & queue & E1 & T1 & FM & N1 & M1 & L1 & C1).
  destruct (quiet_forEach addAssetTask (assets_of files 0) quiet_addAssetTask w0)
    as (w1' & E1' & Q1 & P1).
  rewrite E1 in E1'. injection E1' as <-.
  rewrite E1.
  subst w0. cbn [tasks meshes lights activeCamera promise trace with_tasks with_trace
                 with_promise app] in T1, M1, L1, C1, Q1, P1.
  rewrite milestones_app in Q1. cbn [milestones] in Q1.
  assert (N : List.length (tasks w1) = asset_count projectData).
  { rewrite AC, <- (length_map task_name), T1, N1, length_map. apply assets_of_length. }
  subst queue.
  unfold load. cbv delta [bind]. js_run.
  revert FM N1.
  destruct (tasks w1) as [| task rest] eqn:Q; intros FM N1.
  - destruct (onFinish_run w1) as (w2 & E2 & M2 & P2).
    destruct (onFinish_state w1) as (w2' & E2' & Me2 & Li2 & Ca2).
    rewrite E2 in E2'. injection E2' as <-.
    rewrite E2.
    assert (T2 : tasks w2 = []).
    { revert E2. unfold onFinish, callbacks. cbn [onLoadedCallback].
      cbv delta [bind]. js_run.
      destruct (promise w1); intros [= <-]; js_run; exact Q. }
    exists w2. rewrite T2. split; [reflexivity |].
    split; [congruence |]. split; [rewrite <- N; reflexivity |].
    split; [rewrite P2, P1; reflexivity |].
    split; [constructor |].
    split; [exact N1 |].
    repeat split; congruence.
  - exists w1. rewrite Q. split; [reflexivity |].
    split; [exact Q1 |]. split; [exact N |]. split; [exact P1 |].
    split; [exact FM |].
    split; [exact N1 |].
    repeat split; assumption.
Qed.








Lemma assets_of_names (files : list string) (index k : nat) :
  (k < List.length files)%nat ->
  nth k (map asset_name (assets_of files index)) ""%string
  = ("model_" ++ JS.show_number (Z.of_nat (index + k)))%string.
Proof.
  revert index k. induction files as [| file rest IH]; intros index k H;
    [cbn in H; lia |].
  destruct k as [| k]; cbn [assets_of map nth asset_name].
  - rewrite Nat.add_0_r. reflexivity.
  - rewrite IH by (cbn in H; lia).
    replace (S index + k)%nat with (index + S k)%nat by lia. reflexivity.
Qed.

(** The first task that fails rejects the promise: [await] throws that
    task, after one progress update per task finished so far, the failed
    one included. *)
Lemma await_first_failure (host : Host) (total : Z) (k : nat) (message : string) :
  task_outcome host k = Failed message ->
  (forall i, (i < k)%nat -> is_loaded (task_outcome host i) = true) ->
  forall (queue : list AssetTask) (index : nat) (w : World),
    promise w = Pending ->
    (index <= k < index + List.length queue)%nat ->
    total = Z.of_nat (index + List.length queue) ->
    exists w',
      await host index queue total w
      = (JS.Throw (JS.FailedTask (nth (k - index) (map task_name queue) ""%string)), w') /\
      milestones (trace w') =
        milestones (trace w) ++
        map (fun j => shown (Z.of_nat j) total) (seq (S index) (S k - index)).
Proof.
  intros O L. induction queue as [| task rest IH]; intros index w P B T;
    [cbn in B; lia |].
  cbn [await]. js_run. rewrite P.
  destruct (complete_task_run task (task_outcome host index)
                              (Z.of_nat (List.length rest)) total w P)
    as (w1 & E1 & M1 & P1); [cbn [List.length] in T; lia |].
  unfold bind at 1. rewrite E1.
  replace (total - Z.of_nat (List.length rest))%Z with (Z.of_nat (S index)) in M1
    by (cbn [List.length] in T; lia).
  destruct (Nat.eq_dec index k) as [-> | NE].
  - rewrite O in P1.
    rewrite await_settled by (rewrite P1; discriminate). rewrite P1.
    exists w1. rewrite Nat.sub_diag.
    replace (S k - k)%nat with 1%nat by lia.
    split; [reflexivity | exact M1].
  - pose proof (L index ltac:(lia)) as Li.
    destruct (task_outcome host index) as [ms gs | m]; [| discriminate Li].
    replace (Z.of_nat (List.length rest) =? 0)%Z with false in P1
      by (symmetry; apply Z.eqb_neq; cbn [List.length] in B; lia).
    destruct (IH (S index) w1 P1) as (w2 & E2 & M2);
      [cbn [List.length] in B; lia | cbn [List.length] in T; lia |].
    exists w2.
    replace (k - index)%nat with (S (k - S index)) by lia. cbn [map nth].
    split; [exact E2 |].
    rewrite M2, M1, <- app_assoc.
    replace (S k - index)%nat with (S (S k - S index)) by lia.
    reflexivity.
Qed.

Lemma loadAssets_first_failure (host : Host) (projectData : ProjectData)
      (sceneData : SceneData) (others : list SceneData)
      (k : nat) (message : string) (w : World) :
  phase_fault host AssetLoading = None ->
  scenes projectData = sceneData :: others ->
  (k < asset_count projectData)%nat ->
  (forall i, (i < k)%nat -> is_loaded (task_outcome host i) = true) ->
  task_outcome host k = Failed message ->
  exists w',
    loadAssets host projectData w
    = (JS.Throw (JS.FailedTask ("model_" ++ JS.show_number (Z.of_nat k))), w') /\
    milestones (trace w') =
      milestones (trace w) ++
      Enter AssetLoading ::
      map (fun j => shown (Z.of_nat j) (Z.of_nat (asset_count projectData)))
          (seq 1 (S k)).
Proof.
  intros F S K L O.
  destruct (loadAssets_queue_state host projectData sceneData others w F S)
    as (w1 & E & M1 & N & P & _ & Names & _). rewrite E.
  assert (P1 : promise w1 = Pending).
  { destruct (tasks w1); [cbn in N; lia | exact P]. }
  destruct (await_first_failure host (Z.of_nat (List.length (tasks w1))) k message O L
                                (tasks w1) 0 w1 P1)
    as (w2 & E2 & M2); [lia | reflexivity |].
  exists w2. rewrite E2, Nat.sub_0_r, Names.
  assert (AC : asset_count projectData
               = List.length (match glb_groups sceneData with
                              | Some files => files
                              | None => []
                              end)).
  { unfold asset_count. rewrite S. destruct (glb_groups sceneData); reflexivity. }
  rewrite assets_of_names by (rewrite <- AC; exact K).
  split; [reflexivity |].
  rewrite M2, M1, <- app_assoc, N. rewrite Nat.sub_0_r. reflexivity.
Qed.

Lemma scene_initialize_first_failure (host : Host) (projectData : ProjectData)
      (sceneData : SceneData) (others : list SceneData)
      (k : nat) (message : string) (w : World) :
  phase_fault host EnvironmentSetup = None ->
  phase_fault host CameraSetup = None ->
  phase_fault host AssetLoading = None ->
  scenes projectData = sceneData :: others ->
  (k < asset_count projectData)%nat ->
  (forall i, (i < k)%nat -> is_loaded (task_outcome host i) = true) ->
  task_outcome host k = Failed message ->
  exists w',
    SceneJS.initialize host projectData w
    = (JS.Throw (JS.FailedTask ("model_" ++ JS.show_number (Z.of_nat k))), w') /\
    milestones (trace w') =
      milestones (trace w) ++
      [Enter EnvironmentSetup;
       Progress 40 "Setting up camera..."; Enter CameraSetup;
       Progress 50 "Loading assets..."; Enter AssetLoading]
      ++ map (fun j => shown (Z.of_nat j) (Z.of_nat (asset_count projectData)))
             (seq 1 (S k)).
Proof.
  intros F1 F2 F3 S K L O. unfold SceneJS.initialize.
  cbv delta [bind]. js_run.
  set (w0 := with_trace _ w).
  destruct (createEnvironment_ok host projectData sceneData others w0 F1 S)
    as (w1 & E1 & M1). rewrite E1.
  set (w2 := with_trace _ (with_tasks [] w1)).
  destruct (setupCamera_ok host projectData sceneData others w2 F2 S)
    as (w3 & E3 & M3). rewrite E3.
  set (w4 := with_trace _ w3).
  destruct (loadAssets_first_failure host projectData sceneData others k message w4
                                     F3 S K L O)
    as (w5 & E5 & M5). rewrite E5.
  exists w5. split; [reflexivity |].
  rewrite M5. subst w4. js_run. rewrite milestones_app, M3.
  subst w2. js_run. rewrite milestones_app, M1.
  subst w0. js_run. rewrite milestones_app.
  cbn [milestones app]. rewrite app_nil_r.
  rewrite <- !app_assoc. cbn [app]. reflexivity.
Qed.

Lemma app_initialize_first_failure
      (host : Host) (projectFile : string) (projectData : ProjectData)
      (sceneData : SceneData) (others : list SceneData)
      (k : nat) (message : string) (w : World) :
  fetched (fetch host) projectData ->
  engine_fault host = None ->
  phase_fault host EnvironmentSetup = None ->
  phase_fault host CameraSetup = None ->
  phase_fault host AssetLoading = None ->
  scenes projectData = sceneData :: others ->
  (k < asset_count projectData)%nat ->
  (forall i, (i < k)%nat -> is_loaded (task_outcome host i) = true) ->
  task_outcome host k = Failed message ->
  exists w' before,
    AppJS.initialize host projectFile w = (JS.Normal tt, w') /\
    milestones (trace w') =
      milestones (trace w)
      ++ [Progress 10 "Loading project configuration...";
          Progress 20 "Creating engine..."; Progress 30 "Creating scene...";
          Enter EnvironmentSetup;
          Progress 40 "Setting up camera..."; Enter CameraSetup;
          Progress 50 "Loading assets..."; Enter AssetLoading]
      ++ map (fun j => shown (Z.of_nat j) (Z.of_nat (asset_count projectData)))
             (seq 1 (S k))
      ++ [Progress 0 "Error: undefined"] /\
    trace w' = before ++ [ConsoleError "Initialization error: undefined";
                          Progress 0 "Error: undefined"].
Proof.
  intros [status N] G F1 F2 F3 S K L O.
  unfold AppJS.initialize, try_catch. cbv delta [bind]. js_run.
  rewrite N.
  change (UtilityJS.loadJSON projectFile
            (Response true status (Text (Parsed (Some projectData)))) ?w)
    with (JS.Normal (Some projectData), w).
  js_run. rewrite G. js_run.
  set (w1 := with_trace _ (with_trace _ (with_trace _ (with_trace _ w)))).
  destruct (scene_initialize_first_failure host projectData sceneData others k message w1
                                           F1 F2 F3 S K L O)
    as (w2 & E2 & M2). rewrite E2. js_run.
  assert (M1 : milestones (trace w1)
               = milestones (trace w)
                 ++ [Progress 10 "Loading project configuration...";
                     Progress 20 "Creating engine..."; Progress 30 "Creating scene..."]).
  { subst w1. js_run. rewrite !milestones_app. cbn [milestones].
    rewrite app_nil_r, <- !app_assoc. reflexivity. }
  eexists. exists (trace w2). split; [reflexivity |]. js_run.
  split; [| rewrite <- app_assoc; reflexivity].
  rewrite !milestones_app, M2, M1. cbn [milestones JS.message JS.show].
  rewrite ?app_nil_r, <- !app_assoc. reflexivity.
Qed.

(** X7: when the manifest has a scene and the engine does not fail,
    [createEnvironment] returns normally.  The background is opaque.
    With the background type "color" it is the manifest's colour, as
    clear colour and as ambient colour, (0.1, 0.1, 0.1) when no colour is
    given; with any other type, or none, the clear colour is
    (0.1, 0.1, 0.1) and the ambient colour (0.3, 0.3, 0.3).  A mesh named
    skyBox is added, after the meshes already there, exactly when the
    type is "texture" or "sky" and a skybox texture is named; lights and
    camera are left alone. *)
Theorem createEnvironment_background_and_skybox
        (host : Host) (projectData : ProjectData)
        (sceneData : SceneData) (others : list SceneData) (w : World) :
  phase_fault host EnvironmentSetup = None ->
  scenes projectData = sceneData :: others ->
  exists w',
    createEnvironment host projectData w = (JS.Normal tt, w') /\
    meshes w' =
      meshes w ++ (if wants_skybox sceneData then [mkMesh "skyBox" false false] else []) /\
    lights w' = lights w /\ activeCamera w' = activeCamera w /\
    (backgroundType (envData_of sceneData) = Some "color" ->
     (forall r g b,
         backgroundColor (envData_of sceneData) = Some [r; g; b] ->
         clearColor w' = Some (mkColor4 r g b 1) /\
         ambientColor w' = Some (mkColor3 r g b)) /\
     (backgroundColor (envData_of sceneData) = None ->
      clearColor w' = Some (mkColor4 0.1 0.1 0.1 1) /\
      ambientColor w' = Some (mkColor3 0.1 0.1 0.1))) /\
    (backgroundType (envData_of sceneData) <> Some "color" ->
     clearColor w' = Some (mkColor4 0.1 0.1 0.1 1) /\
     ambientColor w' = Some (mkColor3 0.3 0.3 0.3)).
Proof. exact (createEnvironment_state host projectData sceneData others w). Qed.

Lemma createEnvironment_background_and_skybox_witness :
  exists w',
    createEnvironment (calmHost skyProject) skyProject World0 = (JS.Normal tt, w') /\
    meshes w' =
      meshes World0
      ++ (if wants_skybox skyScene then [mkMesh "skyBox" false false] else []) /\
    lights w' = lights World0 /\ activeCamera w' = activeCamera World0 /\
    (backgroundType (envData_of skyScene) = Some "color" ->
     (forall r g b,
         backgroundColor (envData_of skyScene) = Some [r; g; b] ->
         clearColor w' = Some (mkColor4 r g b 1) /\
         ambientColor w' = Some (mkColor3 r g b)) /\
     (backgroundColor (envData_of skyScene) = None ->
      clearColor w' = Some (mkColor4 0.1 0.1 0.1 1) /\
      ambientColor w' = Some (mkColor3 0.1 0.1 0.1))) /\
    (backgroundType (envData_of skyScene) <> Some "color" ->
     clearColor w' = Some (mkColor4 0.1 0.1 0.1 1) /\
     ambientColor w' = Some (mkColor3 0.3 0.3 0.3)).
Proof.
  apply (createEnvironment_background_and_skybox
           (calmHost skyProject) skyProject skyScene [] World0); reflexivity.
Defined.

(** X9: when the manifest has a scene and the engine does not fail,
    the scene's [setupLights] returns normally, adds lights after the
    ones already there and leaves the camera alone.  With at least one
    light record it adds one light per record, in order, of the kind the
    record's type selects, with a shadow generator exactly for a
    directional light that casts shadows; that generator renders the
    meshes present that are not a skybox, and these then receive
    shadows.  With no record (the list missing or empty) it adds the two
    default lights - the hemispheric defaultLight of intensity 0.7 and
    the directional directionalLight of intensity 0.5, whose shadow
    generator renders every mesh that is not a skybox. *)
Theorem scene_setupLights_one_light_per_record_or_two_defaults
        (host : Host) (projectData : ProjectData)
        (sceneData : SceneData) (others : list SceneData) (w : World) :
  phase_fault host LightSetup = None ->
  scenes projectData = sceneData :: others ->
  exists w' added,
    setupLights host projectData w = (JS.Normal tt, w') /\
    lights w' = lights w ++ added /\
    activeCamera w' = activeCamera w /\
    match scene_lights sceneData with
    | Some (lightData :: rest) =>
        Forall2 (lit_by (meshes w)) (lightData :: rest) added /\
        meshes w' = (if existsb casts_shadows (lightData :: rest)
                     then map LightJS.shadow_mesh (meshes w) else meshes w)
    | _ =>
        added =
          [mkLight HemisphericLight "defaultLight" None (Some (mkVector3 0 1 0))
                   None None None None (Some 0.7) None None;
           mkLight DirectionalLight "directionalLight" None
                   (Some (mkVector3 (-1) (-2) (-1)))
                   None None None None (Some 0.5) None
                   (Some (mkShadowGenerator 1024 (LightJS.shadow_casters (meshes w))
                                            None None (Some true) (Some 2)))] /\
        meshes w' = map LightJS.shadow_mesh (meshes w)
    end.
Proof. exact (setupLights_state host projectData sceneData others w). Qed.

Lemma scene_setupLights_one_light_per_record_or_two_defaults_witness :
  exists w' added,
    setupLights (calmHost skyProject) skyProject World0 = (JS.Normal tt, w') /\
    lights w' = lights World0 ++ added /\
    activeCamera w' = activeCamera World0 /\
    Forall2 (lit_by (meshes World0)) [sunLight; areaLight] added /\
    meshes w' = (if existsb casts_shadows [sunLight; areaLight]
                 then map LightJS.shadow_mesh (meshes World0) else meshes World0).
Proof.
  apply (scene_setupLights_one_light_per_record_or_two_defaults
           (calmHost skyProject) skyProject skyScene [] World0); reflexivity.
Defined.



(** X11: when the manifest was fetched, the first three phases meet no
    engine failure, the tasks before the [k]-th load and the [k]-th
    fails, the application's [initialize] still returns normally.  The
    loading screen has then shown 10, 20, 30, 40, 50, one asset update
    per finished task - the failed one included - and last
    "Error: undefined" at 0, right after one console error: the promise
    was rejected with the task, which has no message.  The light and
    interaction phases were not entered. *)
Theorem failed_asset_stops_initialization
        (host : Host) (projectFile : string) (projectData : ProjectData)
        (sceneData : SceneData) (others : list SceneData)
        (k : nat) (message : string) (w : World) :
  fetched (fetch host) projectData ->
  engine_fault host = None ->
  phase_fault host EnvironmentSetup = None ->
  phase_fault host CameraSetup = None ->
  phase_fault host AssetLoading = None ->
  scenes projectData = sceneData :: others ->
  (k < asset_count projectData)%nat ->
  (forall i, (i < k)%nat -> is_loaded (task_outcome host i) = true) ->
  task_outcome host k = Failed message ->
  exists w' before line,
    AppJS.initialize host projectFile w = (JS.Normal tt, w') /\
    milestones (trace w') =
      milestones (trace w)
      ++ [Progress 10 "Loading project configuration...";
          Progress 20 "Creating engine..."; Progress 30 "Creating scene...";
          Enter EnvironmentSetup;
          Progress 40 "Setting up camera..."; Enter CameraSetup;
          Progress 50 "Loading assets..."; Enter AssetLoading]
      ++ map (fun j => shown (Z.of_nat j) (Z.of_nat (asset_count projectData)))
             (seq 1 (S k))
      ++ [Progress 0 "Error: undefined"] /\
    trace w' = before ++ [ConsoleError line; Progress 0 "Error: undefined"].
Proof.
  intros N G F1 F2 F3 S K L O.
  destruct (app_initialize_first_failure host projectFile projectData sceneData others
                                         k message w N G F1 F2 F3 S K L O)
    as (w' & before & E & M & T).
  exists w', before. eexists. split; [exact E |]. split; [exact M | exact T].
Qed.

Lemma failed_asset_stops_initialization_witness :
  exists w' before line,
    AppJS.initialize (secondTaskFails (projectWith ["a.glb"; "b.glb"; "c.glb"]))
                     "assets/project.json" World0
    = (JS.Normal tt, w') /\
    milestones (trace w') =
      milestones (trace World0)
      ++ [Progress 10 "Loading project configuration...";
          Progress 20 "Creating engine..."; Progress 30 "Creating scene...";
          Enter EnvironmentSetup;
          Progress 40 "Setting up camera..."; Enter CameraSetup;
          Progress 50 "Loading assets..."; Enter AssetLoading]
      ++ map (fun j => shown (Z.of_nat j)
                             (Z.of_nat (asset_count
                                          (projectWith ["a.glb"; "b.glb"; "c.glb"]))))
             (seq 1 2)
      ++ [Progress 0 "Error: undefined"] /\
    trace w' = before ++ [ConsoleError line; Progress 0 "Error: undefined"].
Proof.
  apply (failed_asset_stops_initialization
           (secondTaskFails (projectWith ["a.glb"; "b.glb"; "c.glb"]))
           "assets/project.json" (projectWith ["a.glb"; "b.glb"; "c.glb"])
           (mkSceneData None None None (Some ["a.glb"; "b.glb"; "c.glb"])) []
           1 "404" World0);
    try reflexivity.
  - exists 200%Z. reflexivity.
  - cbn. lia.
  - intros i H. replace i with 0%nat by lia. reflexivity.
Defined.

End SceneState.

(* ================================================================== *)
(** * Further properties: what a run may send *)
(* ================================================================== *)

Section TraceDiscipline.
Import AssetManagerJS SceneJS ExtraSpec Observations Samples.
Local Open Scope list_scope.
Variable allowed : Event -> bool.

Lemma emits_only_ret {A} (a : A) : emits_only allowed (ret a).
Proof. intros w. exists []. cbn. rewrite app_nil_r. split; reflexivity. Qed.

Lemma emits_only_throw {A} (e : JS.exn) : emits_only allowed (@throw A e).
Proof. intros w. exists []. cbn. rewrite app_nil_r. split; reflexivity. Qed.

Lemma emits_only_suspend {A} : emits_only allowed (@suspend A).
Proof. intros w. exists []. cbn. rewrite app_nil_r. split; reflexivity. Qed.

Lemma emits_only_get : emits_only allowed get.
Proof. intros w. exists []. cbn. rewrite app_nil_r. split; reflexivity. Qed.

Lemma emits_only_emit (e : Event) : allowed e = true -> emits_only allowed (emit e).
Proof. intros H w. exists [e]. cbn. rewrite H. split; reflexivity. Qed.

Lemma emits_only_log (message : string) (isError : bool) :
  (forall m, allowed (ConsoleLog m) = true) ->
  (forall m, allowed (ConsoleError m) = true) ->
  emits_only allowed (log message isError).
Proof.
  intros L E. unfold log. destruct isError; apply emits_only_emit; [apply E | apply L].
Qed.

Lemma emits_only_modify (f : World -> World) :
  (forall w, trace (f w) = trace w) -> emits_only allowed (modify f).
Proof.
  intros H w. exists []. cbn. rewrite H, app_nil_r. split; reflexivity.
Qed.

Lemma emits_only_bind {A B} (c : M A) (k : A -> M B) :
  emits_only allowed c -> (forall a, emits_only allowed (k a)) ->
  emits_only allowed (bind c k).
Proof.
  intros Hc Hk w. unfold bind.
  destruct (Hc w) as (added1 & T1 & F1).
  destruct (c w) as [[a | e |] w1]; cbn [snd] in *.
  - destruct (Hk a w1) as (added2 & T2 & F2).
    exists (added1 ++ added2). rewrite T2, T1, <- app_assoc, forallb_app, F1, F2.
    split; reflexivity.
  - exists added1. split; assumption.
  - exists added1. split; assumption.
Qed.

Lemma emits_only_try_catch {A} (body : M A) (handler : JS.exn -> M A) :
  emits_only allowed body -> (forall e, emits_only allowed (handler e)) ->
  emits_only allowed (try_catch body handler).
Proof.
  intros Hb Hh w. unfold try_catch.
  destruct (Hb w) as (added1 & T1 & F1).
  destruct (body w) as [[a | e |] w1]; cbn [snd] in *.
  - exists added1. split; assumption.
  - destruct (Hh e w1) as (added2 & T2 & F2).
    exists (added1 ++ added2). rewrite T2, T1, <- app_assoc, forallb_app, F1, F2.
    split; reflexivity.
  - exists added1. split; assumption.
Qed.

Lemma emits_only_forEach {A} (f : A -> M unit) (l : list A) :
  (forall a, emits_only allowed (f a)) -> emits_only allowed (forEach f l).
Proof.
  intros H. induction l as [| a rest IH]; cbn [forEach].
  - apply emits_only_ret.
  - apply emits_only_bind; [apply H | intros _; exact IH].
Qed.

End TraceDiscipline.

Ltac emits :=
  repeat first
    [ apply emits_only_ret | apply emits_only_throw | apply emits_only_suspend
    | apply emits_only_get
    | apply emits_only_emit; reflexivity
    | apply emits_only_log; intros; reflexivity
    | apply emits_only_modify; intros; reflexivity
    | apply emits_only_bind; [| intros ?]
    | apply emits_only_forEach; intros ?
    | match goal with
      | |- ExtraSpec.emits_only _ (match ?x with _ => _ end) => destruct x
      end ].

Section SceneEvents.
Import AssetManagerJS SceneJS ExtraSpec Observations Samples.
Local Open Scope list_scope.

Lemma emits_only_resolve : emits_only phase_event resolve.
Proof.
  unfold resolve. apply emits_only_modify. intros w. destruct (promise w); reflexivity.
Qed.

Lemma emits_only_reject (task : AssetTask) : emits_only phase_event (reject task).
Proof.
  unfold reject. apply emits_only_modify. intros w. destruct (promise w); reflexivity.
Qed.

Lemma emits_only_enter (host : Host) (phase : Phase) :
  emits_only phase_event (enter host phase).
Proof. unfold enter. emits. Qed.

Lemma emits_only_sceneData_of (projectData : ProjectData) (property : string) :
  emits_only phase_event (sceneData_of projectData property).
Proof. unfold sceneData_of. emits. Qed.

Lemma emits_only_createEnvironment (host : Host) (projectData : ProjectData) :
  emits_only phase_event (createEnvironment host projectData).
Proof.
  unfold createEnvironment.
  apply emits_only_bind; [apply emits_only_enter | intros _].
  apply emits_only_bind; [apply emits_only_sceneData_of | intros sceneData].
  cbv zeta.
  destruct (backgroundType _) as [type |]; [| emits].
  destruct (String.eqb type "color"); [emits |].
  destruct (String.eqb type "texture" || String.eqb type "sky"); [| emits].
  apply emits_only_bind; [emits | intros _].
  destruct (skyboxTexture _) as [texture |]; [| emits].
  destruct (JS.truthy_string texture); emits.
Qed.

Lemma emits_only_camera_setupCamera (cameraData : CameraData) :
  emits_only phase_event (CameraJS.setupCamera cameraData).
Proof. unfold CameraJS.setupCamera, CameraJS.setupCameraEnhancements. emits. Qed.

Lemma emits_only_setupCamera (host : Host) (projectData : ProjectData) :
  emits_only phase_event (setupCamera host projectData).
Proof.
  unfold setupCamera.
  apply emits_only_bind; [apply emits_only_enter | intros _].
  apply emits_only_bind; [apply emits_only_sceneData_of | intros sceneData].
  cbv zeta.
  destruct (match scene_cameras sceneData with
            | Some cameras => nth_error cameras 0
            | None => None
            end) as [cameraData |]; [| emits].
  apply emits_only_bind; [apply emits_only_camera_setupCamera | intros camera].
  emits.
Qed.

Lemma emits_only_light_setupLights (lightData : LightData) :
  emits_only phase_event (LightJS.setupLights lightData).
Proof.
  unfold LightJS.setupLights.
  apply emits_only_bind; [emits | intros _].
  assert (P : emits_only phase_event (LightJS.createPointLight lightData))
    by (unfold LightJS.createPointLight, add_light; emits).
  assert (S : emits_only phase_event (LightJS.createSpotLight lightData))
    by (unfold LightJS.createSpotLight, add_light; emits).
  assert (D : emits_only phase_event (LightJS.createDirectionalLight lightData)).
  { unfold LightJS.createDirectionalLight, add_light, set_meshes.
    apply emits_only_bind; [emits | intros w0].
    apply emits_only_bind; [| intros generator; emits].
    destruct (JS.or_false (ld_castShadows lightData)); emits. }
  assert (H : emits_only phase_event (LightJS.createHemisphericLight lightData))
    by (unfold LightJS.createHemisphericLight, add_light; emits).
  destruct (ld_type lightData) as [type |]; [| exact H].
  destruct (String.eqb type "POINT"); [exact P |].
  destruct (String.eqb type "SPOT"); [exact S |].
  destruct (String.eqb type "SUN"); [exact D |].
  destruct (String.eqb type "DIRECTIONAL"); [exact D | exact H].
Qed.

Lemma emits_only_setupLights (host : Host) (projectData : ProjectData) :
  emits_only phase_event (setupLights host projectData).
Proof.
  unfold setupLights.
  apply emits_only_bind; [apply emits_only_enter | intros _].
  apply emits_only_bind; [apply emits_only_sceneData_of | intros sceneData].
  assert (D : emits_only phase_event defaultLights)
    by (unfold defaultLights, add_light, set_meshes; emits).
  destruct (scene_lights sceneData) as [[| lightData rest] |]; try exact D.
  apply emits_only_forEach. intros ld.
  apply emits_only_bind; [apply emits_only_light_setupLights | intros _; emits].
Qed.

Lemma emits_only_setupActionManager (host : Host) :
  emits_only phase_event (setupActionManager host).
Proof.
  unfold setupActionManager.
  apply emits_only_bind; [apply emits_only_enter | intros _]. emits.
Qed.

Lemma emits_only_addAssetTask (asset : Asset) :
  emits_only phase_event (addAssetTask asset).
Proof.
  unfold addAssetTask, addModelTask, addTextureTask, addAudioTask, addHDRTask, addTask.
  destruct (String.eqb (asset_type asset) "model"); [emits |].
  destruct (String.eqb (asset_type asset) "texture"); [emits |].
  destruct (String.eqb (asset_type asset) "audio"); [emits |].
  destruct (String.eqb (asset_type asset) "hdr"); emits.
Qed.

Lemma emits_only_onFinish : emits_only phase_event (onFinish callbacks).
Proof.
  unfold onFinish, callbacks. cbn [onLoadedCallback].
  apply emits_only_bind; [emits | intros _; apply emits_only_resolve].
Qed.

Lemma emits_only_manager_loadAssets (assetList : list Asset) :
  emits_only phase_event (AssetManagerJS.loadAssets assetList callbacks).
Proof.
  unfold AssetManagerJS.loadAssets.
  apply emits_only_bind; [emits | intros _].
  apply emits_only_bind;
    [apply emits_only_forEach; intros asset; apply emits_only_addAssetTask | intros _].
  unfold load. apply emits_only_bind; [apply emits_only_get | intros w0].
  destruct (tasks w0); [apply emits_only_onFinish | apply emits_only_ret].
Qed.

Lemma phase_event_scene (e : Event) : phase_event e = true -> scene_event e = true.
Proof. destruct e; cbn; try reflexivity; discriminate. Qed.

Lemma emits_only_phase_scene {A} (c : M A) :
  emits_only phase_event c -> emits_only scene_event c.
Proof.
  intros H w. destruct (H w) as (added & T & F).
  exists added. split; [exact T |].
  rewrite forallb_forall in *. intros e He. apply phase_event_scene, F, He.
Qed.

(** The handlers of a finished task. *)
Lemma emits_only_task_handlers (task : AssetTask) (outcome : TaskOutcome) :
  emits_only phase_event
    match outcome with
    | Loaded loadedMeshes loadedAnimationGroups =>
        task_onSuccess task loadedMeshes loadedAnimationGroups
    | Failed message =>
        bind (task_onError callbacks task message)
             (fun _ => onTaskError callbacks task None)
    end.
Proof.
  destruct outcome as [ms gs | message].
  - destruct task; cbn [task_onSuccess]; unfold meshTask_onSuccess; emits.
  - apply emits_only_bind; [| intros _].
    + destruct task; cbn [task_onError]; try apply emits_only_ret.
      unfold meshTask_onError, callbacks. cbn [onErrorCallback].
      apply emits_only_bind; [emits | intros _; apply emits_only_reject].
    + unfold onTaskError, callbacks. cbn [onErrorCallback].
      apply emits_only_bind; [emits | intros _; apply emits_only_reject].
Qed.

Lemma emits_only_onProgress (remaining total : Z) :
  (0 < total)%Z -> (0 <= remaining <= total)%Z ->
  emits_only scene_event (onProgress callbacks remaining total).
Proof.
  intros T B. unfold onProgress, callbacks. cbn [onProgressCallback].
  unfold loadingProgress, updateLoadingProgress.
  rewrite (Qfloor_progress _ _ T).
  apply emits_only_emit. cbn [scene_event].
  assert (L : (0 <= (20 * (total - remaining)) / total)%Z) by (apply Z.div_pos; lia).
  assert (U : ((20 * (total - remaining)) / total <= 20)%Z)
    by (apply Z.div_le_upper_bound; lia).
  apply andb_true_intro. split; apply Z.leb_le; lia.
Qed.

Lemma emits_only_complete_task (task : AssetTask) (outcome : TaskOutcome)
      (remaining total : Z) :
  (0 < total)%Z -> (0 <= remaining <= total)%Z ->
  emits_only scene_event (complete_task callbacks task outcome remaining total).
Proof.
  intros T B. unfold complete_task.
  apply emits_only_bind; [| intros _].
  - apply emits_only_phase_scene, emits_only_task_handlers.
  - apply emits_only_bind; [apply emits_only_onProgress; assumption | intros _].
    destruct (remaining =? 0)%Z;
      [apply emits_only_phase_scene, emits_only_onFinish | apply emits_only_ret].
Qed.

Lemma emits_only_await (host : Host) (total : Z) :
  forall (queue : list AssetTask) (index : nat),
    (Z.of_nat (List.length queue) <= total)%Z ->
    emits_only scene_event (await host index queue total).
Proof.
  induction queue as [| task rest IH]; intros index B; cbn [await].
  - apply emits_only_bind; [apply emits_only_get | intros w0].
    destruct (promise w0); emits.
  - apply emits_only_bind; [apply emits_only_get | intros w0].
    destruct (promise w0); try (emits; fail).
    apply emits_only_bind; [| intros _; apply IH; cbn [List.length] in B; lia].
    apply emits_only_complete_task; cbn [List.length] in B; lia.
Qed.

Lemma emits_only_loadAssets (host : Host) (projectData : ProjectData) :
  emits_only scene_event (loadAssets host projectData).
Proof.
  unfold loadAssets.
  apply emits_only_bind; [apply emits_only_phase_scene, emits_only_enter | intros _].
  apply emits_only_bind;
    [apply emits_only_phase_scene, emits_only_sceneData_of | intros sceneData].
  cbv zeta.
  apply emits_only_bind; [emits | intros _].
  apply emits_only_bind;
    [apply emits_only_phase_scene, emits_only_manager_loadAssets | intros _].
  apply emits_only_bind; [apply emits_only_get | intros w0].
  apply emits_only_await. lia.
Qed.

(** Whatever the host does and whatever the manifest holds. *)
Lemma emits_only_scene_initialize (host : Host) (projectData : ProjectData) :
  emits_only scene_event (SceneJS.initialize host projectData).
Proof.
  unfold SceneJS.initialize, updateLoadingProgress.
  apply emits_only_bind; [emits | intros _].
  apply emits_only_bind; [apply emits_only_phase_scene, emits_only_createEnvironment | intros _].
  apply emits_only_bind; [emits | intros _].
  apply emits_only_bind; [emits | intros _].
  apply emits_only_bind; [apply emits_only_phase_scene, emits_only_setupCamera | intros _].
  apply emits_only_bind; [emits | intros _].
  apply emits_only_bind; [apply emits_only_loadAssets | intros _].
  apply emits_only_bind; [emits | intros _].
  apply emits_only_bind; [apply emits_only_phase_scene, emits_only_setupLights | intros _].
  apply emits_only_bind; [emits | intros _].
  apply emits_only_phase_scene, emits_only_setupActionManager.
Qed.



(** X12: whatever the host does and whatever the manifest holds, the
    scene's [initialize] only adds to what the console and the page have
    received, and what it adds are console lines, event listeners, phase
    marks and progress updates between 40 and 80: it never sets the
    title, shows the debug layer, starts the render loop or sets a
    time-out. *)
Theorem scene_initialize_sends_only_scene_events
        (host : Host) (projectData : ProjectData) (w : World) :
  exists added,
    trace (snd (SceneJS.initialize host projectData w)) = trace w ++ added /\
    forallb scene_event added = true.
Proof. exact (emits_only_scene_initialize host projectData w). Qed.

End SceneEvents.

(* ================================================================== *)
(** * Further properties: the camera's listeners *)
(* ================================================================== *)

Section CameraListeners.
Import CameraJS ExtraSpec.
Local Open Scope list_scope.
Local Open Scope R_scope.

Lemma handleInput_run (event : InputEvent) (c : Controls) (w : World) :
  exists c' w',
    handleInput event c w = (JS.Normal c', w') /\
    speed (controlled c') =
      match shift_of event with
      | Some true => 20
      | Some false => 2
      | None => speed (controlled c)
      end /\
    isShiftPressed c' =
      match shift_of event with
      | Some pressed => pressed
      | None => isShiftPressed c
      end /\
    applyGravity (controlled c') =
      xorb (applyGravity (controlled c)) (Nat.odd (space_presses [event])) /\
    List.length (logs (trace w')) =
      (List.length (logs (trace w)) + space_presses [event])%nat /\
    mouseListener c' =
      match event with
      | PointerLockChange lockedOnCanvas => lockedOnCanvas
      | _ => mouseListener c
      end /\
    rotation (controlled c') =
      match event with
      | MouseMove movementX movementY =>
          if mouseListener c
          then mkVector3 (vx (rotation (controlled c)) + movementY * 0.002)
                         (vy (rotation (controlled c)) + movementX * 0.002)
                         (vz (rotation (controlled c)))
          else rotation (controlled c)
      | _ => rotation (controlled c)
      end.
Proof.
  destruct event as [key | key | | lockedOnCanvas | movementX movementY];
    cbn [handleInput shift_of]; unfold space_presses; cbn [filter].
  - unfold onKeyDown.
    destruct (String.eqb_spec key "Shift") as [-> | NS].
    + cbn [String.eqb Ascii.eqb Bool.eqb]. cbn [ret].
      eexists. eexists. split; [reflexivity |].
      cbn. rewrite xorb_false_r, Nat.add_0_r. repeat split.
    + destruct (String.eqb key " ").
      * cbv delta [bind log emit modify ret]. cbn beta iota.
        eexists. eexists. split; [reflexivity |].
        cbn [controlled set_applyGravity speed isShiftPressed applyGravity mouseListener
             rotation trace with_trace List.length Nat.odd Nat.even].
        rewrite logs_app, length_app. cbn [logs List.length].
        destruct (applyGravity (controlled c)); repeat split.
      * cbn [ret]. eexists. eexists. split; [reflexivity |].
        cbn. rewrite xorb_false_r, Nat.add_0_r. repeat split.
  - unfold onKeyUp. destruct (String.eqb key "Shift");
      (eexists; eexists; split; [reflexivity |]);
      cbn; rewrite xorb_false_r, Nat.add_0_r; repeat split.
  - eexists. eexists. split; [reflexivity |].
    cbn. rewrite xorb_false_r, Nat.add_0_r. repeat split.
  - eexists. eexists. split; [reflexivity |].
    cbn. rewrite xorb_false_r, Nat.add_0_r. repeat split.
  - destruct (mouseListener c) eqn:ML;
      (eexists; eexists; split; [reflexivity |]);
      cbn [controlled updateCameraRotation set_placement speed isShiftPressed
           applyGravity mouseListener rotation List.length Nat.odd Nat.even];
      rewrite xorb_false_r, Nat.add_0_r, ?ML; repeat split.
Qed.

Lemma last_shift_cons (event : InputEvent) (events : list InputEvent) :
  last_shift (event :: events) =
  match last_shift events with
  | Some pressed => Some pressed
  | None => shift_of event
  end.
Proof.
  unfold last_shift. cbn [fold_left].
  generalize (shift_of event) as seen.
  assert (G : forall (l : list InputEvent) (seen : option bool),
             fold_left (fun seen event =>
                          match shift_of event with
                          | Some pressed => Some pressed
                          | None => seen
                          end) l seen
             = match fold_left (fun seen event =>
                                  match shift_of event with
                                  | Some pressed => Some pressed
                                  | None => seen
                                  end) l None with
               | Some pressed => Some pressed
               | None => seen
               end).
  { induction l as [| e l IH]; intros seen; cbn [fold_left]; [reflexivity |].
    rewrite (IH (match shift_of e with Some p => Some p | None => seen end)).
    rewrite (IH (match shift_of e with Some p => Some p | None => None end)).
    destruct (fold_left _ l None); [reflexivity |].
    destruct (shift_of e); reflexivity. }
  intros seen.
  rewrite (G events (match seen with Some p => Some p | None => None end)).
  destruct (fold_left _ events None); [reflexivity |]. destruct seen; reflexivity.
Qed.

Lemma space_presses_cons (event : InputEvent) (events : list InputEvent) :
  space_presses (event :: events) = (space_presses [event] + space_presses events)%nat.
Proof.
  unfold space_presses. cbn [filter].
  destruct (match event with KeyDown key => String.eqb key " " | _ => false end);
    reflexivity.
Qed.

Lemma handleInputs_keys (events : list InputEvent) :
  forall (c : Controls) (w : World),
  exists c' w',
    handleInputs events c w = (JS.Normal c', w') /\
    speed (controlled c') =
      match last_shift events with
      | Some true => 20
      | Some false => 2
      | None => speed (controlled c)
      end /\
    isShiftPressed c' =
      match last_shift events with
      | Some pressed => pressed
      | None => isShiftPressed c
      end /\
    applyGravity (controlled c') =
      xorb (applyGravity (controlled c)) (Nat.odd (space_presses events)) /\
    List.length (logs (trace w')) =
      (List.length (logs (trace w)) + space_presses events)%nat.
Proof.
  induction events as [| event rest IH]; intros c w.
  - exists c, w. cbn. rewrite xorb_false_r, Nat.add_0_r. repeat split.
  - destruct (handleInput_run event c w) as (c1 & w1 & E1 & S1 & P1 & G1 & L1 & _).
    destruct (IH c1 w1) as (c2 & w2 & E2 & S2 & P2 & G2 & L2).
    exists c2, w2. cbn [handleInputs]. unfold bind at 1. rewrite E1.
    split; [exact E2 |].
    rewrite last_shift_cons, space_presses_cons.
    rewrite S2, P2, G2, L2, S1, P1, G1, L1.
    rewrite Nat.odd_add, xorb_assoc, Nat.add_assoc.
    destruct (last_shift rest) as [[|] |]; repeat split.
Qed.

Lemma handleInputs_mouse (events : list InputEvent) :
  forall (c : Controls) (w : World),
  exists c' w',
    handleInputs events c w = (JS.Normal c', w') /\
    rotation (controlled c') =
      mkVector3
        (vx (rotation (controlled c))
         + 0.002 * snd (locked_movement events (mouseListener c)))
        (vy (rotation (controlled c))
         + 0.002 * fst (locked_movement events (mouseListener c)))
        (vz (rotation (controlled c))).
Proof.
  induction events as [| event rest IH]; intros c w.
  - exists c, w. split; [reflexivity |]. cbn [locked_movement fst snd].
    destruct (rotation (controlled c)) as [x y z]. cbn [vx vy vz]. f_equal; lra.
  - destruct (handleInput_run event c w) as (c1 & w1 & E1 & _ & _ & _ & _ & M1 & R1).
    destruct (IH c1 w1) as (c2 & w2 & E2 & R2).
    exists c2, w2. cbn [handleInputs]. unfold bind at 1. rewrite E1.
    split; [exact E2 |]. rewrite R2, M1, R1.
    destruct event as [key | key | | lockedOnCanvas | movementX movementY];
      cbn [locked_movement]; try reflexivity.
    destruct (locked_movement rest (mouseListener c)) as [x y].
    destruct (mouseListener c); cbn [fst snd vx vy vz]; [| reflexivity].
    f_equal; lra.
Qed.

(** X15: the key listeners of [setupCameraEnhancements], run on any
    sequence of page events, return normally.  The camera's speed is
    then 20 if the last Shift event was a press, 2 if it was a release -
    whatever the speed was before the press - and unchanged if Shift was
    never touched; the shift flag follows.  Gravity has been toggled once
    per space key-down, so it differs from the start exactly when their
    number is odd, and each toggle wrote one line to the console. *)
Theorem camera_keys_set_speed_and_toggle_gravity
        (events : list InputEvent) (c : Controls) (w : World) :
  exists c' w',
    handleInputs events c w = (JS.Normal c', w') /\
    speed (controlled c') =
      match last_shift events with
      | Some true => 20
      | Some false => 2
      | None => speed (controlled c)
      end /\
    isShiftPressed c' =
      match last_shift events with
      | Some pressed => pressed
      | None => isShiftPressed c
      end /\
    applyGravity (controlled c') =
      xorb (applyGravity (controlled c)) (Nat.odd (space_presses events)) /\
    List.length (logs (trace w')) =
      (List.length (logs (trace w)) + space_presses events)%nat.
Proof. exact (handleInputs_keys events c w). Qed.

(** X18: the mouse listener of [setupCameraEnhancements], over any
    sequence of page events: the camera's rotation ends as it started
    plus 0.002 times the mouse movement received while the pointer was
    locked on the canvas - the vertical movement on the X angle, the
    horizontal one on the Y angle, the Z angle untouched.  Movement
    received while the pointer is not locked turns nothing. *)
Theorem camera_turns_only_under_pointer_lock
        (events : list InputEvent) (c : Controls) (w : World) :
  exists c' w',
    handleInputs events c w = (JS.Normal c', w') /\
    rotation (controlled c') =
      mkVector3
        (vx (rotation (controlled c))
         + 0.002 * snd (locked_movement events (mouseListener c)))
        (vy (rotation (controlled c))
         + 0.002 * fst (locked_movement events (mouseListener c)))
        (vz (rotation (controlled c))).
Proof. exact (handleInputs_mouse events c w). Qed.

End CameraListeners.

(* ================================================================== *)
(** * Further properties: custom-features.js *)
(* ================================================================== *)

Section CustomFeatures.
Import CustomFeaturesJS ExtraSpec Samples.
Local Open Scope list_scope.
Local Open Scope R_scope.

Lemma unhighlight_restores (meshes0 : MeshId -> PickMesh) (s : Picking)
      (highlighted : MeshId) :
  highlight_consistent meshes0 s ->
  highlightedMesh s = Some highlighted ->
  highlight_consistent meshes0 (unhighlight highlighted s) /\
  highlightedMesh (unhighlight highlighted s) = None.
Proof.
  intros (N & I) H. rewrite H in I.
  destruct I as (_ & (original & O & Saved) & _ & _ & _ & Others).
  split; [| reflexivity].
  unfold highlight_consistent, unhighlight.
  cbn [sceneMeshes highlightedMesh originalMaterials panelDisplayed].
  rewrite Saved. unfold map_get, map_delete. cbn [find filter fst snd option_map].
  rewrite Nat.eqb_refl. cbn [negb option_map snd].
  assert (R : forall id, set_material highlighted (Some original) (sceneMeshes s) id
                         = meshes0 id).
  { intros id. unfold set_material. destruct (Nat.eqb_spec id highlighted) as [-> | NE].
    - rewrite N. destruct (meshes0 highlighted) as [name mat]. cbn in O |- *.
      rewrite O. reflexivity.
    - apply Others, NE. }
  split; [intros id; rewrite R; reflexivity |].
  split; [reflexivity |]. split; [reflexivity | exact R].
Qed.

Lemma onPointerMove_consistent (meshes0 : MeshId -> PickMesh)
      (pickResult : PickResult) (s : Picking) :
  highlight_consistent meshes0 s ->
  highlight_consistent meshes0 (onPointerMove pickResult s) /\
  (is_miss pickResult = true -> highlightedMesh (onPointerMove pickResult s) = None).
Proof.
  intros C. unfold onPointerMove, is_miss.
  destruct (if hit pickResult then pickedMesh pickResult else None) as [mesh |].
  2: { destruct (highlightedMesh s) as [highlighted |] eqn:H.
       - destruct (unhighlight_restores meshes0 s highlighted C H) as [C' H'].
         split; [exact C' | intros _; exact H'].
       - split; [exact C | intros _; exact H]. }
  split; [| discriminate].
  destruct (match highlightedMesh s with
            | Some highlighted => Nat.eqb mesh highlighted
            | None => false
            end || JS.includes (pick_name (sceneMeshes s mesh)) "skyBox") eqn:Skip;
    [exact C |].
  apply orb_false_iff in Skip. destruct Skip as [Same Sky].
  assert (G : forall s1,
             highlight_consistent meshes0 s1 -> highlightedMesh s1 = None ->
             highlight_consistent meshes0
               match material (sceneMeshes s1 mesh) with
               | Some mat =>
                   mkPicking (set_material mesh (Some HighlightMaterial) (sceneMeshes s1))
                             (Some mesh) (map_set mesh mat (originalMaterials s1))
                             true (Some mesh)
               | None => s1
               end).
  { intros s1 (N1 & I1) H1. rewrite H1 in I1. destruct I1 as (Saved & Panel & Same1).
    destruct (material (sceneMeshes s1 mesh)) as [mat |] eqn:Mat.
    2: { split; [exact N1 |]. rewrite H1. repeat split; assumption. }
    unfold highlight_consistent.
    cbn [sceneMeshes highlightedMesh originalMaterials panelDisplayed panelMesh].
    split.
    { intros id. unfold set_material. destruct (Nat.eqb id mesh) eqn:Q; [| apply N1].
      apply Nat.eqb_eq in Q. subst id. cbn [pick_name]. apply N1. }
    split; [unfold set_material; rewrite Nat.eqb_refl; reflexivity |].
    split; [exists mat; split; [rewrite <- Same1; exact Mat | rewrite Saved; reflexivity] |].
    split; [reflexivity |]. split; [reflexivity |].
    split.
    - rewrite <- (proj1 C mesh). exact Sky.
    - intros id NE. unfold set_material.
      destruct (Nat.eqb_spec id mesh) as [-> | _]; [contradiction | apply Same1]. }
  destruct (highlightedMesh s) as [highlighted |] eqn:H.
  - assert (Has : map_has highlighted (originalMaterials s) = true).
    { destruct C as (_ & I). rewrite H in I.
      destruct I as (_ & (original & _ & Saved) & _). rewrite Saved.
      unfold map_has. cbn. rewrite Nat.eqb_refl. reflexivity. }
    rewrite Has.
    destruct (unhighlight_restores meshes0 s highlighted C H) as [C' H'].
    apply G; assumption.
  - apply G; assumption.
Qed.

Lemma pointerMoves_consistent (meshes0 : MeshId -> PickMesh) (picks : list PickResult) :
  forall s, highlight_consistent meshes0 s ->
            highlight_consistent meshes0 (pointerMoves picks s).
Proof.
  unfold pointerMoves. induction picks as [| pick rest IH]; intros s C; [exact C |].
  cbn [fold_left]. apply IH. apply onPointerMove_consistent, C.
Qed.

Lemma addObjectPicking_consistent (meshes0 : MeshId -> PickMesh) :
  highlight_consistent meshes0 (addObjectPicking meshes0).
Proof. unfold highlight_consistent, addObjectPicking. cbn. repeat split. Qed.

(** X17: object picking, from [addObjectPicking] on a scene none of
    whose meshes uses the highlight material, through any sequence of
    pointer moves.  The state stays consistent: no mesh changes its
    name; a highlighted mesh carries the highlight material, is not a
    skybox, has its own material saved as the only saved entry and is
    shown in the displayed panel; without highlighted mesh nothing is
    saved and the panel is hidden.  A mesh carries the highlight
    material exactly when it is the highlighted one, and every other
    mesh is as the scene had it.  One more move over no mesh gives every
    mesh its own material back. *)
Theorem picking_highlights_one_mesh_and_restores_materials
        (meshes0 : MeshId -> PickMesh) (picks : list PickResult) :
  (forall id, material (meshes0 id) <> Some HighlightMaterial) ->
  highlight_consistent meshes0 (pointerMoves picks (addObjectPicking meshes0)) /\
  (forall id,
      material (sceneMeshes (pointerMoves picks (addObjectPicking meshes0)) id)
      = Some HighlightMaterial
      <-> highlightedMesh (pointerMoves picks (addObjectPicking meshes0)) = Some id) /\
  (forall miss,
      is_miss miss = true ->
      highlightedMesh (pointerMoves (picks ++ [miss]) (addObjectPicking meshes0)) = None /\
      forall id,
        sceneMeshes (pointerMoves (picks ++ [miss]) (addObjectPicking meshes0)) id
        = meshes0 id).
Proof.
  intros Clean.
  pose proof (pointerMoves_consistent meshes0 picks _ (addObjectPicking_consistent meshes0))
    as C.
  set (s := pointerMoves picks (addObjectPicking meshes0)) in *.
  split; [exact C |]. split.
  - intros id. destruct C as (_ & I).
    destruct (highlightedMesh s) as [highlighted |].
    + destruct I as (Mat & _ & _ & _ & _ & Others). split.
      * intros H. destruct (Nat.eq_dec id highlighted) as [-> | NE]; [reflexivity |].
        rewrite (Others id NE) in H. exfalso. exact (Clean id H).
      * intros [= ->]. exact Mat.
    + destruct I as (_ & _ & Same). split; [| discriminate].
      intros H. rewrite Same in H. exfalso. exact (Clean id H).
  - intros miss Miss. unfold pointerMoves. rewrite fold_left_app. cbn [fold_left].
    fold (pointerMoves picks (addObjectPicking meshes0)). fold s.
    destruct (onPointerMove_consistent meshes0 miss s C) as [(_ & I) H].
    specialize (H Miss). rewrite H in I. destruct I as (_ & _ & Same).
    split; [exact H | exact Same].
Qed.

Lemma picking_highlights_one_mesh_and_restores_materials_witness :
  highlight_consistent
    (fun id => mkPickMesh "crate" (Some (SceneMaterial id)))
    (pointerMoves [mkPickResult true (Some 1%nat); mkPickResult true (Some 2%nat)]
                  (addObjectPicking (fun id => mkPickMesh "crate" (Some (SceneMaterial id))))) /\
  (forall id,
      material (sceneMeshes
                  (pointerMoves
                     [mkPickResult true (Some 1%nat); mkPickResult true (Some 2%nat)]
                     (addObjectPicking
                        (fun id => mkPickMesh "crate" (Some (SceneMaterial id))))) id)
      = Some HighlightMaterial
      <-> highlightedMesh
            (pointerMoves
               [mkPickResult true (Some 1%nat); mkPickResult true (Some 2%nat)]
               (addObjectPicking (fun id => mkPickMesh "crate" (Some (SceneMaterial id)))))
          = Some id) /\
  (forall miss,
      is_miss miss = true ->
      highlightedMesh
        (pointerMoves
           ([mkPickResult true (Some 1%nat); mkPickResult true (Some 2%nat)] ++ [miss])
           (addObjectPicking (fun id => mkPickMesh "crate" (Some (SceneMaterial id)))))
      = None /\
      forall id,
        sceneMeshes
          (pointerMoves
             ([mkPickResult true (Some 1%nat); mkPickResult true (Some 2%nat)] ++ [miss])
             (addObjectPicking (fun id => mkPickMesh "crate" (Some (SceneMaterial id)))))
          id
        = mkPickMesh "crate" (Some (SceneMaterial id))).
Proof.
  apply (picking_highlights_one_mesh_and_restores_materials
           (fun id => mkPickMesh "crate" (Some (SceneMaterial id)))
           [mkPickResult true (Some 1%nat); mkPickResult true (Some 2%nat)]).
  intros id. discriminate.
Defined.

Lemma timeouts_fired_cons (event : JumpEvent) (events : list JumpEvent) :
  timeouts_fired (event :: events) =
  ((match event with TimeoutFires => 1 | _ => 0 end) + timeouts_fired events)%nat.
Proof. unfold timeouts_fired. cbn [filter]. destruct event; reflexivity. Qed.

Lemma jumpEvents_run (events : list JumpEvent) :
  forall j,
    pendingTimeouts j = (if isJumping j then 1%nat else 0%nat) ->
    pendingTimeouts (jumpEvents events j)
    = (if isJumping (jumpEvents events j) then 1%nat else 0%nat) /\
    exists jumps,
      cameraDirectionY (jumpEvents events j) = cameraDirectionY j + 0.1 * INR jumps /\
      (jumps <= timeouts_fired events + (if isJumping j then 0 else 1))%nat.
Proof.
  unfold jumpEvents. induction events as [| event rest IH]; intros j Inv.
  - cbn [fold_left]. split; [exact Inv |]. exists 0%nat. cbn [INR].
    split; [lra | lia].
  - cbn [fold_left]. rewrite timeouts_fired_cons.
    destruct event as [keydown keyCode |]; cbn [onJumpEvent].
    + destruct (keydown && (keyCode =? 32)%Z && negb (isJumping j)) eqn:Accepted.
      * apply andb_true_iff in Accepted. destruct Accepted as [_ NJ].
        apply negb_true_iff in NJ. rewrite NJ in Inv |- *.
        destruct (IH (mkJump true (cameraDirectionY j + 0.1) (S (pendingTimeouts j))))
          as (Inv' & jumps & D & B).
        { cbn. rewrite Inv. reflexivity. }
        split; [exact Inv' |]. exists (S jumps). rewrite D. cbn [cameraDirectionY isJumping] in *.
        rewrite S_INR. split; [lra | lia].
      * destruct (IH j Inv) as (Inv' & jumps & D & B).
        split; [exact Inv' |]. exists jumps. split; [exact D | exact B].
    + destruct (pendingTimeouts j) as [| n] eqn:P.
      * destruct (IH j) as (Inv' & jumps & D & B); [rewrite P; exact Inv |].
        split; [exact Inv' |]. exists jumps. split; [exact D | lia].
      * destruct (isJumping j) eqn:J; [| discriminate Inv].
        injection Inv as ->.
        destruct (IH (mkJump false (cameraDirectionY j) 0)) as (Inv' & jumps & D & B);
          [reflexivity |].
        split; [exact Inv' |]. exists jumps. cbn [cameraDirectionY isJumping] in *.
        split; [exact D | lia].
Qed.

(** X16: the jump of the first-person controller, from its start (not
    jumping, no time-out set) through any sequence of keyboard events
    and fired time-outs.  A time-out is pending exactly while the jump
    flag is set, and never more than one; the camera's upward direction
    has received 0.1 once per accepted jump, and at most one more jump
    was accepted than time-outs have fired, so a press of the space key
    during a jump is ignored. *)
Theorem jump_is_accepted_once_per_timeout (events : list JumpEvent) (y0 : R) :
  pendingTimeouts (jumpEvents events (mkJump false y0 0))
  = (if isJumping (jumpEvents events (mkJump false y0 0)) then 1%nat else 0%nat) /\
  exists jumps,
    cameraDirectionY (jumpEvents events (mkJump false y0 0)) = y0 + 0.1 * INR jumps /\
    (jumps <= timeouts_fired events + 1)%nat.
Proof. exact (jumpEvents_run events (mkJump false y0 0) eq_refl). Qed.

(** X14: after the scene's [setupCamera], with a scene in the manifest
    and no engine failure, the scene has an active camera, and
    [addFirstPersonController] on it depends on the manifest alone.
    With a camera record it succeeds and writes nothing: the camera
    stands at (0, 2, 0) with rotation (0, 0, 0) whatever matrix the
    record holds, moves at speed 0.5 with inertia 0.3, checks collisions
    and applies gravity under a scene gravity of (0, -9.81, 0), and
    its four direction keys are W, S, A, D first and the arrows second.
    Without camera record the active camera is the orbiting default, and
    the controller only writes one error to the console. *)
Theorem first_person_controller_needs_a_manifest_camera
        (host : Host) (projectData : ProjectData)
        (sceneData : SceneData) (others : list SceneData) (w : World) :
  phase_fault host CameraSetup = None ->
  scenes projectData = sceneData :: others ->
  exists w1 camera,
    SceneJS.setupCamera host projectData w = (JS.Normal tt, w1) /\
    activeCamera w1 = Some camera /\
    match scene_cameras sceneData with
    | Some (_ :: _) =>
        exists controller,
          addFirstPersonController camera w1 = (JS.Normal (Some controller), w1) /\
          position (fp_camera controller) = mkVector3 0 2 0 /\
          rotation (fp_camera controller) = mkVector3 0 0 0 /\
          speed (fp_camera controller) = 0.5 /\
          inertia (fp_camera controller) = 0.3 /\
          checkCollisions (fp_camera controller) = true /\
          applyGravity (fp_camera controller) = true /\
          sceneGravity controller = mkVector3 0 (-9.81) 0 /\
          (keysUp (fp_camera controller), keysDown (fp_camera controller),
           keysLeft (fp_camera controller), keysRight (fp_camera controller))
          = ([87; 38], [83; 40], [65; 37], [68; 39])%Z
    | _ =>
        addFirstPersonController camera w1
        = (JS.Normal None,
           with_trace
             (trace w1
              ++ [ConsoleError
                    "[ERROR] First person controller requires a Universal or Free camera"])
             w1)
    end.
Proof.
  intros F S.
  destruct (setupCamera_state host projectData sceneData others w F S)
    as (w1 & camera & E & _ & _ & A & K).
  exists w1, camera. split; [exact E |]. split; [exact A |].
  destruct (scene_cameras sceneData) as [[| cameraData rest] |].
  - subst camera. reflexivity.
  - destruct K as (c & -> & _). eexists. split; [reflexivity |].
    cbn. repeat split.
  - subst camera. reflexivity.
Qed.

Lemma first_person_controller_needs_a_manifest_camera_witness :
  exists w1 camera,
    SceneJS.setupCamera (calmHost cameraProject) cameraProject World0
    = (JS.Normal tt, w1) /\
    activeCamera w1 = Some camera /\
    exists controller,
      addFirstPersonController camera w1 = (JS.Normal (Some controller), w1) /\
      position (fp_camera controller) = mkVector3 0 2 0 /\
      rotation (fp_camera controller) = mkVector3 0 0 0 /\
      speed (fp_camera controller) = 0.5 /\
      inertia (fp_camera controller) = 0.3 /\
      checkCollisions (fp_camera controller) = true /\
      applyGravity (fp_camera controller) = true /\
      sceneGravity controller = mkVector3 0 (-9.81) 0 /\
      (keysUp (fp_camera controller), keysDown (fp_camera controller),
       keysLeft (fp_camera controller), keysRight (fp_camera controller))
      = ([87; 38], [83; 40], [65; 37], [68; 39])%Z.
Proof.
  apply (first_person_controller_needs_a_manifest_camera
           (calmHost cameraProject) cameraProject cameraScene [] World0); reflexivity.
Defined.

End CustomFeatures.

(* ================================================================== *)
(** * Further properties: what the decoders read *)
(* ================================================================== *)

Section DecodedPlacement.
Import CameraJS LightJS ExtraSpec Samples.
Local Open Scope list_scope.
Local Open Scope R_scope.

Lemma decompose_scaling_translation16 (sx sy sz tx ty tz : R) :
  0 < sx -> 0 < sy -> 0 < sz ->
  decompose (transpose (FromArray (scaling_translation16 sx sy sz tx ty tz)))
  = (mkVector3 sx sy sz, mkQuaternion 0 0 0 1, mkVector3 0 0 0).
Proof.
  intros X Y Z.
  change (transpose (FromArray (scaling_translation16 sx sy sz tx ty tz)))
    with (FromValues sx 0 0 tx  0 sy 0 ty  0 0 sz tz  0 0 0 1).
  unfold decompose.
  assert (D : determinant (FromValues sx 0 0 tx  0 sy 0 ty  0 0 sz tz  0 0 0 1)
              = sx * sy * sz)
    by (unfold determinant;
        cbn [m0 m1 m2 m3 m4 m5 m6 m7 m8 m9 m10 m11 m12 m13 m14 m15]; ring).
  assert (P : 0 < sx * sy * sz) by (repeat apply Rmult_lt_0_compat; assumption).
  rewrite D. rewrite if_Rle_false by lra.
  cbn [m0 m1 m2 m3 m4 m5 m6 m7 m8 m9 m10 m11 m12 m13 m14 m15].
  replace (sx * sx + 0 * 0 + 0 * 0) with (sx * sx) by ring.
  replace (0 * 0 + sy * sy + 0 * 0) with (sy * sy) by ring.
  replace (0 * 0 + 0 * 0 + sz * sz) with (sz * sz) by ring.
  rewrite !sqrt_square by lra.
  rewrite !if_Req_false by lra.
  replace (FromValues (sx * (1 / sx)) (0 * (1 / sx)) (0 * (1 / sx)) 0
                      (0 * (1 / sy)) (sy * (1 / sy)) (0 * (1 / sy)) 0
                      (0 * (1 / sz)) (0 * (1 / sz)) (sz * (1 / sz)) 0
                      0 0 0 1)
    with Identity
    by (unfold Identity; apply Matrix_ext; try reflexivity; field; lra).
  rewrite FromRotationMatrix_Identity. reflexivity.
Qed.

Lemma forward_through_identity :
  TransformCoordinates (mkVector3 0 0 (-1)) Identity = mkVector3 0 0 (-1).
Proof.
  unfold TransformCoordinates, Identity.
  cbn [vx vy vz m0 m1 m2 m3 m4 m5 m6 m7 m8 m9 m10 m11 m12 m13 m14 m15].
  f_equal; field.
Qed.

(** X19: every 16-element array decodes to a position made of its
    entries 3, 7 and 11: the light-side decoders return
    (a3, a7, a11) and the camera stands at (-a3, a7, a11).  Entries 12
    to 14, where a column-major matrix keeps its translation, never reach
    the position. *)
Theorem decoders_read_position_from_entries_3_7_11
        (camera : Camera) (a0 a1 a2 a3 a4 a5 a6 a7 a8 a9 a10 a11 a12 a13 a14 a15 : R) :
  position (applyTransformation camera
              [a0; a1; a2; a3; a4; a5; a6; a7; a8; a9; a10; a11; a12; a13; a14; a15])
  = mkVector3 (- a3) a7 a11 /\
  getPositionFromMatrix
    [a0; a1; a2; a3; a4; a5; a6; a7; a8; a9; a10; a11; a12; a13; a14; a15]
  = mkVector3 a3 a7 a11 /\
  fst (getPositionAndDirectionFromMatrix
         [a0; a1; a2; a3; a4; a5; a6; a7; a8; a9; a10; a11; a12; a13; a14; a15])
  = mkVector3 a3 a7 a11.
Proof.
  rewrite applyTransformation_position, getPositionAndDirection_position,
    getPositionFromMatrix_entries.
  repeat split.
Qed.

(** X20: a transform without rotation - a positive scale along each
    axis and any translation (tx, ty, tz) in entries 12 to 14, as the
    camera of the default project has it - is decoded as if it were the
    identity: the camera stands at the origin with Euler angles
    (0, -PI, 0), the light-side decoder returns the origin and the
    direction (0, 0, -1), and a directional light made from it stands at
    the origin and shines along (0, 0, -1), whatever the scale and the
    translation. *)
Theorem unrotated_transform_decodes_like_the_identity
        (sx sy sz tx ty tz : R) (camera : Camera)
        (name type : option string) (color : option (list R))
        (intensity range angle exponent : option R) (castShadows : option bool)
        (w : World) :
  0 < sx -> 0 < sy -> 0 < sz ->
  position (applyTransformation camera (scaling_translation16 sx sy sz tx ty tz))
  = mkVector3 0 0 0 /\
  rotation (applyTransformation camera (scaling_translation16 sx sy sz tx ty tz))
  = mkVector3 0 (- PI) 0 /\
  getPositionAndDirectionFromMatrix (scaling_translation16 sx sy sz tx ty tz)
  = (mkVector3 0 0 0, mkVector3 0 0 (-1)) /\
  exists light w',
    createDirectionalLight
      (mkLightData name type (Some (scaling_translation16 sx sy sz tx ty tz))
                   color intensity range angle exponent castShadows) w
    = (JS.Normal light, w') /\
    light_position light = Some (mkVector3 0 0 0) /\
    light_direction light = Some (mkVector3 0 0 (-1)).
Proof.
  intros X Y Z.
  pose proof (decompose_scaling_translation16 sx sy sz tx ty tz X Y Z) as D.
  assert (PD : getPositionAndDirectionFromMatrix
                 (scaling_translation16 sx sy sz tx ty tz)
               = (mkVector3 0 0 0, mkVector3 0 0 (-1))).
  { unfold getPositionAndDirectionFromMatrix.
    rewrite D, toRotationMatrix_identity, forward_through_identity.
    reflexivity. }
  split; [| split; [| split; [exact PD |]]].
  - unfold applyTransformation. rewrite D.
    rewrite toRotationMatrix_identity, half_turn_quaternion, half_turn_euler.
    cbn [set_placement position vx vy vz]. f_equal; lra.
  - unfold applyTransformation. rewrite D.
    rewrite toRotationMatrix_identity, half_turn_quaternion, half_turn_euler.
    reflexivity.
  - unfold createDirectionalLight. cbn [ld_matrix]. rewrite PD.
    cbv delta [bind get set_meshes add_light modify ret]. cbn beta iota.
    destruct (JS.or_false _);
      (eexists; eexists; split; [reflexivity |]);
      cbn [light_position light_direction fst snd flipX vx vy vz];
      unfold flipX; cbn [vx vy vz]; split; f_equal; f_equal; lra.
Qed.

Lemma unrotated_transform_decodes_like_the_identity_witness :
  position (applyTransformation camera0 defaultProjectCamera) = mkVector3 0 0 0 /\
  rotation (applyTransformation camera0 defaultProjectCamera) = mkVector3 0 (- PI) 0 /\
  getPositionAndDirectionFromMatrix defaultProjectCamera
  = (mkVector3 0 0 0, mkVector3 0 0 (-1)) /\
  exists light w',
    createDirectionalLight
      (mkLightData (Some "MainLight") (Some "SUN") (Some defaultProjectCamera)
                   (Some [1; 1; 1]) (Some 1) None None None (Some true)) World0
    = (JS.Normal light, w') /\
    light_position light = Some (mkVector3 0 0 0) /\
    light_direction light = Some (mkVector3 0 0 (-1)).
Proof.
  apply (unrotated_transform_decodes_like_the_identity
           1 1 1 0 2 (-10) camera0 (Some "MainLight") (Some "SUN") (Some [1; 1; 1])
           (Some 1) None None None (Some true) World0); lra.
Defined.

End DecodedPlacement.

(* ================================================================== *)
(** * Further properties: failures *)
(* ================================================================== *)

Section Failures.
Import AssetManagerJS SceneJS ExtraSpec Observations Samples.
Local Open Scope list_scope.

(** X21: when a task fails, the scene's handlers write the error
    "Error loading asset: undefined" - the engine hands the manager the
    task without its message - preceded, for a model task only, by
    "Failed to load model: name - message".  A pending promise is
    rejected with the task, a settled one stays as it is; and if the
    failed task was the last one waiting, the console log still gets
    "All assets loaded". *)
Theorem failed_task_is_reported_without_its_message
        (task : AssetTask) (message : string) (remaining total : Z) (w : World) :
  exists w',
    complete_task callbacks task (Failed message) remaining total w = (JS.Normal tt, w') /\
    errors (trace w') =
      errors (trace w)
      ++ (if is_mesh_task task
          then ["[ERROR] Failed to load model: " ++ task_name task ++ " - " ++ message]%string
          else [])
      ++ ["[ERROR] Error loading asset: undefined"] /\
    logs (trace w') =
      logs (trace w) ++ (if (remaining =? 0)%Z then ["All assets loaded"] else []) /\
    promise w' =
      match promise w with
      | Pending => Rejected (JS.FailedTask (task_name task))
      | settled => settled
      end.
Proof.
  unfold complete_task, onProgress, onFinish, onTaskError, callbacks.
  cbn [onProgressCallback onLoadedCallback onErrorCallback].
  unfold loadingProgress.
  destruct task as [name mn root file | name url | name url | name url];
    cbn [task_onError is_mesh_task task_name]; unfold meshTask_onError;
    cbn [onErrorCallback]; cbv delta [bind]; js_run;
    destruct (promise w) eqn:P; js_run; rewrite ?P;
    destruct (remaining =? 0)%Z; js_run; rewrite ?P;
    (eexists; split; [reflexivity |]); js_run;
    rewrite ?errors_app, ?logs_app; cbn [errors logs];
    rewrite ?app_nil_r, <- ?app_assoc; cbn [app];
    repeat split; rewrite ?P; reflexivity.
Qed.

(** X22: a manifest that was fetched but lists no scene stops the
    initialization in its first phase: the title is set, the scene's
    environment phase is entered and throws, and the application returns
    normally after one console error and the update 0 "Error: ...".
    Nothing was added to the scene: no mesh, no light, no camera. *)
Theorem manifest_without_scene_stops_at_the_environment
        (host : Host) (projectFile : string) (projectData : ProjectData) (w : World) :
  fetched (fetch host) projectData ->
  engine_fault host = None ->
  phase_fault host EnvironmentSetup = None ->
  scenes projectData = [] ->
  exists w' line reason,
    AppJS.initialize host projectFile w = (JS.Normal tt, w') /\
    trace w' =
      trace w
      ++ [Progress 10 "Loading project configuration...";
          Progress 20 "Creating engine...";
          SetTitle (JS.or_string (project_name projectData) "SimpleBEX Project");
          Progress 30 "Creating scene...";
          ConsoleLog "Creating scene";
          Enter EnvironmentSetup;
          ConsoleError line;
          Progress 0 ("Error: " ++ reason)] /\
    meshes w' = meshes w /\ lights w' = lights w /\ activeCamera w' = activeCamera w.
Proof.
  intros [status N] G F S.
  unfold AppJS.initialize, try_catch. cbv delta [bind]. js_run.
  rewrite N.
  change (UtilityJS.loadJSON projectFile
            (Response true status (Text (Parsed (Some projectData)))) ?w)
    with (JS.Normal (Some projectData), w).
  js_run. rewrite G. js_run.
  unfold SceneJS.initialize, createEnvironment, sceneData_of.
  cbv delta [bind]. js_run.
  rewrite (enter_ok _ _ _ F). rewrite S. js_run.
  eexists. eexists. eexists. split; [reflexivity |]. js_run.
  rewrite <- !app_assoc. cbn [app]. repeat split.
Qed.

Lemma manifest_without_scene_stops_at_the_environment_witness :
  exists w' line reason,
    AppJS.initialize (calmHost (mkProjectData (Some "empty") None []))
                     "assets/project.json" World0
    = (JS.Normal tt, w') /\
    trace w' =
      trace World0
      ++ [Progress 10 "Loading project configuration...";
          Progress 20 "Creating engine...";
          SetTitle (JS.or_string (project_name (mkProjectData (Some "empty") None []))
                                 "SimpleBEX Project");
          Progress 30 "Creating scene...";
          ConsoleLog "Creating scene";
          Enter EnvironmentSetup;
          ConsoleError line;
          Progress 0 ("Error: " ++ reason)] /\
    meshes w' = meshes World0 /\ lights w' = lights World0 /\
    activeCamera w' = activeCamera World0.
Proof.
  apply (manifest_without_scene_stops_at_the_environment
           (calmHost (mkProjectData (Some "empty") None []))
           "assets/project.json" (mkProjectData (Some "empty") None []) World0);
    try reflexivity.
  exists 200%Z. reflexivity.
Defined.

End Failures.

(* ================================================================== *)
(** * Further properties: the order of the progress updates *)
(* ================================================================== *)

Section ProgressOrder.
Import AssetManagerJS SceneJS ExtraSpec Observations Samples.
Local Open Scope list_scope.





















End ProgressOrder.

(* ================================================================== *)
(** * Further properties: the default project *)
(* ================================================================== *)

Section DefaultProject.
Import UtilityJS CameraJS LightJS SceneJS ExtraSpec Observations Samples.
Local Open Scope list_scope.
Local Open Scope R_scope.

Lemma default_camera_placement (camera : Camera) :
  applyTransformation camera [1; 0; 0; 0;  0; 1; 0; 0;  0; 0; 1; 0;  0; 2; -10; 1]
  = set_placement camera (mkVector3 0 0 0) (mkVector3 0 (- PI) 0).
Proof.
  unfold applyTransformation.
  change [1; 0; 0; 0;  0; 1; 0; 0;  0; 0; 1; 0;  0; 2; -10; 1]
    with (scaling_translation16 1 1 1 0 2 (-10)).
  rewrite decompose_scaling_translation16 by lra.
  rewrite toRotationMatrix_identity, half_turn_quaternion, half_turn_euler.
  cbn [vx vy vz]. replace (- 0) with 0 by lra. reflexivity.
Qed.

Lemma default_light_placement :
  getPositionAndDirectionFromMatrix
    [1; 0; 0; 0;  0; 1; 0; 0;  0; 0; 1; 0;  0; 10; 0; 1]
  = (mkVector3 0 0 0, mkVector3 0 0 (-1)).
Proof.
  unfold getPositionAndDirectionFromMatrix.
  change [1; 0; 0; 0;  0; 1; 0; 0;  0; 0; 1; 0;  0; 10; 0; 1]
    with (scaling_translation16 1 1 1 0 10 0).
  rewrite decompose_scaling_translation16 by lra.
  rewrite toRotationMatrix_identity, forward_through_identity. reflexivity.
Qed.

Lemma default_scene_run (host : Host) (name : option string) (w : World) :
  (forall phase, phase_fault host phase = None) ->
  meshes w = [] -> lights w = [] ->
  exists w' camera light generator,
    SceneJS.initialize host (createDefaultProject name) w = (JS.Normal tt, w') /\
    percents (trace w') = percents (trace w) ++ [40; 50; 70; 80]%Z /\
    activeCamera w' = Some (Universal camera) /\
    camera_id camera = "MainCamera"%string /\
    position camera = mkVector3 0 0 0 /\
    rotation camera = mkVector3 0 (- PI) 0 /\
    lights w' = [light] /\
    kind light = DirectionalLight /\
    light_id light = "MainLight"%string /\
    light_position light = Some (mkVector3 0 0 0) /\
    light_direction light = Some (mkVector3 0 0 (-1)) /\
    intensity light = Some 1 /\
    shadowGenerator light = Some generator /\
    renderList generator = [] /\
    meshes w' = [] /\
    clearColor w' = Some (mkColor4 0.1 0.1 0.1 1) /\
    ambientColor w' = Some (mkColor3 0.1 0.1 0.1).
Proof.
  intros F M0 L0.
  unfold SceneJS.initialize, createEnvironment, setupCamera, loadAssets, setupLights,
    setupActionManager, sceneData_of, enter, createDefaultProject.
  cbn [scenes]. rewrite !F.
  cbv delta [bind]. js_run. cbv beta zeta.
  cbn [environment backgroundType backgroundColor skyboxTexture scene_cameras
       scene_lights glb_groups String.eqb Ascii.eqb Bool.eqb nth_error assets_of].
  unfold CameraJS.setupCamera, setupCameraEnhancements.
  cbn [cam_name cam_matrix cam_checkCollisions cam_applyGravity].
  rewrite default_camera_placement.
  cbv delta [bind]. js_run. cbv beta zeta.
  unfold AssetManagerJS.loadAssets, AssetManagerJS.load, AssetManagerJS.onFinish, callbacks.
  cbn [forEach AssetManagerJS.onLoadedCallback].
  cbv delta [bind]. js_run. cbn [await]. cbv delta [bind]. js_run.
  cbn [forEach]. unfold LightJS.setupLights, createDirectionalLight.
  cbn [ld_name ld_type ld_matrix ld_color ld_intensity ld_castShadows
       String.eqb Ascii.eqb Bool.eqb JS.or_false].
  rewrite default_light_placement.
  cbv delta [bind]. js_run. cbv beta zeta.
  rewrite M0, L0.
  eexists. eexists. eexists. eexists. split; [reflexivity |]. js_run.
  split.
  { rewrite !percents_app. cbn [percents app]. rewrite ?app_nil_r, <- ?app_assoc.
    reflexivity. }
  cbn [camera_id position rotation set_placement UniversalCamera_new
       kind light_id light_position light_direction intensity shadowGenerator
       renderList app map shadow_casters filter JS.or_string JS.truthy_string
       String.eqb Ascii.eqb Bool.eqb negb].
  unfold flipX, SceneJS.Color4_of, LightJS.Color3_of. cbn [vx vy vz nth].
  replace (- 0) with 0 by lra.
  repeat split; reflexivity.
Qed.
(** X24: the application on the default project.  When the manifest is
    what [createDefaultProject] returns, for any name, and neither the
    engine nor a phase fails, [initialize] on a fresh scene returns
    normally after showing 10, 20, 30, 40, 50, 70, 80, 90, 100.  The
    scene then has no mesh, the background (0.1, 0.1, 0.1) as clear and
    ambient colour, and the universal camera MainCamera at the origin
    with Euler angles (0, -PI, 0) - not at the (0, 2, -10) its matrix
    holds in entries 12 to 14.  Its one light is the directional
    MainLight of intensity 1, at the origin - not at (0, 10, 0) -
    shining along (0, 0, -1), with a shadow generator that renders
    nothing. *)
Theorem default_project_run
        (host : Host) (projectFile : string) (name : option string) (w : World) :
  fetched (fetch host) (createDefaultProject name) ->
  engine_fault host = None ->
  (forall phase, phase_fault host phase = None) ->
  meshes w = [] -> lights w = [] ->
  exists w' camera light generator,
    AppJS.initialize host projectFile w = (JS.Normal tt, w') /\
    percents (trace w') = percents (trace w) ++ [10; 20; 30; 40; 50; 70; 80; 90; 100]%Z /\
    activeCamera w' = Some (Universal camera) /\
    camera_id camera = "MainCamera"%string /\
    position camera = mkVector3 0 0 0 /\
    rotation camera = mkVector3 0 (- PI) 0 /\
    lights w' = [light] /\
    kind light = DirectionalLight /\
    light_id light = "MainLight"%string /\
    light_position light = Some (mkVector3 0 0 0) /\
    light_direction light = Some (mkVector3 0 0 (-1)) /\
    intensity light = Some 1 /\
    shadowGenerator light = Some generator /\
    renderList generator = [] /\
    meshes w' = [] /\
    clearColor w' = Some (mkColor4 0.1 0.1 0.1 1) /\
    ambientColor w' = Some (mkColor3 0.1 0.1 0.1).
Proof.
  intros [status N] G F M0 L0.
  unfold AppJS.initialize, try_catch. cbv delta [bind]. js_run.
  rewrite N.
  change (UtilityJS.loadJSON projectFile
            (Response true status (Text (Parsed (Some (createDefaultProject name))))) ?w)
    with (JS.Normal (Some (createDefaultProject name)), w).
  js_run. rewrite G. js_run.
  set (w1 := with_trace _ (with_trace _ (with_trace _ (with_trace _ w)))).
  destruct (default_scene_run host name w1 F M0 L0)
    as (w2 & camera & light & generator & E2 & P2 & Facts).
  rewrite E2. unfold AppJS.run.
  cbn [debug createDefaultProject JS.or_false andb].
  cbv delta [bind]. js_run.
  exists (with_trace
            ((((trace w2 ++ [Progress 90 "Starting render loop..."]) ++ [RunRenderLoop])
              ++ [Progress 100 "Ready!"]) ++ [SetTimeout 500])
            (with_trace
               (((trace w2 ++ [Progress 90 "Starting render loop..."]) ++ [RunRenderLoop])
                ++ [Progress 100 "Ready!"])
               (with_trace
                  ((trace w2 ++ [Progress 90 "Starting render loop..."]) ++ [RunRenderLoop])
                  (with_trace (trace w2 ++ [Progress 90 "Starting render loop..."]) w2)))),
    camera, light, generator.
  split; [reflexivity |]. js_run.
  split; [| exact Facts].
  rewrite !percents_app, P2. subst w1. js_run. rewrite !percents_app.
  cbn [percents app]. rewrite ?app_nil_r, <- ?app_assoc. reflexivity.
Qed.

Lemma default_project_run_witness :
  exists w' camera light generator,
    AppJS.initialize (calmHost (createDefaultProject None)) "assets/project.json" World0
    = (JS.Normal tt, w') /\
    percents (trace w')
    = percents (trace World0) ++ [10; 20; 30; 40; 50; 70; 80; 90; 100]%Z /\
    activeCamera w' = Some (Universal camera) /\
    camera_id camera = "MainCamera"%string /\
    position camera = mkVector3 0 0 0 /\
    rotation camera = mkVector3 0 (- PI) 0 /\
    lights w' = [light] /\
    kind light = DirectionalLight /\
    light_id light = "MainLight"%string /\
    light_position light = Some (mkVector3 0 0 0) /\
    light_direction light = Some (mkVector3 0 0 (-1)) /\
    intensity light = Some 1 /\
    shadowGenerator light = Some generator /\
    renderList generator = [] /\
    meshes w' = [] /\
    clearColor w' = Some (mkColor4 0.1 0.1 0.1 1) /\
    ambientColor w' = Some (mkColor3 0.1 0.1 0.1).
Proof.
  apply (default_project_run (calmHost (createDefaultProject None))
                             "assets/project.json" None World0);
    try reflexivity.
  exists 200%Z. reflexivity.
Defined.

End DefaultProject.
